(** * GitLab MCP server: credential resolution, REST client and pagination

A shallow embedding of the TypeScript sources
- [types/env.ts]        (tenant credentials, parsed from request headers),
- [client.ts]           ([GitLabClientImpl]: the two request executors,
                         the raw-text calls and one method per operation),
- [utils/pagination.ts] (pagination helpers),
- [index.ts]            (the [/mcp] boundary of the Worker),
followed by the properties of the specification that concern them.

JavaScript values are embedded dynamically ([JsValue]); promises are
embedded as computations over the log of requests handed to [fetch], so
that "no request reaches the transport" is a statement about that log.
What [fetch] makes of the path of a URL is modelled after the URL
standard ([URL]). *)

From Stdlib Require Import ZArith Ascii String List Lia Bool.
From stdpp Require Import base option list strings gmap pretty.

Local Set Warnings "-register-all".
Local Open Scope Z_scope.

(** ** JavaScript strings, numbers and values *)

Module Js.

(** Strings are held as their UTF-8 bytes.  Character-level functions
    below act on bytes, which is what [encodeURIComponent] and the
    form-urlencoded serializer do after their UTF-8 encoding step.  A
    lone surrogate, which a JavaScript string may hold and UTF-8 has no
    form for, is held as the three bytes its code point would give: [ED],
    a byte from [A0] to [BF], and a continuation byte. *)

Definition code (c : ascii) : N := N_of_ascii c.

Definition in_range (lo hi : N) (c : ascii) : bool :=
  ((lo <=? code c) && (code c <=? hi))%N.

Definition is_upper : ascii -> bool := in_range 65 90.
Definition is_lower : ascii -> bool := in_range 97 122.
Definition is_digit : ascii -> bool := in_range 48 57.
Definition is_alnum (c : ascii) : bool := is_upper c || is_lower c || is_digit c.

Definition is_one_of (cs : list N) (c : ascii) : bool :=
  existsb (N.eqb (code c)) cs.

Definition to_lower (c : ascii) : ascii :=
  if is_upper c then ascii_of_N (code c + 32) else c.

Fixpoint map_chars (f : ascii -> string) (s : string) : string :=
  match s with
  | EmptyString => EmptyString
  | String c rest => f c +:+ map_chars f rest
  end.

Definition single (c : ascii) : string := String c EmptyString.

(** [String.prototype.toLowerCase] on ASCII letters (header names). *)
Definition toLowerCase : string -> string := map_chars (fun c => single (to_lower c)).

Definition hex_digit (n : N) : ascii :=
  if (n <? 10)%N then ascii_of_N (48 + n) else ascii_of_N (55 + n).

Definition percent_byte (c : ascii) : string :=
  String "%" (String (hex_digit (code c / 16)) (String (hex_digit (code c mod 16)) EmptyString)).

(** [String.prototype.isWellFormed]: no lone surrogate. *)
Fixpoint has_lone_surrogate (s : string) : bool :=
  match s with
  | EmptyString => false
  | String a rest =>
      match rest with
      | EmptyString => false
      | String b _ =>
          ((code a =? 237)%N && in_range 160 191 b) || has_lone_surrogate rest
      end
  end.

Definition isWellFormed (s : string) : bool := negb (has_lone_surrogate s).

(** U+FFFD, as UTF-8. *)
Definition replacement_character : string :=
  String (ascii_of_N 239) (String (ascii_of_N 191) (String (ascii_of_N 189) EmptyString)).

(** [String.prototype.toWellFormed], the conversion to a [USVString]:
    every lone surrogate becomes U+FFFD. *)
Fixpoint toWellFormed (s : string) : string :=
  match s with
  | EmptyString => EmptyString
  | String a rest =>
      match rest with
      | EmptyString => s
      | String b rest2 =>
          if (code a =? 237)%N && in_range 160 191 b then
            replacement_character
            +:+ match rest2 with
                | EmptyString => EmptyString
                | String _ rest3 => toWellFormed rest3
                end
          else String a (toWellFormed rest)
      end
  end.

(** [encodeURIComponent] on a well-formed string: every byte is escaped
    except the unreserved marks  A-Z a-z 0-9 - _ . ! ~ * ' ( ) .  On a
    string that is not well formed the function throws a [URIError]
    instead of returning; the check is made where the methods call it
    ([Client.invoke]). *)
Definition uri_unreserved (c : ascii) : bool :=
  is_alnum c || is_one_of [45; 95; 46; 33; 126; 42; 39; 40; 41]%N c.

Definition encodeURIComponent : string -> string :=
  map_chars (fun c => if uri_unreserved c then single c else percent_byte c).

(** The [application/x-www-form-urlencoded] byte serializer used by
    [URLSearchParams.prototype.toString]. *)
Definition form_safe (c : ascii) : bool :=
  is_alnum c || is_one_of [42; 45; 46; 95]%N c.

Definition form_urlencode : string -> string :=
  map_chars (fun c =>
    if form_safe c then single c
    else if (code c =? 32)%N then "+"
    else percent_byte c).

(** [String.prototype.includes] for a one-character needle. *)
Fixpoint includes_char (c : ascii) (s : string) : bool :=
  match s with
  | EmptyString => false
  | String d rest => (code d =? code c)%N || includes_char c rest
  end.

(** Number of UTF-16 code units of a string held as UTF-8: one per
    non-continuation byte, one more for a four-byte lead. *)
Fixpoint utf16_length (s : string) : Z :=
  match s with
  | EmptyString => 0
  | String c rest =>
      (if in_range 128 191 c then 0
       else if (240 <=? code c)%N then 2 else 1) + utf16_length rest
  end.

(** *** Numbers

The numbers that occur on the modelled paths are integral (status
codes, page sizes and indices, header values, identifiers), so a
number is [NaN] or an integer; [-0] is identified with [0].  Fractions
and the infinities are not represented. *)

Inductive number := NaN | Num (z : Z).

(** The double nearest to an integer, ties to the even significand: an
    integer of magnitude below 2^53 is a double; above, the doubles are
    the multiples of [2^(e-52)] for magnitudes from [2^e] to [2^(e+1)].
    (Magnitudes from 2^1024 on, which round to an infinity, are out of
    the model's range.) *)
Definition round_double (z : Z) : Z :=
  let a := Z.abs z in
  let e := Z.log2 a in
  if e <=? 52 then z
  else
    let ulp := 2 ^ (e - 52) in
    let q := a / ulp in
    let r := a mod ulp in
    let half := ulp / 2 in
    let q' :=
      if r <? half then q
      else if half <? r then q + 1
      else if Z.even q then q else q + 1 in
    Z.sgn z * (q' * ulp).

Definition number_truthy (n : number) : bool :=
  match n with NaN => false | Num z => negb (z =? 0) end.

(** [String(n)]: the decimal digits of an integer.  (From 2^53 on
    JavaScript prints the shortest digits that identify the double, and
    from 10^21 on in exponent form; the identifiers and page numbers of
    the modelled paths are below.) *)
Definition number_to_string (n : number) : string :=
  match n with NaN => "NaN" | Num z => pretty z end.

Definition Math_min (a b : number) : number :=
  match a, b with
  | Num x, Num y => Num (Z.min x y)
  | _, _ => NaN
  end.

(** *** [parseInt(s, 10)] *)

Definition is_ascii_space : ascii -> bool := is_one_of [9; 10; 11; 12; 13; 32]%N.

(** U+00A0, as UTF-8. *)
Definition is_space2 (a b : ascii) : bool :=
  ((code a =? 194) && (code b =? 160))%N.

(** U+1680, U+2000..U+200A, U+2028, U+2029, U+202F, U+205F, U+3000 and
    U+FEFF, as UTF-8. *)
Definition is_space3 (a b c : ascii) : bool :=
  (((code a =? 225) && (code b =? 154) && (code c =? 128))
   || ((code a =? 226) && (code b =? 128)
       && (in_range 128 138 c || is_one_of [168; 169; 175] c))
   || ((code a =? 226) && (code b =? 129) && (code c =? 159))
   || ((code a =? 227) && (code b =? 128) && (code c =? 128))
   || ((code a =? 239) && (code b =? 187) && (code c =? 191)))%N.

Fixpoint skip_white (s : string) : string :=
  match s with
  | EmptyString => s
  | String a rest =>
      if is_ascii_space a then skip_white rest
      else match rest with
           | EmptyString => s
           | String b rest2 =>
               if is_space2 a b then skip_white rest2
               else match rest2 with
                    | EmptyString => s
                    | String c rest3 =>
                        if is_space3 a b c then skip_white rest3 else s
                    end
           end
  end.

Definition digit_value (c : ascii) : option Z :=
  if is_digit c then Some (Z.of_N (code c) - 48) else None.

(** The longest prefix of decimal digits, as an integer; [acc] is [None]
    until a first digit has been read. *)
Fixpoint digits_prefix (s : string) (acc : option Z) : option Z :=
  match s with
  | EmptyString => acc
  | String c rest =>
      match digit_value c with
      | Some d => digits_prefix rest (Some (10 * default 0 acc + d))
      | None => acc
      end
  end.

(** Leading white space is skipped, an optional sign is read, then the
    longest run of decimal digits; no digit gives [NaN].  The value is the
    double nearest to the integer the digits denote. *)
Definition parseInt10 (s : string) : number :=
  let s1 := skip_white s in
  let '(negative, s2) :=
    match s1 with
    | String c rest =>
        if (code c =? 45)%N then (true, rest)
        else if (code c =? 43)%N then (false, rest)
        else (false, s1)
    | EmptyString => (false, s1)
    end in
  match digits_prefix s2 None with
  | None => NaN
  | Some n => Num (round_double (if negative then - n else n))
  end.

(** *** Values *)

Inductive JsValue :=
  | JUndefined
  | JNull
  | JBool (b : bool)
  | JNumber (n : number)
  | JString (s : string)
  | JArray (elems : list JsValue)
  | JObject (props : gmap string JsValue).

Definition truthy (v : JsValue) : bool :=
  match v with
  | JUndefined | JNull => false
  | JBool b => b
  | JNumber n => number_truthy n
  | JString s => negb (String.eqb s "")
  | JArray _ | JObject _ => true
  end.

(** [a || b] on values. *)
Definition or_else (a b : JsValue) : JsValue := if truthy a then a else b.

(** [String(v)], also the conversion of a template literal.  An object
    is taken to have no [toString] or [valueOf] property of its own, as
    the objects of the modelled paths are; the conversion then reaches
    [Object.prototype.toString]. *)
Fixpoint to_string (v : JsValue) : string :=
  match v with
  | JUndefined => "undefined"
  | JNull => "null"
  | JBool true => "true"
  | JBool false => "false"
  | JNumber n => number_to_string n
  | JString s => s
  | JArray elems =>
      String.concat ","
        (map (fun e => match e with
                       | JUndefined | JNull => ""
                       | _ => to_string e
                       end) elems)
  | JObject _ => "[object Object]"
  end.

(** Property read [v.k] for the property names the client reads
    ([message], [error], [username], [changes], [length]); [None] is the
    [TypeError] of reading a property of [undefined] or [null]. *)
Definition get (v : JsValue) (k : string) : option JsValue :=
  match v with
  | JUndefined | JNull => None
  | JObject props => Some (default JUndefined (props !! k))
  | JArray elems =>
      Some (if String.eqb k "length" then JNumber (Num (Z.of_nat (length elems)))
            else JUndefined)
  | JString s =>
      Some (if String.eqb k "length" then JNumber (Num (utf16_length s))
            else JUndefined)
  | JBool _ | JNumber _ => Some JUndefined
  end.

(** Truthiness of an optional string ([string | null | undefined]). *)
Definition present (o : option string) : bool :=
  match o with
  | Some s => negb (String.eqb s "")
  | None => false
  end.

(** The string under a truthiness test: [Some s] exactly when the test
    [if (o)] succeeds. *)
Definition if_present (o : option string) : option string :=
  if present o then o else None.

End Js.

Import Js.

(** ** Errors *)

Module Errors.

(** Modelled from the spec: the classes of [utils/errors.ts]
    ([AuthenticationError], [RateLimitError], [GitLabApiError]) are
    imported by the client but their declarations are not among the
    sources.  An error is held as the class that was instantiated together
    with the constructor arguments written at the [throw] site.  [Error],
    [TypeError], [SyntaxError] and [URIError] are the platform's classes;
    [NotAnError] is a thrown value that is not an [Error] instance. *)
Inductive JsError :=
  | Error (message : string)
  | TypeError (message : string)
  | SyntaxError (message : string)
  | URIError (message : string)
  | AuthenticationError (message : string)
  | RateLimitError (message : string) (retryAfterSeconds : number)
  | GitLabApiError (message : JsValue) (status : Z)
  | NotAnError (v : JsValue).

(** [e instanceof Error]. *)
Definition instanceof_Error (e : JsError) : bool :=
  match e with NotAnError _ => false | _ => true end.

(** Modelled from the spec: reading [e.message] of an [Error] instance.
    The three client classes carry "a human message"; they are taken to
    hand their first argument to [Error], which stores its string form. *)
Definition message_of (e : JsError) : string :=
  match e with
  | Error m | TypeError m | SyntaxError m | URIError m
  | AuthenticationError m | RateLimitError m _ => m
  | GitLabApiError m _ => to_string m
  | NotAnError _ => ""
  end.

Definition is_AuthenticationError (e : JsError) : bool :=
  match e with AuthenticationError _ => true | _ => false end.

(** Result of running a piece of code: a value, or a thrown error. *)
Inductive Outcome (A : Type) :=
  | Returned (a : A)
  | Thrown (e : JsError).
Arguments Returned {A} a.
Arguments Thrown {A} e.

End Errors.
Import Errors.

(** ** The transport: [fetch] *)

Module Fetch.

(** A [Headers] object: names are matched case-insensitively, so the map
    is keyed by lower-cased names; the values of a repeated name are
    joined with a comma and a space. *)
Definition Headers := gmap string string.

Definition Headers_get (h : Headers) (name : string) : option string :=
  h !! toLowerCase name.

(** A header value is normalized when it is stored: leading and trailing
    HTTP white space (tab, line feed, carriage return, space) is removed. *)
Definition is_http_whitespace : ascii -> bool := is_one_of [9; 10; 13; 32]%N.

Fixpoint strip_start (s : string) : string :=
  match s with
  | EmptyString => EmptyString
  | String c rest => if is_http_whitespace c then strip_start rest else s
  end.

Fixpoint strip_end (s : string) : string :=
  match s with
  | EmptyString => EmptyString
  | String c rest =>
      let kept := strip_end rest in
      if is_http_whitespace c && String.eqb kept "" then EmptyString else String c kept
  end.

Definition normalize_value (value : string) : string := strip_start (strip_end value).

Definition Headers_append (h : Headers) (name value : string) : Headers :=
  let k := toLowerCase name in
  let value := normalize_value value in
  match h !! k with
  | Some old => <[k := old +:+ ", " +:+ value]> h
  | None => <[k := value]> h
  end.

(** [new Headers(entries)]. *)
Definition Headers_of (entries : list (string * string)) : Headers :=
  fold_left (fun h e => Headers_append h e.1 e.2) entries ∅.

(** The second argument of [fetch] as the client builds it; [headers] is
    a plain object (a [Record<string, string>]). *)
Record RequestInit := {
  method : option string;
  body : option string;
  headers : option (gmap string string);
}.

Record FetchRequest := {
  req_url : string;
  req_method : option string;
  req_body : option string;
  req_headers : gmap string string;
}.

Record Response := {
  status : Z;
  resp_headers : Headers;
  resp_body : string;
}.

(** [response.ok] *)
Definition ok (r : Response) : bool := (200 <=? status r) && (status r <=? 299).

(** The transport answers a request with a response or rejects with an
    error; it may depend on the requests it has already been handed. *)
Definition Transport := list FetchRequest -> FetchRequest -> Outcome Response.

(** An asynchronous computation, run against the log of the requests
    handed to [fetch] so far. *)
Definition Async (A : Type) := list FetchRequest -> Outcome A * list FetchRequest.

Definition ret {A} (a : A) : Async A := fun log => (Returned a, log).
Definition throw {A} (e : JsError) : Async A := fun log => (Thrown e, log).

Definition bind {A B} (c : Async A) (k : A -> Async B) : Async B :=
  fun log =>
    match c log with
    | (Returned a, log') => k a log'
    | (Thrown e, log') => (Thrown e, log')
    end.

(** [try { c } catch (error) { handler }] *)
Definition try_catch {A} (c : Async A) (handler : JsError -> Async A) : Async A :=
  fun log =>
    match c log with
    | (Returned a, log') => (Returned a, log')
    | (Thrown e, log') => handler e log'
    end.

Definition lift {A} (o : Outcome A) : Async A := fun log => (o, log).

Definition fetch (transport : Transport) (req : FetchRequest) : Async Response :=
  fun log => (transport log req, log ++ [req]).

End Fetch.
Import Fetch.

Notation "'let!' x ':=' c 'in' k" := (Fetch.bind c (fun x => k))
  (at level 10, x pattern, c at level 100, k at level 200).

(** ** The platform functions the client calls *)

(** [JSON.parse] answers with the parsed value or throws a [SyntaxError]
    (right injection: its message); [JSON.stringify] serialises an input
    object; [nullish_read v k] is the message of the [TypeError] thrown by
    reading property [k] of [v] when [v] is [undefined] or [null]. *)
Class Runtime := {
  JSON_parse : string -> JsValue + string;
  JSON_stringify : JsValue -> string;
  nullish_read : JsValue -> string -> string;
}.

(** ** Tenant credentials *)

Module Env.

Record TenantCredentials := {
  privateToken : option string;
  baseUrl : option string;
  accessToken : option string;
}.

(** [h || undefined] for a header value ([string | null]). *)
Definition or_undefined (h : option string) : option string := if_present h.

Definition parseTenantCredentials (headers : Headers) : TenantCredentials :=
  {| privateToken := or_undefined (Headers_get headers "X-GitLab-Token");
     baseUrl := or_undefined (Headers_get headers "X-GitLab-Base-URL");
     accessToken := or_undefined (Headers_get headers "X-GitLab-Access-Token") |}.

Definition validateCredentials (credentials : TenantCredentials) : Outcome unit :=
  if negb (present (privateToken credentials)) && negb (present (accessToken credentials))
  then Thrown (Error
    "Missing credentials. Provide either X-GitLab-Token or X-GitLab-Access-Token header.")
  else Returned tt.

End Env.
Import Env.

(** ** [utils/pagination.ts] *)

Module PaginationParams.
Record t := mk { perPage : option number; page : option number }.
End PaginationParams.

Module PaginatedResponse.
(** [items] is the decoded body and [count] the value of [items.length]. *)
Record t := mk {
  items : JsValue;
  count : JsValue;
  total : option number;
  hasMore : bool;
  page : option number;
  nextPage : option number;
  totalPages : option number;
}.
End PaginatedResponse.

Module PageOptions.
(** The [options] argument of [createPaginatedResponse]. *)
Record t := mk {
  total : option number;
  page : option number;
  totalPages : option number;
  nextPage : option number;
  hasMore : option bool;
}.
Definition empty : t := mk None None None None None.
End PageOptions.

Module PageHeaders.
(** The result of [parseGitLabPaginationHeaders]. *)
Record t := mk {
  total : option number;
  totalPages : option number;
  page : option number;
  nextPage : option number;
  perPage : option number;
}.
End PageHeaders.

Module Pagination.

Module PAGINATION_DEFAULTS.
Definition perPage : number := Num 20.
Definition maxPerPage : number := Num 100.
End PAGINATION_DEFAULTS.

(** [n || d] for an optional number. *)
Definition number_or (n : option number) (d : number) : number :=
  match n with
  | Some v => if number_truthy v then v else d
  | None => d
  end.

(** Both arguments are optional; [perPage] of the result is always set. *)
Definition normalizePaginationParams
    (params : option PaginationParams.t) (maxPerPage : option number)
    : PaginationParams.t :=
  let maxPerPage := default PAGINATION_DEFAULTS.maxPerPage maxPerPage in
  {| PaginationParams.perPage :=
       Some (Math_min
               (number_or (params ≫= PaginationParams.perPage) PAGINATION_DEFAULTS.perPage)
               maxPerPage);
     PaginationParams.page := params ≫= PaginationParams.page |}.

Definition emptyPaginatedResponse : PaginatedResponse.t :=
  {| PaginatedResponse.items := JArray [];
     PaginatedResponse.count := JNumber (Num 0);
     PaginatedResponse.total := None;
     PaginatedResponse.hasMore := false;
     PaginatedResponse.page := None;
     PaginatedResponse.nextPage := None;
     PaginatedResponse.totalPages := None |}.

Definition createPaginatedResponse
    (items : list JsValue) (options : option PageOptions.t) : PaginatedResponse.t :=
  let options := default PageOptions.empty options in
  {| PaginatedResponse.items := JArray items;
     PaginatedResponse.count := JNumber (Num (Z.of_nat (length items)));
     PaginatedResponse.total := PageOptions.total options;
     PaginatedResponse.page := PageOptions.page options;
     PaginatedResponse.totalPages := PageOptions.totalPages options;
     PaginatedResponse.nextPage := PageOptions.nextPage options;
     PaginatedResponse.hasMore :=
       match PageOptions.hasMore options with
       | Some b => b
       | None => bool_decide (is_Some (PageOptions.nextPage options))
       end |}.

(** [h ? parseInt(h, 10) : undefined] for a header value. *)
Definition parse_header (h : option string) : option number :=
  parseInt10 <$> if_present h.

Definition parseGitLabPaginationHeaders (headers : Headers) : PageHeaders.t :=
  let total := Headers_get headers "X-Total" in
  let totalPages := Headers_get headers "X-Total-Pages" in
  let page := Headers_get headers "X-Page" in
  let nextPage := Headers_get headers "X-Next-Page" in
  let perPage := Headers_get headers "X-Per-Page" in
  {| PageHeaders.total := parse_header total;
     PageHeaders.totalPages := parse_header totalPages;
     PageHeaders.page := parse_header page;
     PageHeaders.nextPage := parse_header nextPage;
     PageHeaders.perPage := parse_header perPage |}.

End Pagination.

(** ** The pagination line of the formatters *)

Module Formatters.

Definition newline : string := single (ascii_of_N 10).

(** [formatPaginationInfo] of [utils/formatters.ts], which every list
    formatter prints above its table. *)
Definition formatPaginationInfo (response : PaginatedResponse.t) : string :=
  let lines := [] in
  let lines :=
    match PaginatedResponse.total response with
    | Some total =>
        lines ++ ["**Total:** " +:+ number_to_string total +:+ " | **Page:** "
                  +:+ number_to_string
                        (Pagination.number_or (PaginatedResponse.page response) (Num 1))
                  +:+ "/"
                  +:+ number_to_string
                        (Pagination.number_or (PaginatedResponse.totalPages response)
                                              (Num 1))]
    | None => lines
    end in
  let lines :=
    match PaginatedResponse.nextPage response with
    | Some nextPage =>
        if PaginatedResponse.hasMore response && number_truthy nextPage
        then lines ++ ["**Next Page:** " +:+ number_to_string nextPage]
        else lines
    | None => lines
    end in
  String.concat newline lines.

End Formatters.

(** ** The client: [GitLabClientImpl] *)

Module ListParams.
(** The [params] object of a list method: its filter properties in
    enumeration order, and the two pagination properties. *)
Record t := mk {
  fields : list (string * JsValue);
  perPage : option number;
  page : option number;
}.

Definition pagination (p : t) : PaginationParams.t :=
  PaginationParams.mk (perPage p) (page p).

Definition of_number (n : option number) : JsValue :=
  match n with Some v => JNumber v | None => JUndefined end.

(** [Object.entries(params)]; where the two pagination entries stand
    does not matter, [buildQueryString] skips them. *)
Definition entries (p : t) : list (string * JsValue) :=
  fields p ++ [("perPage", of_number (perPage p)); ("page", of_number (page p))].
End ListParams.

Module ConnectionResult.
Record t := mk {
  connected : bool;
  message : string;
  user : option JsValue;
}.
End ConnectionResult.

Module URLSearchParams.

Definition t := list (string * string).

Fixpoint replace_first (name value : string) (q : t) : t :=
  match q with
  | [] => []
  | (n, v) :: rest =>
      if String.eqb n name
      then (n, value) :: filter (fun e => negb (String.eqb e.1 name)) rest
      else (n, v) :: replace_first name value rest
  end.

(** [set(name, value)]; both arguments are converted to [USVString]. *)
Definition set (q : t) (name value : string) : t :=
  let name := toWellFormed name in
  let value := toWellFormed value in
  if existsb (fun e => String.eqb e.1 name) q
  then replace_first name value q
  else q ++ [(name, value)].

Definition toString (q : t) : string :=
  String.concat "&" (map (fun e => form_urlencode e.1 +:+ "=" +:+ form_urlencode e.2) q).

End URLSearchParams.

Module Client.

Definition DEFAULT_API_BASE_URL : string := "https://gitlab.com/api/v4".

(** A [string | number] identifier. *)
Inductive Ident :=
  | IdString (s : string)
  | IdNumber (n : number).

(** [String(id)] *)
Definition String_ (id : Ident) : string :=
  match id with
  | IdString s => s
  | IdNumber n => number_to_string n
  end.

Definition toSnakeCase : string -> string :=
  map_chars (fun c => if is_upper c then "_" +:+ single (to_lower c) else single c).

Definition buildQueryString (params : list (string * JsValue)) : string :=
  URLSearchParams.toString
    (fold_left
       (fun queryParams '(key, value) =>
          match value with
          | JUndefined | JNull => queryParams
          | _ =>
              if String.eqb key "perPage" || String.eqb key "page" then queryParams
              else URLSearchParams.set queryParams (toSnakeCase key) (to_string value)
          end)
       params []).

(** An endpoint with its optional query:
    [`${path}${query ? `?${query}` : ''}`]. *)
Definition with_query (path query : string) : string :=
  path +:+ (if String.eqb query "" then "" else "?" +:+ query).

(** [const query = params ? this.buildQueryString(params) : ''] *)
Definition query_of (params : option ListParams.t) : string :=
  match params with
  | Some p => buildQueryString (ListParams.entries p)
  | None => ""
  end.

Section Impl.

Context {rt : Runtime}.
Variable credentials : TenantCredentials.
Variable transport : Transport.

Definition baseUrl : string :=
  default DEFAULT_API_BASE_URL (if_present (Env.baseUrl credentials)).

Definition getAuthHeaders : Outcome (gmap string string) :=
  match if_present (accessToken credentials) with
  | Some token =>
      Returned {[ "Authorization" := "Bearer " +:+ token;
                  "Content-Type" := "application/json" ]}
  | None =>
      match if_present (privateToken credentials) with
      | Some token =>
          Returned {[ "PRIVATE-TOKEN" := token;
                      "Content-Type" := "application/json" ]}
      | None =>
          Thrown (AuthenticationError
            "No credentials provided. Include X-GitLab-Token or X-GitLab-Access-Token header.")
      end
  end.

(** [response.json()] *)
Definition json (response : Response) : Outcome JsValue :=
  match JSON_parse (resp_body response) with
  | inl v => Returned v
  | inr m => Thrown (SyntaxError m)
  end.

(** [retryAfter ? parseInt(retryAfter, 10) : 60] *)
Definition retryAfterSeconds (response : Response) : number :=
  match if_present (Headers_get (resp_headers response) "Retry-After") with
  | Some retryAfter => parseInt10 retryAfter
  | None => Num 60
  end.

(** The message computed in the [!response.ok] block; the [catch]
    covers the [SyntaxError] of [JSON.parse] and the [TypeError] of
    reading a property of [null]. *)
Definition errorMessage (response : Response) : JsValue :=
  let errorBody := resp_body response in
  let message := JString ("API error: " +:+ pretty (status response)) in
  match JSON_parse errorBody with
  | inl errorJson =>
      match Js.get errorJson "message", Js.get errorJson "error" with
      | Some m, Some e => or_else (or_else m e) message
      | _, _ => message
      end
  | inr _ => message
  end.

(** The three status checks that both executors repeat verbatim after
    [fetch]. *)
Definition classify (response : Response) : Outcome unit :=
  if status response =? 429 then
    Thrown (RateLimitError "Rate limit exceeded" (retryAfterSeconds response))
  else if (status response =? 401) || (status response =? 403) then
    Thrown (AuthenticationError "Authentication failed. Check your GitLab credentials.")
  else if negb (ok response) then
    Thrown (GitLabApiError (errorMessage response) (status response))
  else Returned tt.

(** [{ ...this.getAuthHeaders(), ...(options.headers || {}) }]: a later
    property wins. *)
Definition merged_headers (auth : gmap string string) (options : RequestInit)
    : gmap string string :=
  default ∅ (headers options) ∪ auth.

Definition request (endpoint : string) (options : RequestInit) : Async JsValue :=
  let url := baseUrl +:+ endpoint in
  let! auth := lift getAuthHeaders in
  let! response := fetch transport
    {| req_url := url;
       req_method := method options;
       req_body := body options;
       req_headers := merged_headers auth options |} in
  let! _ := lift (classify response) in
  if status response =? 204 then ret JUndefined
  else lift (json response).

Definition pagination_query (params : option PaginationParams.t) : URLSearchParams.t :=
  let queryParams := [] in
  let queryParams :=
    match params ≫= PaginationParams.perPage with
    | Some n => if number_truthy n
                then URLSearchParams.set queryParams "per_page" (number_to_string n)
                else queryParams
    | None => queryParams
    end in
  match params ≫= PaginationParams.page with
  | Some n => if number_truthy n
              then URLSearchParams.set queryParams "page" (number_to_string n)
              else queryParams
  | None => queryParams
  end.

Definition requestWithPagination
    (endpoint : string) (params : option PaginationParams.t) (options : RequestInit)
    : Async PaginatedResponse.t :=
  let queryParams := pagination_query params in
  let separator := if includes_char "?" endpoint then "&" else "?" in
  let queryString := URLSearchParams.toString queryParams in
  let url := baseUrl +:+ endpoint +:+
             (if String.eqb queryString "" then "" else separator +:+ queryString) in
  let! auth := lift getAuthHeaders in
  let! response := fetch transport
    {| req_url := url;
       req_method := method options;
       req_body := body options;
       req_headers := merged_headers auth options |} in
  let! _ := lift (classify response) in
  let! items := lift (json response) in
  let total := Pagination.parse_header (Headers_get (resp_headers response) "X-Total") in
  let totalPages :=
    Pagination.parse_header (Headers_get (resp_headers response) "X-Total-Pages") in
  let nextPage :=
    Pagination.parse_header (Headers_get (resp_headers response) "X-Next-Page") in
  match Js.get items "length" with
  | None => throw (TypeError (nullish_read items "length"))
  | Some count =>
      ret {| PaginatedResponse.items := items;
             PaginatedResponse.count := count;
             PaginatedResponse.total := total;
             PaginatedResponse.totalPages := totalPages;
             PaginatedResponse.hasMore := bool_decide (is_Some nextPage);
             PaginatedResponse.nextPage := nextPage;
             PaginatedResponse.page := None |}
  end.

(** The body shared by [getFileRaw] and [getJobLog]: a direct [fetch]
    with the authentication headers, the body returned as text. *)
Definition fetch_text (path failure : string) : Async string :=
  let url := baseUrl +:+ path in
  let! auth := lift getAuthHeaders in
  let! response := fetch transport
    {| req_url := url; req_method := None; req_body := None; req_headers := auth |} in
  if negb (ok response) then
    throw (GitLabApiError (JString (failure +:+ pretty (status response)))
                          (status response))
  else ret (resp_body response).

Definition no_options : RequestInit :=
  {| method := None; body := None; headers := None |}.

Definition getCurrentUser : Async JsValue := request "/user" no_options.

Definition testConnection : Async ConnectionResult.t :=
  try_catch
    (let! user := getCurrentUser in
     match Js.get user "username" with
     | Some username =>
         ret {| ConnectionResult.connected := true;
                ConnectionResult.message := "Connected as " +:+ to_string username;
                ConnectionResult.user := Some user |}
     | None => throw (TypeError (nullish_read user "username"))
     end)
    (fun error =>
       ret {| ConnectionResult.connected := false;
              ConnectionResult.message :=
                if instanceof_Error error then message_of error
                else "Connection failed";
              ConnectionResult.user := None |}).

End Impl.

(** *** The operations

One constructor per public method of [GitLabClientImpl], with the
method's arguments; an [input] is the payload object handed to
[JSON.stringify]. *)
Module Method.
Inductive t :=
  (* Connection *)
  | testConnection
  | getCurrentUser
  (* Projects *)
  | listProjects (params : option ListParams.t)
  | getProject (projectId : Ident)
  | createProject (input : JsValue)
  | updateProject (projectId : Ident) (input : JsValue)
  | deleteProject (projectId : Ident)
  | forkProject (projectId : Ident) (namespace : option string)
  | starProject (projectId : Ident)
  | unstarProject (projectId : Ident)
  (* Branches *)
  | listBranches (projectId : Ident) (params : option ListParams.t)
  | getBranch (projectId : Ident) (branchName : string)
  | createBranch (projectId : Ident) (input : JsValue)
  | deleteBranch (projectId : Ident) (branchName : string)
  | deleteMergedBranches (projectId : Ident)
  (* Commits *)
  | listCommits (projectId : Ident) (params : option ListParams.t)
  | getCommit (projectId : Ident) (sha : string)
  | createCommit (projectId : Ident) (input : JsValue)
  | getCommitDiff (projectId : Ident) (sha : string)
  | cherryPickCommit (projectId : Ident) (sha branch : string)
  | revertCommit (projectId : Ident) (sha branch : string)
  (* Tags *)
  | listTags (projectId : Ident) (params : option ListParams.t)
  | getTag (projectId : Ident) (tagName : string)
  | createTag (projectId : Ident) (input : JsValue)
  | deleteTag (projectId : Ident) (tagName : string)
  (* Repository *)
  | getRepositoryTree (projectId : Ident) (params : option ListParams.t)
  | compareRefs (projectId : Ident) (from to : string)
  (* Files *)
  | getFile (projectId : Ident) (filePath ref : string)
  | getFileRaw (projectId : Ident) (filePath ref : string)
  | createFile (projectId : Ident) (filePath : string) (input : JsValue)
  | updateFile (projectId : Ident) (filePath : string) (input : JsValue)
  | deleteFile (projectId : Ident) (filePath : string) (input : JsValue)
  (* Merge requests *)
  | listMergeRequests (projectId : Ident) (params : option ListParams.t)
  | getMergeRequest (projectId : Ident) (mrIid : number)
  | createMergeRequest (projectId : Ident) (input : JsValue)
  | updateMergeRequest (projectId : Ident) (mrIid : number) (input : JsValue)
  | acceptMergeRequest (projectId : Ident) (mrIid : number) (params : option JsValue)
  | approveMergeRequest (projectId : Ident) (mrIid : number)
  | rebaseMergeRequest (projectId : Ident) (mrIid : number)
  | getMergeRequestDiff (projectId : Ident) (mrIid : number)
  (* Issues *)
  | listIssues (projectId : Ident) (params : option ListParams.t)
  | getIssue (projectId : Ident) (issueIid : number)
  | createIssue (projectId : Ident) (input : JsValue)
  | updateIssue (projectId : Ident) (issueIid : number) (input : JsValue)
  | deleteIssue (projectId : Ident) (issueIid : number)
  (* Notes *)
  | listIssueNotes (projectId : Ident) (issueIid : number)
      (params : option PaginationParams.t)
  | createIssueNote (projectId : Ident) (issueIid : number) (input : JsValue)
  | listMergeRequestNotes (projectId : Ident) (mrIid : number)
      (params : option PaginationParams.t)
  | createMergeRequestNote (projectId : Ident) (mrIid : number) (input : JsValue)
  (* Labels *)
  | listLabels (projectId : Ident) (params : option ListParams.t)
  | getLabel (projectId labelId : Ident)
  | createLabel (projectId : Ident) (input : JsValue)
  | updateLabel (projectId labelId : Ident) (input : JsValue)
  | deleteLabel (projectId labelId : Ident)
  (* Pipelines *)
  | listPipelines (projectId : Ident) (params : option ListParams.t)
  | getPipeline (projectId : Ident) (pipelineId : number)
  | createPipeline (projectId : Ident) (input : JsValue)
  | retryPipeline (projectId : Ident) (pipelineId : number)
  | cancelPipeline (projectId : Ident) (pipelineId : number)
  | deletePipeline (projectId : Ident) (pipelineId : number)
  (* Jobs *)
  | listPipelineJobs (projectId : Ident) (pipelineId : number)
      (params : option ListParams.t)
  | getJob (projectId : Ident) (jobId : number)
  | getJobLog (projectId : Ident) (jobId : number)
  | retryJob (projectId : Ident) (jobId : number)
  | cancelJob (projectId : Ident) (jobId : number)
  | playJob (projectId : Ident) (jobId : number)
  (* Releases *)
  | listReleases (projectId : Ident) (params : option PaginationParams.t)
  | getRelease (projectId : Ident) (tagName : string)
  | createRelease (projectId : Ident) (input : JsValue)
  | updateRelease (projectId : Ident) (tagName : string) (input : JsValue)
  | deleteRelease (projectId : Ident) (tagName : string)
  (* Groups *)
  | listGroups (params : option ListParams.t)
  | getGroup (groupId : Ident)
  | createGroup (input : JsValue)
  | updateGroup (groupId : Ident) (input : JsValue)
  | deleteGroup (groupId : Ident)
  | listGroupProjects (groupId : Ident) (params : option ListParams.t)
  (* Users *)
  | listUsers (params : option ListParams.t)
  | getUser (userId : number)
  (* Members *)
  | listProjectMembers (projectId : Ident) (params : option ListParams.t)
  | addProjectMember (projectId : Ident) (input : JsValue)
  | updateProjectMember (projectId : Ident) (userId : number) (input : JsValue)
  | removeProjectMember (projectId : Ident) (userId : number)
  (* Variables *)
  | listProjectVariables (projectId : Ident) (params : option PaginationParams.t)
  | getProjectVariable (projectId : Ident) (key : string)
  | createProjectVariable (projectId : Ident) (input : JsValue)
  | updateProjectVariable (projectId : Ident) (key : string) (input : JsValue)
  | deleteProjectVariable (projectId : Ident) (key : string)
  (* Webhooks *)
  | listProjectWebhooks (projectId : Ident) (params : option PaginationParams.t)
  | createProjectWebhook (projectId : Ident) (input : JsValue)
  | deleteProjectWebhook (projectId : Ident) (hookId : number)
  (* Runners *)
  | listProjectRunners (projectId : Ident) (params : option ListParams.t).
End Method.

(** How a method reaches the transport. *)
Inductive Dispatch :=
  (** [return this.request(endpoint, options)] *)
  | Request (endpoint : string) (options : RequestInit)
  (** [await this.request<void>(endpoint, options)] *)
  | RequestVoid (endpoint : string) (options : RequestInit)
  (** [return this.requestWithPagination(endpoint, params)] *)
  | RequestWithPagination (endpoint : string) (params : option PaginationParams.t)
  (** a direct [fetch], the body returned as text *)
  | FetchText (path failure : string)
  (** [getMergeRequestDiff]: [this.request], then [response.changes] *)
  | RequestChanges (endpoint : string)
  (** [testConnection] *)
  | TestConnection.

Inductive CallResult :=
  | Value (v : JsValue)
  | Void
  | Page (p : PaginatedResponse.t)
  | Text (s : string)
  | Connection (r : ConnectionResult.t).

Section Methods.

Context {rt : Runtime}.

Definition enc (id : Ident) : string := encodeURIComponent (String_ id).
Definition num : number -> string := number_to_string.

Definition send (m : string) (b : option string) : RequestInit :=
  {| method := Some m; body := b; headers := None |}.

Definition stringify (input : JsValue) : option string :=
  Some (JSON_stringify input).

(** A list method with filters:
    [this.requestWithPagination(`${path}${query ? `?${query}` : ''}`, params)] *)
Definition list_with (path : string) (params : option ListParams.t) : Dispatch :=
  RequestWithPagination (with_query path (query_of params))
                        (ListParams.pagination <$> params).

Definition dispatch (m : Method.t) : Dispatch :=
  match m with
  | Method.testConnection => TestConnection
  | Method.getCurrentUser => Request "/user" no_options
  (* Projects *)
  | Method.listProjects params => list_with "/projects" params
  | Method.getProject projectId =>
      Request ("/projects/" +:+ enc projectId) no_options
  | Method.createProject input =>
      Request "/projects" (send "POST" (stringify input))
  | Method.updateProject projectId input =>
      Request ("/projects/" +:+ enc projectId) (send "PUT" (stringify input))
  | Method.deleteProject projectId =>
      RequestVoid ("/projects/" +:+ enc projectId) (send "DELETE" None)
  | Method.forkProject projectId namespace =>
      let body :=
        match if_present namespace with
        | Some ns => stringify (JObject {[ "namespace" := JString ns ]})
        | None => None
        end in
      Request ("/projects/" +:+ enc projectId +:+ "/fork") (send "POST" body)
  | Method.starProject projectId =>
      Request ("/projects/" +:+ enc projectId +:+ "/star") (send "POST" None)
  | Method.unstarProject projectId =>
      Request ("/projects/" +:+ enc projectId +:+ "/unstar") (send "POST" None)
  (* Branches *)
  | Method.listBranches projectId params =>
      list_with ("/projects/" +:+ enc projectId +:+ "/repository/branches") params
  | Method.getBranch projectId branchName =>
      Request ("/projects/" +:+ enc projectId +:+ "/repository/branches/"
               +:+ encodeURIComponent branchName) no_options
  | Method.createBranch projectId input =>
      Request ("/projects/" +:+ enc projectId +:+ "/repository/branches")
              (send "POST" (stringify input))
  | Method.deleteBranch projectId branchName =>
      RequestVoid ("/projects/" +:+ enc projectId +:+ "/repository/branches/"
                   +:+ encodeURIComponent branchName) (send "DELETE" None)
  | Method.deleteMergedBranches projectId =>
      RequestVoid ("/projects/" +:+ enc projectId +:+ "/repository/merged_branches")
                  (send "DELETE" None)
  (* Commits *)
  | Method.listCommits projectId params =>
      list_with ("/projects/" +:+ enc projectId +:+ "/repository/commits") params
  | Method.getCommit projectId sha =>
      Request ("/projects/" +:+ enc projectId +:+ "/repository/commits/" +:+ sha)
              no_options
  | Method.createCommit projectId input =>
      Request ("/projects/" +:+ enc projectId +:+ "/repository/commits")
              (send "POST" (stringify input))
  | Method.getCommitDiff projectId sha =>
      Request ("/projects/" +:+ enc projectId +:+ "/repository/commits/" +:+ sha
               +:+ "/diff") no_options
  | Method.cherryPickCommit projectId sha branch =>
      Request ("/projects/" +:+ enc projectId +:+ "/repository/commits/" +:+ sha
               +:+ "/cherry_pick")
              (send "POST" (stringify (JObject {[ "branch" := JString branch ]})))
  | Method.revertCommit projectId sha branch =>
      Request ("/projects/" +:+ enc projectId +:+ "/repository/commits/" +:+ sha
               +:+ "/revert")
              (send "POST" (stringify (JObject {[ "branch" := JString branch ]})))
  (* Tags *)
  | Method.listTags projectId params =>
      list_with ("/projects/" +:+ enc projectId +:+ "/repository/tags") params
  | Method.getTag projectId tagName =>
      Request ("/projects/" +:+ enc projectId +:+ "/repository/tags/"
               +:+ encodeURIComponent tagName) no_options
  | Method.createTag projectId input =>
      Request ("/projects/" +:+ enc projectId +:+ "/repository/tags")
              (send "POST" (stringify input))
  | Method.deleteTag projectId tagName =>
      RequestVoid ("/projects/" +:+ enc projectId +:+ "/repository/tags/"
                   +:+ encodeURIComponent tagName) (send "DELETE" None)
  (* Repository *)
  | Method.getRepositoryTree projectId params =>
      list_with ("/projects/" +:+ enc projectId +:+ "/repository/tree") params
  | Method.compareRefs projectId from to =>
      Request ("/projects/" +:+ enc projectId +:+ "/repository/compare?from="
               +:+ encodeURIComponent from +:+ "&to=" +:+ encodeURIComponent to)
              no_options
  (* Files *)
  | Method.getFile projectId filePath ref =>
      Request ("/projects/" +:+ enc projectId +:+ "/repository/files/"
               +:+ encodeURIComponent filePath +:+ "?ref=" +:+ encodeURIComponent ref)
              no_options
  | Method.getFileRaw projectId filePath ref =>
      FetchText ("/projects/" +:+ enc projectId +:+ "/repository/files/"
                 +:+ encodeURIComponent filePath +:+ "/raw?ref="
                 +:+ encodeURIComponent ref)
                "Failed to get file: "
  | Method.createFile projectId filePath input =>
      Request ("/projects/" +:+ enc projectId +:+ "/repository/files/"
               +:+ encodeURIComponent filePath) (send "POST" (stringify input))
  | Method.updateFile projectId filePath input =>
      Request ("/projects/" +:+ enc projectId +:+ "/repository/files/"
               +:+ encodeURIComponent filePath) (send "PUT" (stringify input))
  | Method.deleteFile projectId filePath input =>
      RequestVoid ("/projects/" +:+ enc projectId +:+ "/repository/files/"
                   +:+ encodeURIComponent filePath) (send "DELETE" (stringify input))
  (* Merge requests *)
  | Method.listMergeRequests projectId params =>
      list_with ("/projects/" +:+ enc projectId +:+ "/merge_requests") params
  | Method.getMergeRequest projectId mrIid =>
      Request ("/projects/" +:+ enc projectId +:+ "/merge_requests/" +:+ num mrIid)
              no_options
  | Method.createMergeRequest projectId input =>
      Request ("/projects/" +:+ enc projectId +:+ "/merge_requests")
              (send "POST" (stringify input))
  | Method.updateMergeRequest projectId mrIid input =>
      Request ("/projects/" +:+ enc projectId +:+ "/merge_requests/" +:+ num mrIid)
              (send "PUT" (stringify input))
  | Method.acceptMergeRequest projectId mrIid params =>
      Request ("/projects/" +:+ enc projectId +:+ "/merge_requests/" +:+ num mrIid
               +:+ "/merge")
              (send "PUT" (params ≫= stringify))
  | Method.approveMergeRequest projectId mrIid =>
      RequestVoid ("/projects/" +:+ enc projectId +:+ "/merge_requests/" +:+ num mrIid
                   +:+ "/approve") (send "POST" None)
  | Method.rebaseMergeRequest projectId mrIid =>
      RequestVoid ("/projects/" +:+ enc projectId +:+ "/merge_requests/" +:+ num mrIid
                   +:+ "/rebase") (send "PUT" None)
  | Method.getMergeRequestDiff projectId mrIid =>
      RequestChanges ("/projects/" +:+ enc projectId +:+ "/merge_requests/"
                      +:+ num mrIid +:+ "/changes")
  (* Issues *)
  | Method.listIssues projectId params =>
      list_with ("/projects/" +:+ enc projectId +:+ "/issues") params
  | Method.getIssue projectId issueIid =>
      Request ("/projects/" +:+ enc projectId +:+ "/issues/" +:+ num issueIid)
              no_options
  | Method.createIssue projectId input =>
      Request ("/projects/" +:+ enc projectId +:+ "/issues")
              (send "POST" (stringify input))
  | Method.updateIssue projectId issueIid input =>
      Request ("/projects/" +:+ enc projectId +:+ "/issues/" +:+ num issueIid)
              (send "PUT" (stringify input))
  | Method.deleteIssue projectId issueIid =>
      RequestVoid ("/projects/" +:+ enc projectId +:+ "/issues/" +:+ num issueIid)
                  (send "DELETE" None)
  (* Notes *)
  | Method.listIssueNotes projectId issueIid params =>
      RequestWithPagination
        ("/projects/" +:+ enc projectId +:+ "/issues/" +:+ num issueIid +:+ "/notes")
        params
  | Method.createIssueNote projectId issueIid input =>
      Request ("/projects/" +:+ enc projectId +:+ "/issues/" +:+ num issueIid
               +:+ "/notes") (send "POST" (stringify input))
  | Method.listMergeRequestNotes projectId mrIid params =>
      RequestWithPagination
        ("/projects/" +:+ enc projectId +:+ "/merge_requests/" +:+ num mrIid
         +:+ "/notes") params
  | Method.createMergeRequestNote projectId mrIid input =>
      Request ("/projects/" +:+ enc projectId +:+ "/merge_requests/" +:+ num mrIid
               +:+ "/notes") (send "POST" (stringify input))
  (* Labels *)
  | Method.listLabels projectId params =>
      list_with ("/projects/" +:+ enc projectId +:+ "/labels") params
  | Method.getLabel projectId labelId =>
      Request ("/projects/" +:+ enc projectId +:+ "/labels/" +:+ enc labelId)
              no_options
  | Method.createLabel projectId input =>
      Request ("/projects/" +:+ enc projectId +:+ "/labels")
              (send "POST" (stringify input))
  | Method.updateLabel projectId labelId input =>
      Request ("/projects/" +:+ enc projectId +:+ "/labels/" +:+ enc labelId)
              (send "PUT" (stringify input))
  | Method.deleteLabel projectId labelId =>
      RequestVoid ("/projects/" +:+ enc projectId +:+ "/labels/" +:+ enc labelId)
                  (send "DELETE" None)
  (* Pipelines *)
  | Method.listPipelines projectId params =>
      list_with ("/projects/" +:+ enc projectId +:+ "/pipelines") params
  | Method.getPipeline projectId pipelineId =>
      Request ("/projects/" +:+ enc projectId +:+ "/pipelines/" +:+ num pipelineId)
              no_options
  | Method.createPipeline projectId input =>
      Request ("/projects/" +:+ enc projectId +:+ "/pipeline")
              (send "POST" (stringify input))
  | Method.retryPipeline projectId pipelineId =>
      Request ("/projects/" +:+ enc projectId +:+ "/pipelines/" +:+ num pipelineId
               +:+ "/retry") (send "POST" None)
  | Method.cancelPipeline projectId pipelineId =>
      Request ("/projects/" +:+ enc projectId +:+ "/pipelines/" +:+ num pipelineId
               +:+ "/cancel") (send "POST" None)
  | Method.deletePipeline projectId pipelineId =>
      RequestVoid ("/projects/" +:+ enc projectId +:+ "/pipelines/" +:+ num pipelineId)
                  (send "DELETE" None)
  (* Jobs *)
  | Method.listPipelineJobs projectId pipelineId params =>
      list_with ("/projects/" +:+ enc projectId +:+ "/pipelines/" +:+ num pipelineId
                 +:+ "/jobs") params
  | Method.getJob projectId jobId =>
      Request ("/projects/" +:+ enc projectId +:+ "/jobs/" +:+ num jobId) no_options
  | Method.getJobLog projectId jobId =>
      FetchText ("/projects/" +:+ enc projectId +:+ "/jobs/" +:+ num jobId +:+ "/trace")
                "Failed to get job log: "
  | Method.retryJob projectId jobId =>
      Request ("/projects/" +:+ enc projectId +:+ "/jobs/" +:+ num jobId +:+ "/retry")
              (send "POST" None)
  | Method.cancelJob projectId jobId =>
      Request ("/projects/" +:+ enc projectId +:+ "/jobs/" +:+ num jobId +:+ "/cancel")
              (send "POST" None)
  | Method.playJob projectId jobId =>
      Request ("/projects/" +:+ enc projectId +:+ "/jobs/" +:+ num jobId +:+ "/play")
              (send "POST" None)
  (* Releases *)
  | Method.listReleases projectId params =>
      RequestWithPagination ("/projects/" +:+ enc projectId +:+ "/releases") params
  | Method.getRelease projectId tagName =>
      Request ("/projects/" +:+ enc projectId +:+ "/releases/"
               +:+ encodeURIComponent tagName) no_options
  | Method.createRelease projectId input =>
      Request ("/projects/" +:+ enc projectId +:+ "/releases")
              (send "POST" (stringify input))
  | Method.updateRelease projectId tagName input =>
      Request ("/projects/" +:+ enc projectId +:+ "/releases/"
               +:+ encodeURIComponent tagName) (send "PUT" (stringify input))
  | Method.deleteRelease projectId tagName =>
      RequestVoid ("/projects/" +:+ enc projectId +:+ "/releases/"
                   +:+ encodeURIComponent tagName) (send "DELETE" None)
  (* Groups *)
  | Method.listGroups params => list_with "/groups" params
  | Method.getGroup groupId =>
      Request ("/groups/" +:+ enc groupId) no_options
  | Method.createGroup input =>
      Request "/groups" (send "POST" (stringify input))
  | Method.updateGroup groupId input =>
      Request ("/groups/" +:+ enc groupId) (send "PUT" (stringify input))
  | Method.deleteGroup groupId =>
      RequestVoid ("/groups/" +:+ enc groupId) (send "DELETE" None)
  | Method.listGroupProjects groupId params =>
      list_with ("/groups/" +:+ enc groupId +:+ "/projects") params
  (* Users *)
  | Method.listUsers params => list_with "/users" params
  | Method.getUser userId =>
      Request ("/users/" +:+ num userId) no_options
  (* Members *)
  | Method.listProjectMembers projectId params =>
      list_with ("/projects/" +:+ enc projectId +:+ "/members") params
  | Method.addProjectMember projectId input =>
      Request ("/projects/" +:+ enc projectId +:+ "/members")
              (send "POST" (stringify input))
  | Method.updateProjectMember projectId userId input =>
      Request ("/projects/" +:+ enc projectId +:+ "/members/" +:+ num userId)
              (send "PUT" (stringify input))
  | Method.removeProjectMember projectId userId =>
      RequestVoid ("/projects/" +:+ enc projectId +:+ "/members/" +:+ num userId)
                  (send "DELETE" None)
  (* Variables *)
  | Method.listProjectVariables projectId params =>
      RequestWithPagination ("/projects/" +:+ enc projectId +:+ "/variables") params
  | Method.getProjectVariable projectId key =>
      Request ("/projects/" +:+ enc projectId +:+ "/variables/"
               +:+ encodeURIComponent key) no_options
  | Method.createProjectVariable projectId input =>
      Request ("/projects/" +:+ enc projectId +:+ "/variables")
              (send "POST" (stringify input))
  | Method.updateProjectVariable projectId key input =>
      Request ("/projects/" +:+ enc projectId +:+ "/variables/"
               +:+ encodeURIComponent key) (send "PUT" (stringify input))
  | Method.deleteProjectVariable projectId key =>
      RequestVoid ("/projects/" +:+ enc projectId +:+ "/variables/"
                   +:+ encodeURIComponent key) (send "DELETE" None)
  (* Webhooks *)
  | Method.listProjectWebhooks projectId params =>
      RequestWithPagination ("/projects/" +:+ enc projectId +:+ "/hooks") params
  | Method.createProjectWebhook projectId input =>
      Request ("/projects/" +:+ enc projectId +:+ "/hooks")
              (send "POST" (stringify input))
  | Method.deleteProjectWebhook projectId hookId =>
      RequestVoid ("/projects/" +:+ enc projectId +:+ "/hooks/" +:+ num hookId)
                  (send "DELETE" None)
  (* Runners *)
  | Method.listProjectRunners projectId params =>
      list_with ("/projects/" +:+ enc projectId +:+ "/runners") params
  end.

(** The strings a method hands to [encodeURIComponent], in the order of
    the calls; an identifier is handed over as [String(id)]. *)
Definition escaped (m : Method.t) : list string :=
  match m with
  | Method.testConnection => []
  | Method.getCurrentUser => []
  | Method.listProjects _ => []
  | Method.getProject projectId => [String_ projectId]
  | Method.createProject _ => []
  | Method.updateProject projectId _ => [String_ projectId]
  | Method.deleteProject projectId => [String_ projectId]
  | Method.forkProject projectId _ => [String_ projectId]
  | Method.starProject projectId => [String_ projectId]
  | Method.unstarProject projectId => [String_ projectId]
  | Method.listBranches projectId _ => [String_ projectId]
  | Method.getBranch projectId branchName => [String_ projectId; branchName]
  | Method.createBranch projectId _ => [String_ projectId]
  | Method.deleteBranch projectId branchName => [String_ projectId; branchName]
  | Method.deleteMergedBranches projectId => [String_ projectId]
  | Method.listCommits projectId _ => [String_ projectId]
  | Method.getCommit projectId _ => [String_ projectId]
  | Method.createCommit projectId _ => [String_ projectId]
  | Method.getCommitDiff projectId _ => [String_ projectId]
  | Method.cherryPickCommit projectId _ _ => [String_ projectId]
  | Method.revertCommit projectId _ _ => [String_ projectId]
  | Method.listTags projectId _ => [String_ projectId]
  | Method.getTag projectId tagName => [String_ projectId; tagName]
  | Method.createTag projectId _ => [String_ projectId]
  | Method.deleteTag projectId tagName => [String_ projectId; tagName]
  | Method.getRepositoryTree projectId _ => [String_ projectId]
  | Method.compareRefs projectId from to => [String_ projectId; from; to]
  | Method.getFile projectId filePath ref => [String_ projectId; filePath; ref]
  | Method.getFileRaw projectId filePath ref => [String_ projectId; filePath; ref]
  | Method.createFile projectId filePath _ => [String_ projectId; filePath]
  | Method.updateFile projectId filePath _ => [String_ projectId; filePath]
  | Method.deleteFile projectId filePath _ => [String_ projectId; filePath]
  | Method.listMergeRequests projectId _ => [String_ projectId]
  | Method.getMergeRequest projectId _ => [String_ projectId]
  | Method.createMergeRequest projectId _ => [String_ projectId]
  | Method.updateMergeRequest projectId _ _ => [String_ projectId]
  | Method.acceptMergeRequest projectId _ _ => [String_ projectId]
  | Method.approveMergeRequest projectId _ => [String_ projectId]
  | Method.rebaseMergeRequest projectId _ => [String_ projectId]
  | Method.getMergeRequestDiff projectId _ => [String_ projectId]
  | Method.listIssues projectId _ => [String_ projectId]
  | Method.getIssue projectId _ => [String_ projectId]
  | Method.createIssue projectId _ => [String_ projectId]
  | Method.updateIssue projectId _ _ => [String_ projectId]
  | Method.deleteIssue projectId _ => [String_ projectId]
  | Method.listIssueNotes projectId _ _ => [String_ projectId]
  | Method.createIssueNote projectId _ _ => [String_ projectId]
  | Method.listMergeRequestNotes projectId _ _ => [String_ projectId]
  | Method.createMergeRequestNote projectId _ _ => [String_ projectId]
  | Method.listLabels projectId _ => [String_ projectId]
  | Method.getLabel projectId labelId => [String_ projectId; String_ labelId]
  | Method.createLabel projectId _ => [String_ projectId]
  | Method.updateLabel projectId labelId _ => [String_ projectId; String_ labelId]
  | Method.deleteLabel projectId labelId => [String_ projectId; String_ labelId]
  | Method.listPipelines projectId _ => [String_ projectId]
  | Method.getPipeline projectId _ => [String_ projectId]
  | Method.createPipeline projectId _ => [String_ projectId]
  | Method.retryPipeline projectId _ => [String_ projectId]
  | Method.cancelPipeline projectId _ => [String_ projectId]
  | Method.deletePipeline projectId _ => [String_ projectId]
  | Method.listPipelineJobs projectId _ _ => [String_ projectId]
  | Method.getJob projectId _ => [String_ projectId]
  | Method.getJobLog projectId _ => [String_ projectId]
  | Method.retryJob projectId _ => [String_ projectId]
  | Method.cancelJob projectId _ => [String_ projectId]
  | Method.playJob projectId _ => [String_ projectId]
  | Method.listReleases projectId _ => [String_ projectId]
  | Method.getRelease projectId tagName => [String_ projectId; tagName]
  | Method.createRelease projectId _ => [String_ projectId]
  | Method.updateRelease projectId tagName _ => [String_ projectId; tagName]
  | Method.deleteRelease projectId tagName => [String_ projectId; tagName]
  | Method.listGroups _ => []
  | Method.getGroup groupId => [String_ groupId]
  | Method.createGroup _ => []
  | Method.updateGroup groupId _ => [String_ groupId]
  | Method.deleteGroup groupId => [String_ groupId]
  | Method.listGroupProjects groupId _ => [String_ groupId]
  | Method.listUsers _ => []
  | Method.getUser _ => []
  | Method.listProjectMembers projectId _ => [String_ projectId]
  | Method.addProjectMember projectId _ => [String_ projectId]
  | Method.updateProjectMember projectId _ _ => [String_ projectId]
  | Method.removeProjectMember projectId _ => [String_ projectId]
  | Method.listProjectVariables projectId _ => [String_ projectId]
  | Method.getProjectVariable projectId key => [String_ projectId; key]
  | Method.createProjectVariable projectId _ => [String_ projectId]
  | Method.updateProjectVariable projectId key _ => [String_ projectId; key]
  | Method.deleteProjectVariable projectId key => [String_ projectId; key]
  | Method.listProjectWebhooks projectId _ => [String_ projectId]
  | Method.createProjectWebhook projectId _ => [String_ projectId]
  | Method.deleteProjectWebhook projectId _ => [String_ projectId]
  | Method.listProjectRunners projectId _ => [String_ projectId]
  end.

Variable credentials : TenantCredentials.
Variable transport : Transport.

Definition run (d : Dispatch) : Async CallResult :=
  match d with
  | Request endpoint options =>
      let! v := request credentials transport endpoint options in ret (Value v)
  | RequestVoid endpoint options =>
      let! _ := request credentials transport endpoint options in ret Void
  | RequestWithPagination endpoint params =>
      let! p := requestWithPagination credentials transport endpoint params no_options in
      ret (Page p)
  | FetchText path failure =>
      let! s := fetch_text credentials transport path failure in ret (Text s)
  | RequestChanges endpoint =>
      let! response := request credentials transport endpoint no_options in
      match Js.get response "changes" with
      | Some changes => ret (Value changes)
      | None => throw (TypeError (nullish_read response "changes"))
      end
  | TestConnection =>
      let! r := testConnection credentials transport in ret (Connection r)
  end.

(** A method of the client created for [credentials], from the point
    where its arguments are escaped. *)
Definition call (m : Method.t) : Async CallResult := run (dispatch m).

(** A method call as a whole.  The method first escapes its arguments:
    [encodeURIComponent] throws a [URIError] on a string that is not well
    formed, before the method reads the credentials or reaches [fetch]. *)
Definition invoke (m : Method.t) : Async CallResult :=
  if forallb isWellFormed (escaped m) then call m
  else throw (URIError "URI malformed").

End Methods.

End Client.
Import Client.

(** ** The [/mcp] boundary of the Worker *)

Module Worker.

Record HttpResponse := {
  http_status : Z;
  http_body : string;
}.

Section Boundary.

Context {rt : Runtime}.

(** What the handler answers when validation throws. *)
Definition unauthorized (error : JsError) : HttpResponse :=
  {| http_status := 401;
     http_body := JSON_stringify (JObject
       {[ "error" := JString "Unauthorized";
          "message" := JString (if instanceof_Error error then message_of error
                                else "Invalid credentials");
          "required_headers" :=
            JArray [JString "X-GitLab-Token or X-GitLab-Access-Token"] ]}) |}.

(** The branch [url.pathname === '/mcp' && request.method === 'POST'] of
    the Worker's [fetch] handler.  [serve] stands for the server created
    by [createStatelessServer(credentials)] and run by the MCP handler:
    whatever it does, it does with a client built from [credentials]. *)
Definition mcp (request_headers : Headers)
    (serve : TenantCredentials -> Async HttpResponse) : Async HttpResponse :=
  let credentials := parseTenantCredentials request_headers in
  match validateCredentials credentials with
  | Thrown error => ret (unauthorized error)
  | Returned _ => serve credentials
  end.

End Boundary.

End Worker.

(** ** A concrete platform and concrete transports

    Used to run the client on explicit inputs. *)

Module Mock.

Definition quote : string := single (ascii_of_N 34).

(** A JSON string literal. *)
Definition lit (s : string) : string := quote +:+ s +:+ quote.

Definition user_text : string :=
  "{" +:+ lit "id" +:+ ":1," +:+ lit "username" +:+ ":" +:+ lit "octocat" +:+ "}".
Definition empty_message_text : string :=
  "{" +:+ lit "message" +:+ ":" +:+ lit "" +:+ "}".
Definition not_found_text : string :=
  "{" +:+ lit "message" +:+ ":" +:+ lit "404 Project Not Found" +:+ "}".
Definition invalid_token_text : string :=
  "{" +:+ lit "error" +:+ ":" +:+ lit "invalid_token" +:+ "}".

(** The JSON texts used below, each with the value [JSON.parse] gives. *)
Definition parsed : list (string * JsValue) :=
  [ ("[]", JArray []);
    ("[1,2,3]", JArray [JNumber (Num 1); JNumber (Num 2); JNumber (Num 3)]);
    ("null", JNull);
    ("{}", JObject ∅);
    (user_text,
     JObject {[ "id" := JNumber (Num 1); "username" := JString "octocat" ]});
    (empty_message_text, JObject {[ "message" := JString "" ]});
    (not_found_text, JObject {[ "message" := JString "404 Project Not Found" ]});
    (invalid_token_text, JObject {[ "error" := JString "invalid_token" ]}) ].

(** Agrees with [JSON.parse] on the texts of [parsed] and on the texts
    below that are not JSON. *)
Definition parse (s : string) : JsValue + string :=
  match find (fun e => String.eqb e.1 s) parsed with
  | Some e => inl e.2
  | None => inr "Unexpected token in JSON"
  end.

(** [JSON.stringify] is only applied to request payloads and to the body
    of the 401 answer, whose text no statement below looks at: [to_string]
    stands in for it. *)
#[local] Instance runtime : Runtime := {|
  JSON_parse := parse;
  JSON_stringify := to_string;
  nullish_read := fun v k =>
    "Cannot read properties of " +:+ to_string v +:+ " (reading '" +:+ k +:+ "')";
|}.

(** A transport that answers every request with the same response. *)
Definition always (response : Response) : Transport :=
  fun _ _ => Returned response.

(** A transport that rejects every request. *)
Definition failing (e : JsError) : Transport :=
  fun _ _ => Thrown e.

Definition respond (st : Z) (hs : list (string * string)) (b : string) : Response :=
  {| status := st; resp_headers := Headers_of hs; resp_body := b |}.

Definition with_private_token : TenantCredentials :=
  {| privateToken := Some "glpat-123"; Env.baseUrl := None; accessToken := None |}.

Definition with_both_tokens : TenantCredentials :=
  {| privateToken := Some "glpat-123"; Env.baseUrl := None;
     accessToken := Some "oauth-456" |}.

Definition http_date : string := "Wed, 21 Oct 2015 07:28:00 GMT".

(** A string that holds nothing but the lone surrogate U+D800. *)
Definition lone_surrogate : string :=
  String (ascii_of_N 237) (String (ascii_of_N 160) (String (ascii_of_N 128) EmptyString)).

(** The second page of three, as GitLab reports it. *)
Definition second_page : Response :=
  respond 200
    [("X-Total", "42"); ("X-Total-Pages", "3"); ("X-Page", "2"); ("X-Next-Page", "3")]
    "[1,2,3]".

(** The headers of the specification's round-trip example. *)
Definition first_page : Response :=
  respond 200 [("X-Total", "42"); ("X-Total-Pages", "3"); ("X-Next-Page", "2")] "[1,2,3]".

Definition three_items : JsValue :=
  JArray [JNumber (Num 1); JNumber (Num 2); JNumber (Num 3)].

Definition without_tokens : TenantCredentials :=
  {| privateToken := None; Env.baseUrl := None; accessToken := None |}.

End Mock.

(** ** What the executors hand to [fetch], and what they build *)

Module Trace.
Section Trace.

Context {rt : Runtime}.
Variable credentials : TenantCredentials.

(** The request that [request] hands to [fetch]. *)
Definition request_sent (auth : gmap string string) (endpoint : string)
    (options : RequestInit) : FetchRequest :=
  {| req_url := baseUrl credentials +:+ endpoint;
     req_method := method options;
     req_body := body options;
     req_headers := merged_headers auth options |}.

(** The request that [requestWithPagination] hands to [fetch]. *)
Definition page_request_sent (auth : gmap string string) (endpoint : string)
    (params : option PaginationParams.t) (options : RequestInit) : FetchRequest :=
  let queryString := URLSearchParams.toString (pagination_query params) in
  {| req_url := baseUrl credentials +:+ endpoint +:+
       (if String.eqb queryString "" then ""
        else (if includes_char "?" endpoint then "&" else "?") +:+ queryString);
     req_method := method options;
     req_body := body options;
     req_headers := merged_headers auth options |}.

(** The request that the raw-text calls hand to [fetch]. *)
Definition text_request_sent (auth : gmap string string) (path : string)
    : FetchRequest :=
  {| req_url := baseUrl credentials +:+ path;
     req_method := None; req_body := None; req_headers := auth |}.

(** The envelope [requestWithPagination] returns for a decoded body
    [items] with [items.length = count]. *)
Definition envelope (response : Response) (items count : JsValue)
    : PaginatedResponse.t :=
  let nextPage :=
    Pagination.parse_header (Headers_get (resp_headers response) "X-Next-Page") in
  {| PaginatedResponse.items := items;
     PaginatedResponse.count := count;
     PaginatedResponse.total :=
       Pagination.parse_header (Headers_get (resp_headers response) "X-Total");
     PaginatedResponse.totalPages :=
       Pagination.parse_header (Headers_get (resp_headers response) "X-Total-Pages");
     PaginatedResponse.hasMore := bool_decide (is_Some nextPage);
     PaginatedResponse.nextPage := nextPage;
     PaginatedResponse.page := None |}.

(** The request a dispatched method hands to [fetch]. *)
Definition sent (auth : gmap string string) (d : Dispatch) : FetchRequest :=
  match d with
  | Request endpoint options | RequestVoid endpoint options =>
      request_sent auth endpoint options
  | RequestWithPagination endpoint params =>
      page_request_sent auth endpoint params no_options
  | FetchText path _ => text_request_sent auth path
  | RequestChanges endpoint => request_sent auth endpoint no_options
  | TestConnection => request_sent auth "/user" no_options
  end.

(** What [request] makes of a response. *)
Definition single_result (response : Response) : Outcome JsValue :=
  match classify response with
  | Thrown e => Thrown e
  | Returned _ =>
      if status response =? 204 then Returned JUndefined else json response
  end.

(** What [requestWithPagination] makes of a response. *)
Definition page_result (response : Response) : Outcome PaginatedResponse.t :=
  match classify response with
  | Thrown e => Thrown e
  | Returned _ =>
      match json response with
      | Thrown e => Thrown e
      | Returned items =>
          match Js.get items "length" with
          | Some count => Returned (envelope response items count)
          | None => Thrown (TypeError (nullish_read items "length"))
          end
      end
  end.

(** What the raw-text calls make of a response. *)
Definition text_result (failure : string) (response : Response) : Outcome string :=
  if negb (ok response) then
    Thrown (GitLabApiError (JString (failure +:+ pretty (status response)))
                           (status response))
  else Returned (resp_body response).

(** The [catch] branch of [testConnection]. *)
Definition not_connected (error : JsError) : ConnectionResult.t :=
  {| ConnectionResult.connected := false;
     ConnectionResult.message :=
       if instanceof_Error error then message_of error else "Connection failed";
     ConnectionResult.user := None |}.

(** What [testConnection] makes of the outcome of [getCurrentUser]. *)
Definition connection_result (o : Outcome JsValue) : ConnectionResult.t :=
  match o with
  | Returned user =>
      match Js.get user "username" with
      | Some username =>
          {| ConnectionResult.connected := true;
             ConnectionResult.message := "Connected as " +:+ to_string username;
             ConnectionResult.user := Some user |}
      | None => not_connected (TypeError (nullish_read user "username"))
      end
  | Thrown e => not_connected e
  end.

Definition outcome_map {A B} (f : A -> B) (o : Outcome A) : Outcome B :=
  match o with
  | Returned a => Returned (f a)
  | Thrown e => Thrown e
  end.

Definition outcome_bind {A B} (o : Outcome A) (f : A -> Outcome B) : Outcome B :=
  match o with
  | Returned a => f a
  | Thrown e => Thrown e
  end.

(** What a dispatched method makes of the transport's answer. *)
Definition answer (d : Dispatch) (o : Outcome Response) : Outcome CallResult :=
  match d with
  | Request _ _ => outcome_map Value (outcome_bind o single_result)
  | RequestVoid _ _ => outcome_map (fun _ => Void) (outcome_bind o single_result)
  | RequestWithPagination _ _ => outcome_map Page (outcome_bind o page_result)
  | FetchText _ failure => outcome_map Text (outcome_bind o (text_result failure))
  | RequestChanges _ =>
      outcome_bind (outcome_bind o single_result)
        (fun response =>
           match Js.get response "changes" with
           | Some changes => Returned (Value changes)
           | None => Thrown (TypeError (nullish_read response "changes"))
           end)
  | TestConnection =>
      Returned (Connection (connection_result (outcome_bind o single_result)))
  end.

(** What a dispatched method does when [getAuthHeaders] throws [e]. *)
Definition refused (d : Dispatch) (e : JsError) : Outcome CallResult :=
  match d with
  | TestConnection => Returned (Connection (not_connected e))
  | _ => Thrown e
  end.

End Trace.

(** Whether a dispatched method goes through one of the two executors
    and lets their errors through. *)
Definition through_executor (d : Dispatch) : bool :=
  match d with
  | FetchText _ _ | TestConnection => false
  | _ => true
  end.

(** The [options] a dispatched method passes on. *)
Definition options_of (d : Dispatch) : RequestInit :=
  match d with
  | Request _ options | RequestVoid _ options => options
  | _ => no_options
  end.


(** The endpoint a dispatched method addresses, relative to the base URL. *)
Definition endpoint_of (d : Dispatch) : string :=
  match d with
  | Request endpoint _ | RequestVoid endpoint _
  | RequestWithPagination endpoint _ | RequestChanges endpoint => endpoint
  | FetchText path _ => path
  | TestConnection => "/user"
  end.

(** The collection and the identifier a method addresses: the methods with
    a [projectId] or a [groupId] argument. *)
Definition scope_of (m : Method.t) : option (string * Ident) :=
  match m with
  | Method.getProject id
  | Method.updateProject id _
  | Method.deleteProject id
  | Method.forkProject id _
  | Method.starProject id
  | Method.unstarProject id
  | Method.listBranches id _
  | Method.getBranch id _
  | Method.createBranch id _
  | Method.deleteBranch id _
  | Method.deleteMergedBranches id
  | Method.listCommits id _
  | Method.getCommit id _
  | Method.createCommit id _
  | Method.getCommitDiff id _
  | Method.cherryPickCommit id _ _
  | Method.revertCommit id _ _
  | Method.listTags id _
  | Method.getTag id _
  | Method.createTag id _
  | Method.deleteTag id _
  | Method.getRepositoryTree id _
  | Method.compareRefs id _ _
  | Method.getFile id _ _
  | Method.getFileRaw id _ _
  | Method.createFile id _ _
  | Method.updateFile id _ _
  | Method.deleteFile id _ _
  | Method.listMergeRequests id _
  | Method.getMergeRequest id _
  | Method.createMergeRequest id _
  | Method.updateMergeRequest id _ _
  | Method.acceptMergeRequest id _ _
  | Method.approveMergeRequest id _
  | Method.rebaseMergeRequest id _
  | Method.getMergeRequestDiff id _
  | Method.listIssues id _
  | Method.getIssue id _
  | Method.createIssue id _
  | Method.updateIssue id _ _
  | Method.deleteIssue id _
  | Method.listIssueNotes id _ _
  | Method.createIssueNote id _ _
  | Method.listMergeRequestNotes id _ _
  | Method.createMergeRequestNote id _ _
  | Method.listLabels id _
  | Method.getLabel id _
  | Method.createLabel id _
  | Method.updateLabel id _ _
  | Method.deleteLabel id _
  | Method.listPipelines id _
  | Method.getPipeline id _
  | Method.createPipeline id _
  | Method.retryPipeline id _
  | Method.cancelPipeline id _
  | Method.deletePipeline id _
  | Method.listPipelineJobs id _ _
  | Method.getJob id _
  | Method.getJobLog id _
  | Method.retryJob id _
  | Method.cancelJob id _
  | Method.playJob id _
  | Method.listReleases id _
  | Method.getRelease id _
  | Method.createRelease id _
  | Method.updateRelease id _ _
  | Method.deleteRelease id _
  | Method.listProjectMembers id _
  | Method.addProjectMember id _
  | Method.updateProjectMember id _ _
  | Method.removeProjectMember id _
  | Method.listProjectVariables id _
  | Method.getProjectVariable id _
  | Method.createProjectVariable id _
  | Method.updateProjectVariable id _ _
  | Method.deleteProjectVariable id _
  | Method.listProjectWebhooks id _
  | Method.createProjectWebhook id _
  | Method.deleteProjectWebhook id _
  | Method.listProjectRunners id _ =>
      Some ("projects", id)
  | Method.getGroup id
  | Method.updateGroup id _
  | Method.deleteGroup id
  | Method.listGroupProjects id _ =>
      Some ("groups", id)
  | Method.testConnection
  | Method.getCurrentUser
  | Method.listProjects _
  | Method.createProject _
  | Method.listGroups _
  | Method.createGroup _
  | Method.listUsers _
  | Method.getUser _ => None
  end.

(** The pieces of a string between the occurrences of a separator. *)
Fixpoint split_on (sep : ascii) (s : string) : list string :=
  match s with
  | EmptyString => [EmptyString]
  | String c rest =>
      if (code c =? code sep)%N then EmptyString :: split_on sep rest
      else match split_on sep rest with
           | piece :: pieces => String c piece :: pieces
           | [] => [single c]
           end
  end.

(** The headers of a request that authenticate it, whatever the case of
    their names. *)
Definition is_auth_header (name : string) : bool :=
  let n := toLowerCase name in
  String.eqb n "authorization" || String.eqb n "private-token".

Definition auth_headers (r : FetchRequest) : list (string * string) :=
  List.filter (fun e => is_auth_header e.1) (map_to_list (req_headers r)).

End Trace.
Import Trace.

(** ** The error message, in the specification's words *)

Module Stated.

(** The message of a [GitLabApiError] as the specification words it: the
    [message] field of the JSON error body when the body has one, its
    [error] field when [message] is absent, and the fallback when the body
    is not JSON or has neither field. *)
Definition error_message (parsed : JsValue + string) (fallback : JsValue) : JsValue :=
  match parsed with
  | inl (JObject props) =>
      match props !! "message" with
      | Some m => m
      | None => default fallback (props !! "error")
      end
  | _ => fallback
  end.

(** A property that is there and truthy. *)
Definition usable (v : JsValue) (k : string) : option JsValue :=
  match Js.get v k with
  | Some x => if truthy x then Some x else None
  | None => None
  end.

(** The same with "absent" read as "absent or falsy": the [message] field
    when it is truthy, else the [error] field when it is truthy, else the
    fallback. *)
Definition first_truthy_message (parsed : JsValue + string) (fallback : JsValue)
    : JsValue :=
  match parsed with
  | inl v =>
      match usable v "message" with
      | Some m => m
      | None => default fallback (usable v "error")
      end
  | inr _ => fallback
  end.

End Stated.

(** ** Environment configuration *)

Module EnvConfig.

(** The [env] object of the Worker: the value bound to each of its names. *)
Definition Env := gmap string JsValue.

Definition getEnvNumber (env : Env) (key : string) (defaultValue : number) : number :=
  match env !! key with
  | Some (JString value) =>
      let parsed := parseInt10 value in
      match parsed with
      | NaN => defaultValue
      | Num _ => parsed
      end
  | _ => defaultValue
  end.

Definition getCharacterLimit (env : Env) : number :=
  getEnvNumber env "CHARACTER_LIMIT" (Num 50000).

Definition getDefaultPageSize (env : Env) : number :=
  getEnvNumber env "DEFAULT_PAGE_SIZE" (Num 20).

Definition getMaxPageSize (env : Env) : number :=
  getEnvNumber env "MAX_PAGE_SIZE" (Num 100).

End EnvConfig.

(** ** Page arithmetic of [utils/pagination.ts] *)

Module PageArithmetic.

(** [a < b], [a <= b] and [a + b] on numbers: a comparison with [NaN] is
    false, a sum with [NaN] is [NaN], and a sum of integers is the double
    nearest to it. *)
Definition lt (a b : number) : bool :=
  match a, b with
  | Num x, Num y => x <? y
  | _, _ => false
  end.

Definition le (a b : number) : bool :=
  match a, b with
  | Num x, Num y => x <=? y
  | _, _ => false
  end.

Definition add (a b : number) : number :=
  match a, b with
  | Num x, Num y => Num (round_double (x + y))
  | _, _ => NaN
  end.

Definition hasMoreItems (page totalPages : number) : bool := lt page totalPages.

Definition getNextPage (currentPage totalPages : number) : option number :=
  let next := add currentPage (Num 1) in
  if le next totalPages then Some next else None.

End PageArithmetic.

(** ** The routes of the Worker *)

Module Routes.

Definition SERVER_NAME : string := "gitlab-mcp-server".
Definition SERVER_VERSION : string := "1.0.0".

Definition TOOL_NAMES : list string :=
  [ "gitlab_test_connection";
    "gitlab_get_current_user";
    "gitlab_list_users";
    "gitlab_get_user";
    "gitlab_list_projects";
    "gitlab_get_project";
    "gitlab_create_project";
    "gitlab_update_project";
    "gitlab_delete_project";
    "gitlab_fork_project";
    "gitlab_star_project";
    "gitlab_unstar_project";
    "gitlab_list_branches";
    "gitlab_get_branch";
    "gitlab_create_branch";
    "gitlab_delete_branch";
    "gitlab_delete_merged_branches";
    "gitlab_list_commits";
    "gitlab_get_commit";
    "gitlab_create_commit";
    "gitlab_get_commit_diff";
    "gitlab_cherry_pick_commit";
    "gitlab_revert_commit";
    "gitlab_list_tags";
    "gitlab_get_tag";
    "gitlab_create_tag";
    "gitlab_delete_tag";
    "gitlab_get_repository_tree";
    "gitlab_compare_refs";
    "gitlab_get_file";
    "gitlab_get_file_raw";
    "gitlab_create_file";
    "gitlab_update_file";
    "gitlab_delete_file";
    "gitlab_list_merge_requests";
    "gitlab_get_merge_request";
    "gitlab_create_merge_request";
    "gitlab_update_merge_request";
    "gitlab_accept_merge_request";
    "gitlab_approve_merge_request";
    "gitlab_rebase_merge_request";
    "gitlab_get_merge_request_diff";
    "gitlab_list_issues";
    "gitlab_get_issue";
    "gitlab_create_issue";
    "gitlab_update_issue";
    "gitlab_delete_issue";
    "gitlab_list_issue_notes";
    "gitlab_create_issue_note";
    "gitlab_list_pipelines";
    "gitlab_get_pipeline";
    "gitlab_create_pipeline";
    "gitlab_retry_pipeline";
    "gitlab_cancel_pipeline";
    "gitlab_delete_pipeline";
    "gitlab_list_pipeline_jobs";
    "gitlab_get_job";
    "gitlab_get_job_log";
    "gitlab_retry_job";
    "gitlab_cancel_job";
    "gitlab_play_job";
    "gitlab_list_groups";
    "gitlab_get_group";
    "gitlab_create_group";
    "gitlab_update_group";
    "gitlab_delete_group";
    "gitlab_list_group_projects" ].

Section Routes.

Context {rt : Runtime}.

Definition health : Worker.HttpResponse :=
  {| Worker.http_status := 200;
     Worker.http_body := JSON_stringify (JObject
       {[ "status" := JString "ok"; "server" := JString SERVER_NAME ]}) |}.

Definition sse : Worker.HttpResponse :=
  {| Worker.http_status := 501;
     Worker.http_body := "SSE endpoint requires Durable Objects. Enable in wrangler.jsonc." |}.

Definition info : Worker.HttpResponse :=
  {| Worker.http_status := 200;
     Worker.http_body := JSON_stringify (JObject
       {[ "name" := JString SERVER_NAME;
          "version" := JString SERVER_VERSION;
          "description" := JString "Multi-tenant GitLab MCP Server";
          "endpoints" := JObject
            {[ "mcp" := JString "/mcp (POST) - Streamable HTTP MCP endpoint";
               "health" := JString "/health - Health check" ]};
          "authentication" := JObject
            {[ "description" := JString "Pass tenant credentials via request headers";
               "required_headers" := JObject
                 {[ "X-GitLab-Token" := JString
                      "Private token for GitLab API authentication (or use X-GitLab-Access-Token)" ]};
               "optional_headers" := JObject
                 {[ "X-GitLab-Access-Token" := JString
                      "OAuth access token (alternative to private token)";
                    "X-GitLab-Base-URL" := JString
                      "Override the default GitLab API base URL (default: https://gitlab.com)" ]} ]};
          "tools" := JArray (JString <$> TOOL_NAMES) ]}) |}.

(** The [fetch] handler of the Worker, on the path and the method of the
    request; [serve] is what the MCP handler does with the credentials. *)
Definition fetch (pathname method : string) (request_headers : Headers)
    (serve : TenantCredentials -> Async Worker.HttpResponse)
    : Async Worker.HttpResponse :=
  if String.eqb pathname "/health" then ret health
  else if String.eqb pathname "/mcp" && String.eqb method "POST"
       then Worker.mcp request_headers serve
  else if String.eqb pathname "/sse" then ret sse
  else ret info.

End Routes.

End Routes.

(** ** The tool tables *)

Module Tools.

(** The seven handlers a registered tool is handed to. *)
Inductive Family :=
  | User | Project | Group | Repository | MergeRequest | Issue | Pipeline.

(** [registerTools]: each registered name with the handler its callback
    calls, in registration order. *)
Definition registered : list (string * Family) :=
  [ ("gitlab_test_connection", User);
    ("gitlab_get_current_user", User);
    ("gitlab_list_users", User);
    ("gitlab_get_user", User);
    ("gitlab_list_projects", Project);
    ("gitlab_get_project", Project);
    ("gitlab_create_project", Project);
    ("gitlab_update_project", Project);
    ("gitlab_delete_project", Project);
    ("gitlab_fork_project", Project);
    ("gitlab_star_project", Project);
    ("gitlab_unstar_project", Project);
    ("gitlab_list_branches", Repository);
    ("gitlab_get_branch", Repository);
    ("gitlab_create_branch", Repository);
    ("gitlab_delete_branch", Repository);
    ("gitlab_delete_merged_branches", Repository);
    ("gitlab_list_commits", Repository);
    ("gitlab_get_commit", Repository);
    ("gitlab_create_commit", Repository);
    ("gitlab_get_commit_diff", Repository);
    ("gitlab_cherry_pick_commit", Repository);
    ("gitlab_revert_commit", Repository);
    ("gitlab_list_tags", Repository);
    ("gitlab_get_tag", Repository);
    ("gitlab_create_tag", Repository);
    ("gitlab_delete_tag", Repository);
    ("gitlab_get_repository_tree", Repository);
    ("gitlab_compare_refs", Repository);
    ("gitlab_get_file", Repository);
    ("gitlab_get_file_raw", Repository);
    ("gitlab_create_file", Repository);
    ("gitlab_update_file", Repository);
    ("gitlab_delete_file", Repository);
    ("gitlab_list_merge_requests", MergeRequest);
    ("gitlab_get_merge_request", MergeRequest);
    ("gitlab_create_merge_request", MergeRequest);
    ("gitlab_update_merge_request", MergeRequest);
    ("gitlab_accept_merge_request", MergeRequest);
    ("gitlab_approve_merge_request", MergeRequest);
    ("gitlab_rebase_merge_request", MergeRequest);
    ("gitlab_get_merge_request_diff", MergeRequest);
    ("gitlab_list_issues", Issue);
    ("gitlab_get_issue", Issue);
    ("gitlab_create_issue", Issue);
    ("gitlab_update_issue", Issue);
    ("gitlab_delete_issue", Issue);
    ("gitlab_list_issue_notes", Issue);
    ("gitlab_create_issue_note", Issue);
    ("gitlab_list_pipelines", Pipeline);
    ("gitlab_get_pipeline", Pipeline);
    ("gitlab_create_pipeline", Pipeline);
    ("gitlab_retry_pipeline", Pipeline);
    ("gitlab_cancel_pipeline", Pipeline);
    ("gitlab_delete_pipeline", Pipeline);
    ("gitlab_list_pipeline_jobs", Pipeline);
    ("gitlab_get_job", Pipeline);
    ("gitlab_get_job_log", Pipeline);
    ("gitlab_retry_job", Pipeline);
    ("gitlab_cancel_job", Pipeline);
    ("gitlab_play_job", Pipeline);
    ("gitlab_list_groups", Group);
    ("gitlab_get_group", Group);
    ("gitlab_create_group", Group);
    ("gitlab_update_group", Group);
    ("gitlab_delete_group", Group);
    ("gitlab_list_group_projects", Group) ].

(** The [case] labels of the [switch] of each handler. *)
Definition cases (family : Family) : list string :=
  match family with
  | User =>
      [ "gitlab_test_connection";
        "gitlab_get_current_user";
        "gitlab_list_users";
        "gitlab_get_user" ]
  | Project =>
      [ "gitlab_list_projects";
        "gitlab_get_project";
        "gitlab_create_project";
        "gitlab_update_project";
        "gitlab_delete_project";
        "gitlab_fork_project";
        "gitlab_star_project";
        "gitlab_unstar_project" ]
  | Group =>
      [ "gitlab_list_groups";
        "gitlab_get_group";
        "gitlab_create_group";
        "gitlab_update_group";
        "gitlab_delete_group";
        "gitlab_list_group_projects" ]
  | Repository =>
      [ "gitlab_list_branches";
        "gitlab_get_branch";
        "gitlab_create_branch";
        "gitlab_delete_branch";
        "gitlab_list_commits";
        "gitlab_get_commit";
        "gitlab_create_commit";
        "gitlab_get_commit_diff";
        "gitlab_cherry_pick_commit";
        "gitlab_revert_commit";
        "gitlab_list_tags";
        "gitlab_get_tag";
        "gitlab_create_tag";
        "gitlab_delete_tag";
        "gitlab_get_repository_tree";
        "gitlab_compare_refs";
        "gitlab_get_file";
        "gitlab_get_file_raw";
        "gitlab_create_file";
        "gitlab_update_file";
        "gitlab_delete_file" ]
  | MergeRequest =>
      [ "gitlab_list_merge_requests";
        "gitlab_get_merge_request";
        "gitlab_create_merge_request";
        "gitlab_update_merge_request";
        "gitlab_accept_merge_request";
        "gitlab_approve_merge_request";
        "gitlab_rebase_merge_request";
        "gitlab_get_merge_request_diff" ]
  | Issue =>
      [ "gitlab_list_issues";
        "gitlab_get_issue";
        "gitlab_create_issue";
        "gitlab_update_issue";
        "gitlab_delete_issue";
        "gitlab_list_issue_notes";
        "gitlab_create_issue_note" ]
  | Pipeline =>
      [ "gitlab_list_pipelines";
        "gitlab_get_pipeline";
        "gitlab_create_pipeline";
        "gitlab_retry_pipeline";
        "gitlab_cancel_pipeline";
        "gitlab_delete_pipeline";
        "gitlab_list_pipeline_jobs";
        "gitlab_get_job";
        "gitlab_get_job_log";
        "gitlab_retry_job";
        "gitlab_cancel_job";
        "gitlab_play_job" ]
  end.

(** The word in the message of the [default] branch. *)
Definition label (family : Family) : string :=
  match family with
  | User => "user"
  | Project => "project"
  | Group => "group"
  | Repository => "repository"
  | MergeRequest => "merge request"
  | Issue => "issue"
  | Pipeline => "pipeline/job"
  end.

(** The [switch (toolName)] of a handler.  What a [case] does (parse the
    arguments, call one client method, format the result) is [body]; the
    labels and the [default] branch are the handler's. *)
Definition handle (body : Family -> string -> JsValue -> Async string)
    (family : Family) (toolName : string) (args : JsValue) : Async string :=
  if existsb (String.eqb toolName) (cases family)
  then body family toolName args
  else throw (Error ("Unknown " +:+ label family +:+ " tool: " +:+ toolName)).

End Tools.

(** ** Characters, suffixes and escapes *)

Module Text.

Fixpoint string_forall (P : ascii -> bool) (s : string) : bool :=
  match s with
  | EmptyString => true
  | String c rest => P c && string_forall P rest
  end.

Definition no_upper : string -> bool := string_forall (fun c => negb (is_upper c)).

(** The characters a serialised query is made of: the form-safe ones, the
    percent sign and the plus of an escape, and the two separators. *)
Definition query_char (c : ascii) : bool :=
  form_safe c || is_one_of [37; 43; 61; 38]%N c.

(** The characters that would change what a URL means if a value let them
    through: slash, question mark, hash and space. *)
Definition url_delimiter (c : ascii) : bool := is_one_of [47; 63; 35; 32]%N c.

Section Suffix.
Context {rt : Runtime}.

(** What [requestWithPagination] appends to the endpoint. *)
Definition pagination_suffix (endpoint : string) (params : option PaginationParams.t)
    : string :=
  let queryString := URLSearchParams.toString (pagination_query params) in
  if String.eqb queryString "" then ""
  else (if includes_char "?" endpoint then "&" else "?") +:+ queryString.
End Suffix.

(** An optional number that an [if (n)] test lets through or not. *)
Definition absent_or_falsy (n : option number) : bool :=
  match n with
  | Some v => negb (number_truthy v)
  | None => true
  end.

Definition hex_value (c : ascii) : option N :=
  if is_digit c then Some (code c - 48)%N
  else if in_range 65 70 c then Some (code c - 55)%N
  else if in_range 97 102 c then Some (code c - 87)%N
  else None.

(** Percent-decoding of bytes, the inverse that [decodeURIComponent]
    applies before it checks the bytes as UTF-8; [None] for a percent sign
    that two hexadecimal digits do not follow. *)
Fixpoint unescape (s : string) : option string :=
  match s with
  | EmptyString => Some EmptyString
  | String c rest =>
      if (code c =? 37)%N then
        match rest with
        | String h (String l rest') =>
            match hex_value h, hex_value l with
            | Some a, Some b => String (ascii_of_N (16 * a + b)) <$> unescape rest'
            | _, _ => None
            end
        | _ => None
        end
      else String c <$> unescape rest
  end.

End Text.

(** ** The path of a request URL

What the URL parser of [fetch] makes of the string the client builds,
after the URL standard, for an [http] or [https] URL.  The parser trims
the input, removes tabs and newlines, and then reads the path segment by
segment: a segment ends at a slash or a backslash, the path ends at a
question mark or a hash.  A single-dot segment is dropped and a
double-dot segment removes the segment before it.  Segments are held as
they are read: the parser also escapes the characters of its path
percent-encode set, which moves no segment boundary and makes no dot
segment. *)

Module URL.

Import Text.

Definition is_c0_control_or_space (c : ascii) : bool := (code c <=? 32)%N.

Definition is_tab_or_newline : ascii -> bool := is_one_of [9; 10; 13]%N.

Fixpoint trim_start (s : string) : string :=
  match s with
  | EmptyString => EmptyString
  | String c rest => if is_c0_control_or_space c then trim_start rest else s
  end.

Fixpoint trim_end (s : string) : string :=
  match s with
  | EmptyString => EmptyString
  | String c rest =>
      let kept := trim_end rest in
      if is_c0_control_or_space c && String.eqb kept "" then EmptyString
      else String c kept
  end.

Fixpoint remove_tab_newline (s : string) : string :=
  match s with
  | EmptyString => EmptyString
  | String c rest =>
      if is_tab_or_newline c then remove_tab_newline rest
      else String c (remove_tab_newline rest)
  end.

(** What is done to the end of the input before it is parsed. *)
Definition prepare (input : string) : string := remove_tab_newline (trim_end input).

(** Slash and backslash end a segment; question mark and hash end the path. *)
Definition is_separator : ascii -> bool := is_one_of [47; 92]%N.
Definition ends_path : ascii -> bool := is_one_of [63; 35]%N.

(** The characters [encodeURIComponent] leaves in its result: the
    unreserved marks and the percent sign of an escape. *)
Definition segment_char (c : ascii) : bool := uri_unreserved c || (code c =? 37)%N.

(** The characters that neither end a segment or the path nor are
    trimmed or removed. *)
Definition plain (c : ascii) : bool :=
  negb (is_separator c || ends_path c || is_c0_control_or_space c).

(** A single-dot segment is [.] or [%2e]; a double-dot segment is [..],
    [.%2e], [%2e.] or [%2e%2e]; the escapes in either case of the letter. *)
Definition is_single_dot (segment : string) : bool :=
  String.eqb segment "." || String.eqb (toLowerCase segment) "%2e".

Definition is_double_dot (segment : string) : bool :=
  String.eqb segment ".."
  || String.eqb (toLowerCase segment) ".%2e"
  || String.eqb (toLowerCase segment) "%2e."
  || String.eqb (toLowerCase segment) "%2e%2e".

(** Shortening a path removes its last segment, if there is one. *)
Definition shorten (path : list string) : list string := removelast path.

(** The end of a segment, at a slash ([at_slash]) or at the end of the
    path. *)
Definition close (path : list string) (buffer : string) (at_slash : bool)
    : list string :=
  if is_double_dot buffer then
    if at_slash then shorten path else shorten path ++ [""]
  else if is_single_dot buffer then
    if at_slash then path else path ++ [""]
  else path ++ [buffer].

(** The path state: [path] holds the segments read so far and [buffer]
    the segment being read. *)
Fixpoint path_state (path : list string) (buffer : string) (input : string)
    : list string :=
  match input with
  | EmptyString => close path buffer false
  | String c rest =>
      if ends_path c then close path buffer false
      else if is_separator c then path_state (close path buffer true) "" rest
      else path_state path (buffer +:+ single c) rest
  end.

(** The path of a URL whose [input] follows a slash at which the parser
    holds the segments [prior]: for the base URL
    [https://gitlab.com/api/v4] and an endpoint [/projects], [prior] is
    [api], [v4] and [input] is [projects]. *)
Definition path_from (prior : list string) (input : string) : list string :=
  path_state prior "" (prepare input).

(** Whether some segment of the path in [input] is a double-dot segment. *)
Fixpoint steps_back (buffer : string) (input : string) : bool :=
  match input with
  | EmptyString => is_double_dot buffer
  | String c rest =>
      if ends_path c then is_double_dot buffer
      else if is_separator c then is_double_dot buffer || steps_back "" rest
      else steps_back (buffer +:+ single c) rest
  end.

(** [input] without the prefix [prefix], compared without regard to the
    case of ASCII letters. *)
Fixpoint strip_prefix (prefix input : string) : option string :=
  match prefix, input with
  | EmptyString, _ => Some input
  | String a prefix', String b input' =>
      if Ascii.eqb (to_lower b) a then strip_prefix prefix' input' else None
  | String _ _, EmptyString => None
  end.

(** The input from the end of the authority on. *)
Fixpoint after_authority (input : string) : string :=
  match input with
  | EmptyString => EmptyString
  | String c rest =>
      if is_separator c || ends_path c then input else after_authority rest
  end.

(** The path of an absolute [http] or [https] URL that is written with
    two slashes and an authority; [None] for any other input.  The
    authority is skipped, not validated. *)
Definition pathname (url : string) : option (list string) :=
  let input := remove_tab_newline (trim_start (trim_end url)) in
  let rest :=
    match strip_prefix "https://" input with
    | Some rest => Some rest
    | None => strip_prefix "http://" input
    end in
  match rest with
  | Some (String c _ as rest) =>
      if is_separator c || ends_path c then None
      else
        match after_authority rest with
        | String d tail =>
            if is_separator d then Some (path_state [] "" tail)
            else Some (close [] "" false)
        | EmptyString => Some (close [] "" false)
        end
  | _ => None
  end.

(** A target without the slash it starts with. *)
Definition relative (target : string) : string :=
  match target with
  | String c rest => if is_separator c then rest else target
  | EmptyString => EmptyString
  end.

Section Target.
Context {rt : Runtime}.

(** What a dispatched method appends to the base URL: the endpoint and,
    for a list method, the pagination query. *)
Definition target_of (d : Dispatch) : string :=
  endpoint_of d
  +:+ match d with
      | RequestWithPagination endpoint params => pagination_suffix endpoint params
      | _ => ""
      end.
End Target.

End URL.

(** * Properties *)

(** ** Stepping through the executors *)

Section Executors.

Context {rt : Runtime}.
Variable credentials : TenantCredentials.
Variable transport : Transport.

Lemma request_without_credentials endpoint options log e :
  getAuthHeaders credentials = Thrown e ->
  request credentials transport endpoint options log = (Thrown e, log).
Proof. intros H. unfold request, Fetch.bind, lift. now rewrite H. Qed.

Lemma request_rejected endpoint options log auth e :
  getAuthHeaders credentials = Returned auth ->
  transport log (request_sent credentials auth endpoint options) = Thrown e ->
  request credentials transport endpoint options log
  = (Thrown e, log ++ [request_sent credentials auth endpoint options]).
Proof.
  intros Ha Ht. unfold request, Fetch.bind, lift, fetch. rewrite Ha.
  fold (request_sent credentials auth endpoint options). now rewrite Ht.
Qed.

Lemma request_answered endpoint options log auth response :
  getAuthHeaders credentials = Returned auth ->
  transport log (request_sent credentials auth endpoint options) = Returned response ->
  request credentials transport endpoint options log
  = (match classify response with
     | Thrown e => Thrown e
     | Returned _ =>
         if status response =? 204 then Returned JUndefined else json response
     end, log ++ [request_sent credentials auth endpoint options]).
Proof.
  intros Ha Ht. unfold request, Fetch.bind, lift, fetch. rewrite Ha.
  fold (request_sent credentials auth endpoint options). rewrite Ht.
  destruct (classify response); [|reflexivity].
  now destruct (status response =? 204).
Qed.

Lemma paginated_without_credentials endpoint params options log e :
  getAuthHeaders credentials = Thrown e ->
  requestWithPagination credentials transport endpoint params options log
  = (Thrown e, log).
Proof. intros H. unfold requestWithPagination, Fetch.bind, lift. now rewrite H. Qed.

Lemma paginated_rejected endpoint params options log auth e :
  getAuthHeaders credentials = Returned auth ->
  transport log (page_request_sent credentials auth endpoint params options) = Thrown e ->
  requestWithPagination credentials transport endpoint params options log
  = (Thrown e, log ++ [page_request_sent credentials auth endpoint params options]).
Proof.
  intros Ha Ht. unfold requestWithPagination, Fetch.bind, lift, fetch. rewrite Ha.
  fold (page_request_sent credentials auth endpoint params options). now rewrite Ht.
Qed.

Lemma paginated_answered endpoint params options log auth response :
  getAuthHeaders credentials = Returned auth ->
  transport log (page_request_sent credentials auth endpoint params options) = Returned response ->
  requestWithPagination credentials transport endpoint params options log
  = (match classify response with
     | Thrown e => Thrown e
     | Returned _ =>
         match json response with
         | Thrown e => Thrown e
         | Returned items =>
             match Js.get items "length" with
             | Some count => Returned (envelope response items count)
             | None => Thrown (TypeError (nullish_read items "length"))
             end
         end
     end, log ++ [page_request_sent credentials auth endpoint params options]).
Proof.
  intros Ha Ht. unfold requestWithPagination, Fetch.bind, lift, fetch. rewrite Ha.
  fold (page_request_sent credentials auth endpoint params options). rewrite Ht.
  destruct (classify response); [|reflexivity].
  destruct (json response) as [items|]; [|reflexivity].
  now destruct (Js.get items "length").
Qed.

Lemma fetch_text_without_credentials path failure log e :
  getAuthHeaders credentials = Thrown e ->
  fetch_text credentials transport path failure log = (Thrown e, log).
Proof. intros H. unfold fetch_text, Fetch.bind, lift. now rewrite H. Qed.

Lemma fetch_text_stepped path failure log auth :
  getAuthHeaders credentials = Returned auth ->
  fetch_text credentials transport path failure log
  = (outcome_bind (transport log (text_request_sent credentials auth path))
       (text_result failure),
     log ++ [text_request_sent credentials auth path]).
Proof.
  intros Ha. unfold fetch_text, Fetch.bind, lift, fetch. rewrite Ha.
  fold (text_request_sent credentials auth path).
  destruct (transport log _) as [response|]; [|reflexivity].
  unfold outcome_bind, text_result, throw, ret. now destruct (negb (ok response)).
Qed.

Lemma request_stepped endpoint options log auth :
  getAuthHeaders credentials = Returned auth ->
  request credentials transport endpoint options log
  = (outcome_bind (transport log (request_sent credentials auth endpoint options))
       single_result,
     log ++ [request_sent credentials auth endpoint options]).
Proof.
  intros Ha. destruct (transport log _) as [response|e] eqn:Ht.
  - now rewrite (request_answered _ _ _ _ _ Ha Ht).
  - now rewrite (request_rejected _ _ _ _ _ Ha Ht).
Qed.

Lemma paginated_stepped endpoint params options log auth :
  getAuthHeaders credentials = Returned auth ->
  requestWithPagination credentials transport endpoint params options log
  = (outcome_bind
       (transport log (page_request_sent credentials auth endpoint params options))
       page_result,
     log ++ [page_request_sent credentials auth endpoint params options]).
Proof.
  intros Ha. destruct (transport log _) as [response|e] eqn:Ht.
  - now rewrite (paginated_answered _ _ _ _ _ _ Ha Ht).
  - now rewrite (paginated_rejected _ _ _ _ _ _ Ha Ht).
Qed.

(** A method call of a client with credentials hands exactly one request
    to the transport and returns what [answer] says. *)
Lemma run_with_credentials d log auth :
  getAuthHeaders credentials = Returned auth ->
  run credentials transport d log
  = (answer d (transport log (sent credentials auth d)),
     log ++ [sent credentials auth d]).
Proof.
  intros Ha. destruct d; cbn [run answer sent]; unfold Fetch.bind, testConnection,
    try_catch, getCurrentUser, Fetch.bind;
    rewrite ?(request_stepped _ _ _ _ Ha), ?(paginated_stepped _ _ _ _ _ Ha),
      ?(fetch_text_stepped _ _ _ _ Ha);
    try (destruct (outcome_bind _ _) as [v|e]; cbn; try reflexivity).
  - now destruct (Js.get v "changes").
  - unfold connection_result. now destruct (Js.get v "username").
Qed.

(** A method call of a client without credentials hands nothing to the
    transport. *)
Lemma run_without_credentials d log e :
  getAuthHeaders credentials = Thrown e ->
  run credentials transport d log = (refused d e, log).
Proof.
  intros Ha. destruct d; cbn [run refused]; unfold Fetch.bind, testConnection,
    try_catch, getCurrentUser, Fetch.bind;
    now rewrite ?(request_without_credentials _ _ _ _ Ha),
      ?(paginated_without_credentials _ _ _ _ _ Ha),
      ?(fetch_text_without_credentials _ _ _ _ Ha).
Qed.

End Executors.

(** ** Credentials *)

Section Credentials.

Context {rt : Runtime}.

Lemma getAuthHeaders_refuses credentials :
  present (accessToken credentials) = false ->
  present (privateToken credentials) = false ->
  getAuthHeaders credentials = Thrown (AuthenticationError
    "No credentials provided. Include X-GitLab-Token or X-GitLab-Access-Token header.").
Proof. intros Ha Hp. unfold getAuthHeaders, if_present. now rewrite Ha, Hp. Qed.

Lemma if_present_idempotent o : if_present (if_present o) = if_present o.
Proof. unfold if_present. destruct (present o) eqn:E; [now rewrite E | reflexivity]. Qed.

Lemma present_if_present o : present (if_present o) = present o.
Proof. unfold if_present. destruct (present o) eqn:E; [exact E | reflexivity]. Qed.

(** The credentials the resolver builds never hold an empty token: a
    token is present exactly when its field is set. *)
Lemma parsed_credentials_normal h :
  let credentials := parseTenantCredentials h in
  if_present (accessToken credentials) = accessToken credentials
  /\ if_present (privateToken credentials) = privateToken credentials.
Proof.
  unfold parseTenantCredentials, or_undefined. cbn [privateToken accessToken].
  now rewrite !if_present_idempotent.
Qed.

(** C1, as amended.  For every inbound request that carries neither the
    [X-GitLab-Token] nor the [X-GitLab-Access-Token] header, validation of
    the resolved credentials throws a plain [Error] (not an
    [AuthenticationError]); the [/mcp] boundary answers it with a 401
    response without running the server, so no request reaches the
    transport.  A client built from such credentials hands nothing to the
    transport either: every method but [testConnection] throws
    [AuthenticationError]. *)
Theorem missing_tokens_fail_before_any_request
    (request_headers : Headers) (serve : TenantCredentials -> Async Worker.HttpResponse)
    (transport : Transport) (log : list FetchRequest) :
  Headers_get request_headers "X-GitLab-Token" = None ->
  Headers_get request_headers "X-GitLab-Access-Token" = None ->
  let credentials := parseTenantCredentials request_headers in
  let missing := Error
    "Missing credentials. Provide either X-GitLab-Token or X-GitLab-Access-Token header." in
  validateCredentials credentials = Thrown missing
  /\ Worker.mcp request_headers serve log = (Returned (Worker.unauthorized missing), log)
  /\ Worker.http_status (Worker.unauthorized missing) = 401
  /\ forall m : Method.t,
       snd (call credentials transport m log) = log
       /\ (m <> Method.testConnection ->
           fst (call credentials transport m log) = Thrown (AuthenticationError
             "No credentials provided. Include X-GitLab-Token or X-GitLab-Access-Token header.")).
Proof.
  intros Hp Ha credentials missing.
  assert (Hv : validateCredentials credentials = Thrown missing).
  { unfold validateCredentials, credentials, parseTenantCredentials.
    cbn [privateToken accessToken]. now rewrite Hp, Ha. }
  split; [exact Hv|]. split; [|split; [reflexivity|]].
  - unfold Worker.mcp. fold credentials. now rewrite Hv.
  - intros m. unfold call.
    rewrite (run_without_credentials credentials transport (dispatch m) log
               (AuthenticationError
                  "No credentials provided. Include X-GitLab-Token or X-GitLab-Access-Token header.")).
    + split; [reflexivity|]. intros Hm. cbn [fst].
      destruct m; try reflexivity. now contradiction Hm.
    + apply getAuthHeaders_refuses; unfold credentials, parseTenantCredentials;
        cbn [privateToken accessToken]; now rewrite ?Hp, ?Ha.
Qed.

End Credentials.

Section CredentialsRun.

#[local] Existing Instance Mock.runtime.

(** C1, as stated, fails: the error thrown for a request without token
    headers is a plain [Error], not an [AuthenticationError]. *)
Lemma missing_tokens_error_is_not_AuthenticationError :
  ~ exists message,
      validateCredentials
        (parseTenantCredentials (Headers_of [("Content-Type", "application/json")]))
      = Thrown (AuthenticationError message).
Proof. intros [message H]. vm_compute in H. discriminate H. Qed.

Lemma missing_tokens_fail_before_any_request_witness :
  let request_headers := Headers_of [("Content-Type", "application/json")] in
  let transport := Mock.always (Mock.respond 200 [] "[]") in
  Headers_get request_headers "X-GitLab-Token" = None
  /\ Headers_get request_headers "X-GitLab-Access-Token" = None
  /\ Worker.mcp request_headers
       (fun credentials =>
          let! _ := call credentials transport Method.getCurrentUser in
          ret {| Worker.http_status := 200; Worker.http_body := "" |}) []
     = (Returned (Worker.unauthorized (Error
          "Missing credentials. Provide either X-GitLab-Token or X-GitLab-Access-Token header.")),
        [])
  /\ call (parseTenantCredentials request_headers) transport
       (Method.getProject (IdNumber (Num 7))) []
     = (Thrown (AuthenticationError
          "No credentials provided. Include X-GitLab-Token or X-GitLab-Access-Token header."),
        []).
Proof.
  intros request_headers transport.
  assert (Hp : Headers_get request_headers "X-GitLab-Token" = None) by reflexivity.
  assert (Ha : Headers_get request_headers "X-GitLab-Access-Token" = None) by reflexivity.
  split; [exact Hp|]. split; [exact Ha|].
  destruct (missing_tokens_fail_before_any_request request_headers
              (fun credentials =>
                 let! _ := call credentials transport Method.getCurrentUser in
                 ret {| Worker.http_status := 200; Worker.http_body := "" |})
              transport [] Hp Ha) as (_ & Hm & _ & Hc).
  split; [exact Hm|].
  destruct (Hc (Method.getProject (IdNumber (Num 7)))) as [Hlog Hthrown].
  rewrite (surjective_pairing (call _ _ _ _)), Hlog, Hthrown; [reflexivity|discriminate].
Defined.

End CredentialsRun.

(** ** Classification of responses *)

Section Classification.

Context {rt : Runtime}.
Variable credentials : TenantCredentials.
Variable transport : Transport.

Lemma classify_unauthorized response :
  status response = 401 \/ status response = 403 ->
  classify response
  = Thrown (AuthenticationError "Authentication failed. Check your GitLab credentials.").
Proof. unfold classify. now intros [-> | ->]. Qed.

Lemma classify_rate_limited response :
  status response = 429 ->
  classify response
  = Thrown (RateLimitError "Rate limit exceeded" (retryAfterSeconds response)).
Proof. unfold classify. now intros ->. Qed.

Lemma retryAfterSeconds_absent response :
  Headers_get (resp_headers response) "Retry-After" = None ->
  retryAfterSeconds response = Num 60.
Proof. unfold retryAfterSeconds. now intros ->. Qed.

Lemma retryAfterSeconds_present response value :
  Headers_get (resp_headers response) "Retry-After" = Some value ->
  value <> "" ->
  retryAfterSeconds response = parseInt10 value.
Proof.
  unfold retryAfterSeconds, if_present, present. intros -> Hv.
  destruct (String.eqb_spec value ""); [contradiction|reflexivity].
Qed.

Lemma errorMessage_is_first_truthy response :
  errorMessage response
  = Stated.first_truthy_message (JSON_parse (resp_body response))
      (JString ("API error: " +:+ pretty (status response))).
Proof.
  unfold errorMessage, Stated.first_truthy_message, Stated.usable, or_else.
  destruct (JSON_parse (resp_body response)) as [v|]; [|reflexivity].
  destruct v; cbn [Js.get]; try reflexivity;
    repeat match goal with |- context [truthy ?x] => destruct (truthy x) eqn:? end;
    cbn; congruence.
Qed.

Lemma classify_other response :
  ok response = false ->
  status response <> 401 -> status response <> 403 -> status response <> 429 ->
  classify response
  = Thrown (GitLabApiError
      (Stated.first_truthy_message (JSON_parse (resp_body response))
         (JString ("API error: " +:+ pretty (status response))))
      (status response)).
Proof.
  intros Hok H1 H3 H9. unfold classify.
  apply Z.eqb_neq in H1, H3, H9. rewrite H1, H3, H9, Hok. cbn.
  now rewrite errorMessage_is_first_truthy.
Qed.

(** What the two executors and every method that goes through them do
    with a response on which [classify] throws. *)
Lemma classified_is_thrown log auth response e :
  getAuthHeaders credentials = Returned auth ->
  classify response = Thrown e ->
  (forall endpoint options,
     transport log (request_sent credentials auth endpoint options) = Returned response ->
     fst (request credentials transport endpoint options log) = Thrown e)
  /\ (forall endpoint params options,
        transport log (page_request_sent credentials auth endpoint params options)
        = Returned response ->
        fst (requestWithPagination credentials transport endpoint params options log)
        = Thrown e)
  /\ (forall m,
        through_executor (dispatch m) = true ->
        transport log (sent credentials auth (dispatch m)) = Returned response ->
        fst (call credentials transport m log) = Thrown e).
Proof.
  intros Ha Hc. repeat split.
  - intros endpoint options Ht. rewrite (request_stepped _ _ _ _ _ _ Ha), Ht.
    cbn. unfold single_result. now rewrite Hc.
  - intros endpoint params options Ht. rewrite (paginated_stepped _ _ _ _ _ _ _ Ha), Ht.
    cbn. unfold page_result. now rewrite Hc.
  - intros m Hm Ht. unfold call. rewrite (run_with_credentials _ _ _ _ _ Ha), Ht.
    destruct (dispatch m); try discriminate Hm; cbn;
      unfold single_result, page_result; now rewrite Hc.
Qed.

(** C2.  Whenever the response to a call of either executor, or of any
    method that goes through them, has status 401 or 403, the call throws
    [AuthenticationError], whatever the body and the headers of the
    response. *)
Theorem unauthorized_status_throws_AuthenticationError log auth response :
  getAuthHeaders credentials = Returned auth ->
  status response = 401 \/ status response = 403 ->
  let error :=
    AuthenticationError "Authentication failed. Check your GitLab credentials." in
  (forall endpoint options,
     transport log (request_sent credentials auth endpoint options) = Returned response ->
     fst (request credentials transport endpoint options log) = Thrown error)
  /\ (forall endpoint params options,
        transport log (page_request_sent credentials auth endpoint params options)
        = Returned response ->
        fst (requestWithPagination credentials transport endpoint params options log)
        = Thrown error)
  /\ (forall m,
        through_executor (dispatch m) = true ->
        transport log (sent credentials auth (dispatch m)) = Returned response ->
        fst (call credentials transport m log) = Thrown error).
Proof.
  intros Ha Hs error. apply (classified_is_thrown log auth response error Ha).
  now apply classify_unauthorized.
Qed.

(** The retry hint in general: a 429 response makes the call throw a
    [RateLimitError] whose [retryAfterSeconds] is 60 when there is no
    [Retry-After] header (or an empty one) and the result of [parseInt] on
    the header otherwise. *)
Lemma rate_limit_error_carries_retry_after log auth response :
  getAuthHeaders credentials = Returned auth ->
  status response = 429 ->
  let error := RateLimitError "Rate limit exceeded"
    (match Headers_get (resp_headers response) "Retry-After" with
     | Some value => if String.eqb value "" then Num 60 else parseInt10 value
     | None => Num 60
     end) in
  (forall endpoint options,
     transport log (request_sent credentials auth endpoint options) = Returned response ->
     fst (request credentials transport endpoint options log) = Thrown error)
  /\ (forall endpoint params options,
        transport log (page_request_sent credentials auth endpoint params options)
        = Returned response ->
        fst (requestWithPagination credentials transport endpoint params options log)
        = Thrown error).
Proof.
  intros Ha Hs error.
  destruct (classified_is_thrown log auth response error Ha) as (H1 & H2 & _);
    [|now split].
  rewrite (classify_rate_limited _ Hs). unfold error, retryAfterSeconds, if_present, present.
  destruct (Headers_get _ _) as [value|]; [|reflexivity].
  now destruct (String.eqb value "").
Qed.

(** C4, as amended.  A response that is not [ok] and whose status is none
    of 401, 403 and 429 makes either executor, and every method that goes
    through one, throw a [GitLabApiError] that carries the status of the
    response and, as message, the [message] field of the JSON body when
    that field is truthy, else its [error] field when that one is truthy,
    else the string ["API error: <status>"] (body not JSON, body [null],
    or neither field truthy).  The three methods that do not let the
    executors' error through are accounted for: the two raw-text methods
    [getFileRaw] and [getJobLog] never read the body and throw a
    [GitLabApiError] with the status and their own fixed message followed
    by the status, and [testConnection] catches the error and reports its
    message. *)
Theorem api_error_carries_status_and_message log auth response :
  getAuthHeaders credentials = Returned auth ->
  ok response = false ->
  status response <> 401 -> status response <> 403 -> status response <> 429 ->
  let error := GitLabApiError
    (Stated.first_truthy_message (JSON_parse (resp_body response))
       (JString ("API error: " +:+ pretty (status response))))
    (status response) in
  (forall endpoint options,
     transport log (request_sent credentials auth endpoint options) = Returned response ->
     fst (request credentials transport endpoint options log) = Thrown error)
  /\ (forall endpoint params options,
        transport log (page_request_sent credentials auth endpoint params options)
        = Returned response ->
        fst (requestWithPagination credentials transport endpoint params options log)
        = Thrown error)
  /\ (forall m,
        transport log (sent credentials auth (dispatch m)) = Returned response ->
        fst (call credentials transport m log)
        = match dispatch m with
          | FetchText _ failure =>
              Thrown (GitLabApiError (JString (failure +:+ pretty (status response)))
                                     (status response))
          | TestConnection => Returned (Connection (not_connected error))
          | _ => Thrown error
          end)
  /\ (forall m path failure,
        dispatch m = FetchText path failure ->
        (exists projectId filePath ref,
           m = Method.getFileRaw projectId filePath ref /\ failure = "Failed to get file: ")
        \/ (exists projectId jobId,
              m = Method.getJobLog projectId jobId /\ failure = "Failed to get job log: "))
  /\ (forall m, dispatch m = TestConnection -> m = Method.testConnection).
Proof.
  intros Ha Hok H1 H3 H9 error.
  pose proof (classify_other response Hok H1 H3 H9) as Hc. fold error in Hc.
  destruct (classified_is_thrown log auth response error Ha Hc) as (Hr & Hp & Hm).
  split; [exact Hr|]. split; [exact Hp|]. split; [|split].
  - intros m Ht. specialize (Hm m). unfold call in *.
    rewrite (run_with_credentials _ _ _ _ _ Ha) in *. cbn [fst] in *.
    destruct (dispatch m); try (now apply Hm).
    + cbn [sent answer] in *. rewrite Ht. cbn. unfold text_result. now rewrite Hok.
    + cbn [sent answer] in *. rewrite Ht. cbn. unfold single_result. now rewrite Hc.
  - intros m path failure Hd.
    destruct m; cbn [dispatch list_with] in Hd; try discriminate Hd;
      injection Hd as _ <-; [left | right]; repeat eexists.
  - intros m Hd. destruct m; cbn [dispatch list_with] in Hd; try discriminate Hd.
    reflexivity.
Qed.

End Classification.

Section ClassificationRun.

#[local] Existing Instance Mock.runtime.

Lemma unauthorized_status_throws_AuthenticationError_witness :
  let response := Mock.respond 403 [("Content-Type", "text/html")] "<h1>Forbidden</h1>" in
  let transport := Mock.always response in
  let auth : gmap string string :=
    {[ "PRIVATE-TOKEN" := "glpat-123"; "Content-Type" := "application/json" ]} in
  let error :=
    AuthenticationError "Authentication failed. Check your GitLab credentials." in
  getAuthHeaders Mock.with_private_token = Returned auth
  /\ (status response = 401 \/ status response = 403)
  /\ fst (request Mock.with_private_token transport "/projects/7" no_options [])
     = Thrown error
  /\ fst (requestWithPagination Mock.with_private_token transport "/projects" None
            no_options [])
     = Thrown error
  /\ fst (call Mock.with_private_token transport
            (Method.getBranch (IdString "group/sub-project") "main") [])
     = Thrown error.
Proof.
  intros response transport auth error.
  assert (Ha : getAuthHeaders Mock.with_private_token = Returned auth) by reflexivity.
  assert (Hs : status response = 401 \/ status response = 403) by (right; reflexivity).
  destruct (unauthorized_status_throws_AuthenticationError Mock.with_private_token
              transport [] auth response Ha Hs) as (H1 & H2 & H3).
  split; [exact Ha|]. split; [exact Hs|]. split; [|split].
  - exact (H1 "/projects/7" no_options eq_refl).
  - exact (H2 "/projects" None no_options eq_refl).
  - exact (H3 (Method.getBranch (IdString "group/sub-project") "main") eq_refl eq_refl).
Defined.

(** C3 at a failing input.  [Retry-After] may hold an HTTP date; a 429
    response with such a header makes both executors throw a
    [RateLimitError] whose [retryAfterSeconds] is [NaN], not 60; with
    [Retry-After: 30] it is 30 and without the header it is 60. *)
Theorem retry_after_http_date_yields_NaN :
  let credentials := Mock.with_private_token in
  let rate_limited hs := Mock.always (Mock.respond 429 hs "") in
  let dated := rate_limited [("Retry-After", Mock.http_date)] in
  fst (request credentials dated "/projects/7" no_options [])
  = Thrown (RateLimitError "Rate limit exceeded" NaN)
  /\ fst (requestWithPagination credentials dated "/projects" None no_options [])
     = Thrown (RateLimitError "Rate limit exceeded" NaN)
  /\ fst (request credentials (rate_limited [("Retry-After", "30")]) "/projects/7"
            no_options [])
     = Thrown (RateLimitError "Rate limit exceeded" (Num 30))
  /\ fst (request credentials (rate_limited []) "/projects/7" no_options [])
     = Thrown (RateLimitError "Rate limit exceeded" (Num 60)).
Proof. vm_compute. repeat split. Qed.

(** C4, as stated, fails: for a 500 response whose JSON body has an empty
    [message] field, the error carries the fallback string, where the
    specification's wording gives the field; and for a 404 response whose
    JSON body has a [message] field, [getJobLog] throws its own fixed
    message, where the specification's wording gives the field. *)
Lemma empty_message_field_is_not_carried :
  let response := Mock.respond 500 [] Mock.empty_message_text in
  let fallback := JString "API error: 500" in
  let not_found := Mock.respond 404 [] Mock.not_found_text in
  fst (request Mock.with_private_token (Mock.always response) "/projects/7" no_options [])
  = Thrown (GitLabApiError fallback 500)
  /\ Stated.error_message (JSON_parse (resp_body response)) fallback = JString ""
  /\ JString "" <> fallback
  /\ fst (call Mock.with_private_token (Mock.always not_found)
            (Method.getJobLog (IdNumber (Num 7)) (Num 3)) [])
     = Thrown (GitLabApiError (JString "Failed to get job log: 404") 404)
  /\ Stated.error_message (JSON_parse (resp_body not_found)) (JString "API error: 404")
     = JString "404 Project Not Found".
Proof. vm_compute. repeat split. discriminate. Qed.

Lemma api_error_carries_status_and_message_witness :
  let response := Mock.respond 404 [] Mock.not_found_text in
  let transport := Mock.always response in
  let auth : gmap string string :=
    {[ "PRIVATE-TOKEN" := "glpat-123"; "Content-Type" := "application/json" ]} in
  let error := GitLabApiError (JString "404 Project Not Found") 404 in
  getAuthHeaders Mock.with_private_token = Returned auth
  /\ ok response = false
  /\ status response <> 401 /\ status response <> 403 /\ status response <> 429
  /\ fst (request Mock.with_private_token transport "/projects/7" no_options [])
     = Thrown error
  /\ fst (requestWithPagination Mock.with_private_token transport "/projects" None
            no_options [])
     = Thrown error
  /\ fst (call Mock.with_private_token transport
            (Method.deleteProject (IdNumber (Num 7))) [])
     = Thrown error
  /\ fst (call Mock.with_private_token transport
            (Method.getJobLog (IdNumber (Num 7)) (Num 3)) [])
     = Thrown (GitLabApiError (JString "Failed to get job log: 404") 404).
Proof.
  intros response transport auth error.
  assert (Ha : getAuthHeaders Mock.with_private_token = Returned auth) by reflexivity.
  assert (Hok : ok response = false) by reflexivity.
  assert (H1 : status response <> 401) by discriminate.
  assert (H3 : status response <> 403) by discriminate.
  assert (H9 : status response <> 429) by discriminate.
  destruct (api_error_carries_status_and_message Mock.with_private_token transport []
              auth response Ha Hok H1 H3 H9) as (Hr & Hp & Hc & _).
  repeat (split; [assumption|]). split; [|split; [|split]].
  - exact (Hr "/projects/7" no_options eq_refl).
  - exact (Hp "/projects" None no_options eq_refl).
  - exact (Hc (Method.deleteProject (IdNumber (Num 7))) eq_refl).
  - exact (Hc (Method.getJobLog (IdNumber (Num 7)) (Num 3)) eq_refl).
Defined.

End ClassificationRun.

(** ** Paginated results *)

Section Envelope.

Context {rt : Runtime}.
Variable credentials : TenantCredentials.
Variable transport : Transport.

Lemma envelope_invariants response items count :
  Js.get items "length" = Some count ->
  let p := envelope response items count in
  Js.get (PaginatedResponse.items p) "length" = Some (PaginatedResponse.count p)
  /\ PaginatedResponse.hasMore p = bool_decide (is_Some (PaginatedResponse.nextPage p)).
Proof. intros H. now split. Qed.

Lemma page_result_invariants response p :
  page_result response = Returned p ->
  Js.get (PaginatedResponse.items p) "length" = Some (PaginatedResponse.count p)
  /\ PaginatedResponse.hasMore p = bool_decide (is_Some (PaginatedResponse.nextPage p)).
Proof.
  unfold page_result. destruct (classify response); [|discriminate].
  destruct (json response) as [items|]; [|discriminate].
  destruct (Js.get items "length") as [count|] eqn:Hlen; [|discriminate].
  intros [= <-]. now apply envelope_invariants.
Qed.

Lemma executor_returns_page_result endpoint params options log p log' :
  requestWithPagination credentials transport endpoint params options log
  = (Returned p, log') ->
  exists response, page_result response = Returned p.
Proof.
  destruct (getAuthHeaders credentials) as [auth|e] eqn:Ha.
  - rewrite (paginated_stepped _ _ _ _ _ _ _ Ha).
    destruct (transport log _) as [response|]; [|discriminate].
    cbn. intros [= H _]. now exists response.
  - now rewrite (paginated_without_credentials _ _ _ _ _ _ _ Ha).
Qed.

Lemma call_returns_page_result m log p log' :
  call credentials transport m log = (Returned (Page p), log') ->
  exists response, page_result response = Returned p.
Proof.
  unfold call. destruct (getAuthHeaders credentials) as [auth|e] eqn:Ha.
  - rewrite (run_with_credentials _ _ _ _ _ Ha).
    destruct (transport log _) as [response|]; destruct (dispatch m); cbn;
      try discriminate;
      try (destruct (single_result response) as [v|]; cbn; try discriminate;
           destruct (Js.get v "changes"); discriminate);
      try (destruct (text_result _ response); discriminate).
    destruct (page_result response) as [q|] eqn:Hq; [|discriminate].
    cbn. intros [= <- _]. now exists response.
  - rewrite (run_without_credentials _ _ _ _ _ Ha). now destruct (dispatch m).
Qed.

(** C5.  The envelope returned by a successful call of the paginated
    executor, or of any list method, has [count] equal to [items.length]
    (the number of decoded items, whatever page size was asked for) and
    [hasMore] equal to [nextPage !== undefined]; the envelope constructor
    [createPaginatedResponse] does the same unless its caller supplies
    [hasMore], which it then keeps. *)
Theorem list_envelope_counts_its_items log p log' :
  (exists endpoint params options,
     requestWithPagination credentials transport endpoint params options log
     = (Returned p, log'))
  \/ (exists m, call credentials transport m log = (Returned (Page p), log')) ->
  (Js.get (PaginatedResponse.items p) "length" = Some (PaginatedResponse.count p)
   /\ (forall elems, PaginatedResponse.items p = JArray elems ->
       PaginatedResponse.count p = JNumber (Num (Z.of_nat (length elems))))
   /\ PaginatedResponse.hasMore p = bool_decide (is_Some (PaginatedResponse.nextPage p)))
  /\ (forall items options,
        let r := Pagination.createPaginatedResponse items options in
        PaginatedResponse.items r = JArray items
        /\ PaginatedResponse.count r = JNumber (Num (Z.of_nat (length items)))
        /\ PaginatedResponse.hasMore r
           = match options ≫= PageOptions.hasMore with
             | Some supplied => supplied
             | None => bool_decide (is_Some (PaginatedResponse.nextPage r))
             end).
Proof.
  intros H. split.
  - assert (exists response, page_result response = Returned p) as [response Hp].
    { destruct H as [(endpoint & params & options & H) | (m & H)].
      - exact (executor_returns_page_result _ _ _ _ _ _ H).
      - exact (call_returns_page_result _ _ _ _ H). }
    destruct (page_result_invariants _ _ Hp) as [Hcount Hmore].
    split; [exact Hcount|]. split; [|exact Hmore].
    intros elems Hitems. rewrite Hitems in Hcount. cbn in Hcount. congruence.
  - intros items [options|]; cbn; repeat split.
Qed.

(** What the paginated executor reads from the headers of a successful
    response: [X-Total], [X-Total-Pages] and [X-Next-Page], each through
    [parseInt] when it is there and not empty; the [page] of its envelope
    is never set.  No header, missing or malformed, makes it throw. *)
Lemma executor_reads_three_headers response :
  ok response = true ->
  forall items count,
    json response = Returned items ->
    Js.get items "length" = Some count ->
    exists p,
      page_result response = Returned p
      /\ PaginatedResponse.total p
         = parseInt10 <$> if_present (Headers_get (resp_headers response) "X-Total")
      /\ PaginatedResponse.totalPages p
         = parseInt10 <$> if_present (Headers_get (resp_headers response) "X-Total-Pages")
      /\ PaginatedResponse.nextPage p
         = parseInt10 <$> if_present (Headers_get (resp_headers response) "X-Next-Page")
      /\ PaginatedResponse.page p = None.
Proof.
  intros Hok items count Hjson Hlen. exists (envelope response items count).
  split; [|now repeat split].
  unfold page_result, classify. unfold ok in Hok.
  destruct (status response =? 429) eqn:E9; [apply Z.eqb_eq in E9; lia|].
  destruct (status response =? 401) eqn:E1; [apply Z.eqb_eq in E1; lia|].
  destruct (status response =? 403) eqn:E3; [apply Z.eqb_eq in E3; lia|].
  cbn. unfold ok. rewrite Hok. cbn. now rewrite Hjson, Hlen.
Qed.

(** C9.  With its default ceiling, [normalizePaginationParams] maps every
    [perPage] above 100 to 100, and an absent [perPage] (no [params] at
    all, or [params] without the property) to 20. *)
Theorem perPage_is_clamped_and_defaulted (n : Z) (page : option number) :
  100 < n ->
  PaginationParams.perPage
    (Pagination.normalizePaginationParams
       (Some (PaginationParams.mk (Some (Num n)) page)) None)
  = Some (Num 100)
  /\ PaginationParams.perPage (Pagination.normalizePaginationParams None None)
     = Some (Num 20)
  /\ PaginationParams.perPage
       (Pagination.normalizePaginationParams (Some (PaginationParams.mk None page)) None)
     = Some (Num 20).
Proof.
  intros Hn. repeat split. cbn.
  destruct (n =? 0) eqn:E; [apply Z.eqb_eq in E; lia|]. cbn.
  do 2 f_equal. lia.
Qed.

End Envelope.

(** ** Authentication headers *)

Section Authentication.

Context {rt : Runtime}.
Variable credentials : TenantCredentials.
Variable transport : Transport.

Lemma dispatch_passes_no_headers m : headers (options_of (dispatch m)) = None.
Proof. now destruct m. Qed.

Lemma sent_headers auth d :
  req_headers (sent credentials auth d) = merged_headers auth (options_of d).
Proof.
  destruct d; cbn; try reflexivity; unfold merged_headers; cbn;
    now rewrite (left_id_L ∅ (∪)).
Qed.

Lemma call_sends_auth_headers m auth :
  req_headers (sent credentials auth (dispatch m)) = auth.
Proof.
  rewrite sent_headers. unfold merged_headers. rewrite dispatch_passes_no_headers.
  cbn. now rewrite (left_id_L ∅ (∪)).
Qed.

Lemma bearer_is_the_only_auth_header (r : FetchRequest) token :
  req_headers r = {[ "Authorization" := "Bearer " +:+ token;
                     "Content-Type" := "application/json" ]} ->
  auth_headers r = [("Authorization", "Bearer " +:+ token)].
Proof. unfold auth_headers. now intros ->. Qed.

Lemma private_token_is_the_only_auth_header (r : FetchRequest) token :
  req_headers r = {[ "PRIVATE-TOKEN" := token; "Content-Type" := "application/json" ]} ->
  auth_headers r = [("PRIVATE-TOKEN", token)].
Proof. unfold auth_headers. now intros ->. Qed.

(** C7.  Every method call hands the transport a request with exactly one
    authentication header: [Authorization: Bearer <token>] when the
    credentials hold an access token (also when they hold a private token
    as well), and [PRIVATE-TOKEN: <token>] when they hold a private token
    only.  With neither, nothing is handed to the transport and the call
    fails with [AuthenticationError] ([testConnection] reports it instead
    of throwing).  A token is held when its field is a non-empty string,
    which for the credentials the resolver builds is whenever the field is
    set. *)
Theorem every_call_carries_one_auth_header (m : Method.t) (log : list FetchRequest) :
  match if_present (accessToken credentials), if_present (privateToken credentials) with
  | Some token, _ =>
      exists r, snd (call credentials transport m log) = log ++ [r]
                /\ auth_headers r = [("Authorization", "Bearer " +:+ token)]
  | None, Some token =>
      exists r, snd (call credentials transport m log) = log ++ [r]
                /\ auth_headers r = [("PRIVATE-TOKEN", token)]
  | None, None =>
      snd (call credentials transport m log) = log
      /\ (m <> Method.testConnection ->
          exists message,
            fst (call credentials transport m log)
            = Thrown (AuthenticationError message))
  end
  /\ forall request_headers,
       let resolved := parseTenantCredentials request_headers in
       if_present (accessToken resolved) = accessToken resolved
       /\ if_present (privateToken resolved) = privateToken resolved.
Proof.
  split; [|apply parsed_credentials_normal].
  unfold call.
  destruct (if_present (accessToken credentials)) as [token|] eqn:Ea;
    [|destruct (if_present (privateToken credentials)) as [token|] eqn:Ep].
  - assert (Ha : getAuthHeaders credentials
                 = Returned {[ "Authorization" := "Bearer " +:+ token;
                               "Content-Type" := "application/json" ]})
      by (unfold getAuthHeaders; now rewrite Ea).
    rewrite (run_with_credentials _ _ _ _ _ Ha). eexists. split; [reflexivity|].
    apply bearer_is_the_only_auth_header, call_sends_auth_headers.
  - assert (Ha : getAuthHeaders credentials
                 = Returned {[ "PRIVATE-TOKEN" := token;
                               "Content-Type" := "application/json" ]})
      by (unfold getAuthHeaders; now rewrite Ea, Ep).
    rewrite (run_with_credentials _ _ _ _ _ Ha). eexists. split; [reflexivity|].
    apply private_token_is_the_only_auth_header, call_sends_auth_headers.
  - assert (Ha : getAuthHeaders credentials = Thrown (AuthenticationError
      "No credentials provided. Include X-GitLab-Token or X-GitLab-Access-Token header."))
      by (unfold getAuthHeaders; now rewrite Ea, Ep).
    rewrite (run_without_credentials _ _ _ _ _ Ha). split; [reflexivity|].
    intros Hm. eexists. cbn [fst]. destruct m; try reflexivity. now contradiction Hm.
Qed.

(** C8, as amended.  [testConnection] never throws.  When [getCurrentUser]
    resolves to a user, the result has [connected = true] and the message
    ["Connected as <username>"]; when it resolves to no user at all (a 204
    response, a [null] body), or throws, the result has [connected = false]
    and carries the message of the error (["Connection failed"] for a
    thrown value that is not an [Error]), so that the message is empty
    only if the error's own message is. *)
Theorem testConnection_never_throws (log : list FetchRequest) :
  exists r,
    testConnection credentials transport log
    = (Returned r, snd (getCurrentUser credentials transport log))
    /\ match fst (getCurrentUser credentials transport log) with
       | Returned user =>
           match Js.get user "username" with
           | Some username =>
               ConnectionResult.connected r = true
               /\ ConnectionResult.message r = "Connected as " +:+ to_string username
               /\ ConnectionResult.user r = Some user
           | None =>
               ConnectionResult.connected r = false
               /\ ConnectionResult.message r = nullish_read user "username"
           end
       | Thrown e =>
           ConnectionResult.connected r = false
           /\ ConnectionResult.message r
              = (if instanceof_Error e then message_of e else "Connection failed")
           /\ (ConnectionResult.message r = "" ->
               instanceof_Error e = true /\ message_of e = "")
       end.
Proof.
  unfold testConnection, try_catch, Fetch.bind.
  destruct (getCurrentUser credentials transport log) as [[user|e] log']; cbn [fst snd].
  - destruct (Js.get user "username") as [username|]; cbn;
      eexists; (split; [reflexivity|]); cbn; now repeat split.
  - eexists. split; [reflexivity|]. cbn. repeat split.
    + destruct (instanceof_Error e); [reflexivity|discriminate].
    + destruct (instanceof_Error e); [assumption|discriminate].
Qed.

End Authentication.

(** ** Path segments *)

Section Segments.

Lemma app_cons (c : ascii) (s t : string) : String c s +:+ t = String c (s +:+ t).
Proof. reflexivity. Qed.

Lemma app_empty_r (s : string) : s +:+ "" = s.
Proof. induction s as [|c s IH]; [reflexivity|]. now rewrite app_cons, IH. Qed.

Lemma app_assoc_string (a b c : string) : (a +:+ b) +:+ c = a +:+ (b +:+ c).
Proof. induction a as [|x a IH]; [reflexivity|]. now rewrite !app_cons, IH. Qed.

Lemma includes_char_app c (a b : string) :
  includes_char c (a +:+ b) = includes_char c a || includes_char c b.
Proof.
  induction a as [|x a IH]; [reflexivity|]. rewrite app_cons. cbn [includes_char].
  rewrite IH. now rewrite orb_assoc.
Qed.

Lemma escaped_byte_has_no_slash (c : ascii) :
  includes_char "/"
    (if uri_unreserved c then single c else percent_byte c) = false.
Proof. destruct c as [[] [] [] [] [] [] [] []]; reflexivity. Qed.

(** [encodeURIComponent] never leaves a slash. *)
Lemma encodeURIComponent_has_no_slash (s : string) :
  includes_char "/" (encodeURIComponent s) = false.
Proof.
  induction s as [|c s IH]; [reflexivity|].
  unfold encodeURIComponent in *. cbn [map_chars].
  now rewrite includes_char_app, escaped_byte_has_no_slash, IH.
Qed.

Lemma split_on_piece sep (x rest : string) :
  includes_char sep x = false ->
  split_on sep (x +:+ String sep rest) = x :: split_on sep rest.
Proof.
  induction x as [|c x IH]; intros H.
  - change ("" +:+ String sep rest) with (String sep rest). cbn [split_on].
    now rewrite N.eqb_refl.
  - rewrite app_cons. cbn [split_on includes_char] in *.
    apply orb_false_iff in H as [Hc Hx]. now rewrite Hc, (IH Hx).
Qed.

Lemma split_on_last sep (x : string) :
  includes_char sep x = false -> split_on sep x = [x].
Proof.
  induction x as [|c x IH]; intros H; [reflexivity|]. cbn [split_on includes_char] in *.
  apply orb_false_iff in H as [Hc Hx]. now rewrite Hc, (IH Hx).
Qed.

(** A path that starts with a collection and an escaped identifier has
    that identifier as its third piece, whatever follows. *)
Lemma third_piece (root x rest : string) :
  includes_char "/" root = false ->
  includes_char "/" x = false ->
  rest = "" \/ (exists r, rest = String "/" r) ->
  take 3 (split_on "/" ("/" +:+ root +:+ "/" +:+ x +:+ rest)) = [""; root; x].
Proof.
  intros Hroot Hx Hrest.
  change ("/" +:+ root +:+ "/" +:+ x +:+ rest)
    with ("" +:+ String "/" (root +:+ String "/" (x +:+ rest))).
  rewrite (split_on_piece "/" "" _ eq_refl), (split_on_piece _ _ _ Hroot).
  destruct Hrest as [-> | [r ->]].
  - now rewrite app_empty_r, (split_on_last _ _ Hx).
  - now rewrite (split_on_piece _ _ _ Hx).
Qed.

Context {rt : Runtime}.

(** Every method that takes a project or group identifier addresses
    [/<collection>/<escaped identifier>], followed by nothing or by a
    slash. *)
Lemma dispatch_endpoint_shape m root id :
  scope_of m = Some (root, id) ->
  exists rest,
    endpoint_of (dispatch m)
    = "/" +:+ root +:+ "/" +:+ encodeURIComponent (String_ id) +:+ rest
    /\ (rest = "" \/ exists r, rest = String "/" r)
    /\ (root = "projects" \/ root = "groups").
Proof.
  destruct m; cbn [scope_of]; intros [= <- <-];
    cbn [dispatch endpoint_of list_with]; unfold with_query, enc;
    rewrite ?app_assoc_string;
    first
      [ exists ""; rewrite app_empty_r;
        split; [reflexivity | split; [now left | (now left) || (now right)]]
      | eexists; split; [reflexivity|];
        split; [right; eexists; reflexivity | (now left) || (now right)] ].
Qed.

End Segments.

(** ** The client on explicit inputs *)

Section Run.

#[local] Existing Instance Mock.runtime.

Lemma list_envelope_counts_its_items_witness :
  let credentials := Mock.with_private_token in
  let transport := Mock.always Mock.first_page in
  let m := Method.listProjects
             (Some (ListParams.mk [("search", JString "rocq")] (Some (Num 100)) None)) in
  let p := {| PaginatedResponse.items := Mock.three_items;
              PaginatedResponse.count := JNumber (Num 3);
              PaginatedResponse.total := Some (Num 42);
              PaginatedResponse.hasMore := true;
              PaginatedResponse.page := None;
              PaginatedResponse.nextPage := Some (Num 2);
              PaginatedResponse.totalPages := Some (Num 3) |} in
  call credentials transport m [] = (Returned (Page p), snd (call credentials transport m []))
  /\ Js.get (PaginatedResponse.items p) "length" = Some (PaginatedResponse.count p)
  /\ PaginatedResponse.hasMore p = bool_decide (is_Some (PaginatedResponse.nextPage p)).
Proof.
  intros credentials transport m p.
  assert (H : call credentials transport m []
              = (Returned (Page p), snd (call credentials transport m [])))
    by (vm_compute; reflexivity).
  split; [exact H|].
  destruct (list_envelope_counts_its_items credentials transport [] p
              (snd (call credentials transport m []))
              (or_intror (ex_intro _ m H))) as ((Hcount & _ & Hmore) & _).
  split; [exact Hcount | exact Hmore].
Defined.

(** The round-trip example of the specification: the headers
    [X-Total=42], [X-Total-Pages=3], [X-Next-Page=2] give [total = 42],
    [totalPages = 3], [nextPage = 2] and [hasMore = true]. *)
Lemma pagination_headers_example :
  exists p,
    fst (requestWithPagination Mock.with_private_token (Mock.always Mock.first_page)
           "/projects" None no_options [])
    = Returned p
    /\ PaginatedResponse.total p = Some (Num 42)
    /\ PaginatedResponse.totalPages p = Some (Num 3)
    /\ PaginatedResponse.nextPage p = Some (Num 2)
    /\ PaginatedResponse.hasMore p = true.
Proof. eexists. split; [vm_compute; reflexivity|]. now repeat split. Qed.

(** C6 at a failing input.  For the second page of a listing, answered
    with [X-Total: 42], [X-Total-Pages: 3], [X-Page: 2] and
    [X-Next-Page: 3], the paginated executor returns an envelope whose
    [page] is undefined: it reads three of the four headers, where
    [parseGitLabPaginationHeaders] reads [X-Page] from the same headers. *)
Theorem executor_does_not_read_X_Page :
  let p := {| PaginatedResponse.items := Mock.three_items;
              PaginatedResponse.count := JNumber (Num 3);
              PaginatedResponse.total := Some (Num 42);
              PaginatedResponse.hasMore := true;
              PaginatedResponse.page := None;
              PaginatedResponse.nextPage := Some (Num 3);
              PaginatedResponse.totalPages := Some (Num 3) |} in
  fst (requestWithPagination Mock.with_private_token (Mock.always Mock.second_page)
         "/projects" (Some (PaginationParams.mk None (Some (Num 2)))) no_options [])
  = Returned p
  /\ PageHeaders.page
       (Pagination.parseGitLabPaginationHeaders (resp_headers Mock.second_page))
     = Some (Num 2)
  /\ Formatters.formatPaginationInfo p
     = "**Total:** 42 | **Page:** 1/3" +:+ Formatters.newline +:+ "**Next Page:** 3".
Proof. repeat split; vm_compute; reflexivity. Qed.

(** C8, as stated, fails.  A 204 answer to [/user] makes
    [getCurrentUser] resolve (to [undefined]), yet the result has
    [connected = false]; and an error whose message is empty gives a result
    whose message is empty. *)
Lemma testConnection_without_user_is_not_connected :
  let credentials := Mock.with_private_token in
  let no_content := Mock.always (Mock.respond 204 [] "") in
  fst (getCurrentUser credentials no_content []) = Returned JUndefined
  /\ fst (testConnection credentials no_content [])
     = Returned {| ConnectionResult.connected := false;
                   ConnectionResult.message :=
                     "Cannot read properties of undefined (reading 'username')";
                   ConnectionResult.user := None |}
  /\ fst (testConnection credentials (Mock.failing (TypeError "")) [])
     = Returned {| ConnectionResult.connected := false;
                   ConnectionResult.message := "";
                   ConnectionResult.user := None |}.
Proof. repeat split; vm_compute; reflexivity. Qed.

(** The specification's own test: a transport that always answers 500. *)
Lemma testConnection_on_server_error :
  fst (testConnection Mock.with_private_token
         (Mock.always (Mock.respond 500 [] "Internal Server Error")) [])
  = Returned {| ConnectionResult.connected := false;
                ConnectionResult.message := "API error: 500";
                ConnectionResult.user := None |}.
Proof. vm_compute. reflexivity. Qed.

Lemma testConnection_on_user :
  fst (testConnection Mock.with_both_tokens
         (Mock.always (Mock.respond 200 [] Mock.user_text)) [])
  = Returned {| ConnectionResult.connected := true;
                ConnectionResult.message := "Connected as octocat";
                ConnectionResult.user :=
                  Some (JObject {[ "id" := JNumber (Num 1);
                                   "username" := JString "octocat" ]}) |}.
Proof. vm_compute. reflexivity. Qed.

Lemma perPage_is_clamped_and_defaulted_witness :
  100 < 250
  /\ PaginationParams.perPage
       (Pagination.normalizePaginationParams
          (Some (PaginationParams.mk (Some (Num 250)) (Some (Num 3)))) None)
     = Some (Num 100)
  /\ PaginationParams.perPage (Pagination.normalizePaginationParams None None)
     = Some (Num 20).
Proof.
  assert (H : 100 < 250) by lia.
  destruct (perPage_is_clamped_and_defaulted 250 (Some (Num 3)) H) as (H1 & H2 & _).
  split; [exact H|]. split; [exact H1 | exact H2].
Defined.

End Run.

(** * Further properties of the code *)

(** ** Credentials and configuration *)

Section Configuration.

Import EnvConfig.

(** The check at the boundary and the check inside the client accept the
    same credentials: [validateCredentials] returns exactly when
    [getAuthHeaders] builds headers, and when one throws so does the other. *)
Theorem boundary_and_client_accept_the_same_credentials
    (credentials : TenantCredentials) :
  (validateCredentials credentials = Returned tt
   /\ exists auth, getAuthHeaders credentials = Returned auth)
  \/ (validateCredentials credentials = Thrown (Error
        "Missing credentials. Provide either X-GitLab-Token or X-GitLab-Access-Token header.")
      /\ getAuthHeaders credentials = Thrown (AuthenticationError
           "No credentials provided. Include X-GitLab-Token or X-GitLab-Access-Token header.")).
Proof.
  unfold validateCredentials, getAuthHeaders, if_present.
  destruct (present (accessToken credentials)) eqn:Ea;
    destruct (present (privateToken credentials)) eqn:Ep; cbn.
  - left. split; [reflexivity|]. destruct (accessToken credentials); [eauto|discriminate].
  - left. split; [reflexivity|]. destruct (accessToken credentials); [eauto|discriminate].
  - left. split; [reflexivity|]. destruct (privateToken credentials); [eauto|discriminate].
  - now right.
Qed.

(** [getEnvNumber] never yields [NaN]: it is the integer [parseInt] reads
    from the variable when the variable is a string that starts with one
    (zero included), and the default in every other case: variable unset,
    bound to something that is not a string, or without a leading integer. *)
Theorem getEnvNumber_falls_back_to_the_default (env : Env) (key : string) (d : Z) :
  (exists n, getEnvNumber env key (Num d) = Num n)
  /\ (forall s n, env !! key = Some (JString s) -> parseInt10 s = Num n ->
      getEnvNumber env key (Num d) = Num n)
  /\ (forall s, env !! key = Some (JString s) -> parseInt10 s = NaN ->
      getEnvNumber env key (Num d) = Num d)
  /\ ((forall s, env !! key <> Some (JString s)) -> getEnvNumber env key (Num d) = Num d).
Proof.
  unfold getEnvNumber. repeat split.
  - destruct (env !! key) as [[]|]; eauto. destruct (parseInt10 s); eauto.
  - intros s n -> ->. reflexivity.
  - intros s -> ->. reflexivity.
  - intros H. destruct (env !! key) as [[]|]; try reflexivity. now contradiction (H s).
Qed.

(** With an integer ceiling, [normalizePaginationParams] never returns a
    [perPage] above the ceiling and has no lower bound: a [perPage] other
    than zero is kept when it is at most the ceiling (a negative one too),
    zero and [NaN] count as absent and give the smaller of 20 and the
    ceiling.  [page] is handed on as it is. *)
Theorem normalized_perPage_never_exceeds_the_ceiling
    (params : option PaginationParams.t) (ceiling : Z) :
  let result := Pagination.normalizePaginationParams params (Some (Num ceiling)) in
  PaginationParams.page result = params ≫= PaginationParams.page
  /\ exists k,
       PaginationParams.perPage result = Some (Num k)
       /\ k <= ceiling
       /\ (forall n, params ≫= PaginationParams.perPage = Some (Num n) -> n <> 0 ->
           k = Z.min n ceiling)
       /\ (params ≫= PaginationParams.perPage = None
           \/ params ≫= PaginationParams.perPage = Some (Num 0)
           \/ params ≫= PaginationParams.perPage = Some NaN ->
           k = Z.min 20 ceiling).
Proof.
  cbn. split; [reflexivity|].
  destruct (params ≫= PaginationParams.perPage) as [[|n]|] eqn:E; cbn.
  - exists (Z.min 20 ceiling). split; [reflexivity|]. split; [lia|].
    split; [intros n H; discriminate H | intros _; reflexivity].
  - destruct (n =? 0) eqn:En; cbn.
    + apply Z.eqb_eq in En. subst n. exists (Z.min 20 ceiling).
      split; [reflexivity|]. split; [lia|].
      split; [intros n [= <-] Hn; now contradiction Hn | intros _; reflexivity].
    + apply Z.eqb_neq in En. exists (Z.min n ceiling).
      split; [reflexivity|]. split; [lia|]. split.
      * now intros n' [= <-] _.
      * intros [H|[H|H]]; try discriminate H. injection H as ->. now contradiction En.
  - exists (Z.min 20 ceiling). split; [reflexivity|]. split; [lia|].
    split; [intros n H; discriminate H | intros _; reflexivity].
Qed.

Lemma round_double_exact (z : Z) :
  - 2 ^ 53 <= z <= 2 ^ 53 -> round_double z = z.
Proof.
  intros Hz. unfold round_double.
  destruct (Z.leb_spec (Z.log2 (Z.abs z)) 52) as [_|Hlog]; [reflexivity|].
  assert (Habs : Z.abs z = 2 ^ 53).
  { destruct (Z.eq_dec (Z.abs z) 0) as [E|E]; [rewrite E in Hlog; cbn in Hlog; lia|].
    destruct (Z.lt_ge_cases (Z.abs z) (2 ^ 53)) as [Hlt|Hge]; [|lia].
    apply Z.log2_lt_pow2 in Hlt; lia. }
  destruct (Z.abs_eq_or_opp z) as [E|E]; rewrite E in Habs.
  - rewrite Habs. reflexivity.
  - replace z with (- 2 ^ 53) by lia. reflexivity.
Qed.

(** [getNextPage] and [hasMoreItems] agree on whole pages below 2^53:
    there is a next page exactly when there are more items, and it is then
    the page after the current one and at most the last.  With [NaN] on
    either side there is neither.  The bound is needed: at page 2^53 of
    2^53 the sum [currentPage + 1] rounds back to 2^53, so [getNextPage]
    returns the current page again while [hasMoreItems] is false. *)
Theorem next_page_exists_exactly_when_more_items (currentPage totalPages : Z) :
  - 2 ^ 53 <= currentPage < 2 ^ 53 ->
  (is_Some (PageArithmetic.getNextPage (Num currentPage) (Num totalPages))
   <-> PageArithmetic.hasMoreItems (Num currentPage) (Num totalPages) = true)
  /\ (forall next,
        PageArithmetic.getNextPage (Num currentPage) (Num totalPages) = Some next ->
        next = Num (currentPage + 1) /\ currentPage + 1 <= totalPages)
  /\ (forall other,
        PageArithmetic.getNextPage NaN other = None
        /\ PageArithmetic.getNextPage other NaN = None
        /\ PageArithmetic.hasMoreItems NaN other = false
        /\ PageArithmetic.hasMoreItems other NaN = false)
  /\ PageArithmetic.getNextPage (Num (2 ^ 53)) (Num (2 ^ 53)) = Some (Num (2 ^ 53))
  /\ PageArithmetic.hasMoreItems (Num (2 ^ 53)) (Num (2 ^ 53)) = false.
Proof.
  intros Hc. unfold PageArithmetic.getNextPage, PageArithmetic.hasMoreItems.
  split; [|split; [|split; [|split; reflexivity]]].
  - cbn. rewrite round_double_exact by lia.
    destruct (Z.leb_spec (currentPage + 1) totalPages) as [Hle|Hgt].
    + split; [intros _; apply Z.ltb_lt; lia | eauto].
    + split; [intros [x H]; discriminate H | intros H; apply Z.ltb_lt in H; lia].
  - intros next. cbn. rewrite round_double_exact by lia.
    destruct (Z.leb_spec (currentPage + 1) totalPages) as [Hle|Hgt];
      [intros [= <-]; now split | intros H; discriminate H].
  - intros other. repeat split; try reflexivity; now destruct other.
Qed.

End Configuration.

(** ** What the calls send and return *)

Section Calls.

Context {rt : Runtime}.
Variable credentials : TenantCredentials.
Variable transport : Transport.

(** The paginated executor decides [hasMore] on the [X-Next-Page] header
    alone: it is true exactly when the header is there and not empty.  An
    empty header (the last page) gives [hasMore = false] and no
    [nextPage]; a header that is not a number gives [hasMore = true] with
    [nextPage = NaN]. *)
Theorem hasMore_follows_the_next_page_header
    (endpoint : string) (params : option PaginationParams.t) (options : RequestInit)
    (log : list FetchRequest) (auth : gmap string string) (response : Response)
    (p : PaginatedResponse.t) :
  getAuthHeaders credentials = Returned auth ->
  transport log (page_request_sent credentials auth endpoint params options)
  = Returned response ->
  fst (requestWithPagination credentials transport endpoint params options log)
  = Returned p ->
  let header := Headers_get (resp_headers response) "X-Next-Page" in
  PaginatedResponse.hasMore p = present header
  /\ (header = None \/ header = Some "" ->
      PaginatedResponse.hasMore p = false /\ PaginatedResponse.nextPage p = None)
  /\ (forall value, header = Some value -> value <> "" ->
      PaginatedResponse.hasMore p = true
      /\ PaginatedResponse.nextPage p = Some (parseInt10 value)).
Proof.
  intros Ha Ht. rewrite (paginated_stepped _ _ _ _ _ _ _ Ha), Ht. cbn [fst outcome_bind].
  unfold page_result. destruct (classify response); [|discriminate].
  destruct (json response) as [items|]; [|discriminate].
  destruct (Js.get items "length") as [count|]; [|discriminate].
  intros [= <-]. cbn [envelope PaginatedResponse.hasMore PaginatedResponse.nextPage].
  unfold Pagination.parse_header, if_present, present.
  destruct (Headers_get (resp_headers response) "X-Next-Page") as [value|]; cbn.
  - destruct (String.eqb_spec value "") as [->|Hne]; cbn.
    + split; [reflexivity|]. split; [now intros _|].
      intros value [= <-] H. now contradiction H.
    + split; [reflexivity|]. split.
      * intros [H|[= H]]; [discriminate H | now contradiction Hne].
      * intros value' [= <-] _. now split.
  - split; [reflexivity|]. split; [now intros _|]. intros value H. discriminate H.
Qed.

(** The two raw-text methods ([getFileRaw], [getJobLog]) are the only
    methods that bypass the executors.  On a 2xx response they return the
    body as it is, without decoding it; on any other status, 401, 403 and
    429 included, they throw a [GitLabApiError] that carries the status and
    a fixed message followed by the status. *)
Theorem raw_text_calls_return_the_body_as_it_is
    (m : Method.t) (path failure : string)
    (log : list FetchRequest) (auth : gmap string string) (response : Response) :
  dispatch m = FetchText path failure ->
  getAuthHeaders credentials = Returned auth ->
  transport log (text_request_sent credentials auth path) = Returned response ->
  ((exists projectId filePath ref,
      m = Method.getFileRaw projectId filePath ref /\ failure = "Failed to get file: ")
   \/ (exists projectId jobId,
         m = Method.getJobLog projectId jobId /\ failure = "Failed to get job log: "))
  /\ fst (call credentials transport m log)
     = if ok response then Returned (Text (resp_body response))
       else Thrown (GitLabApiError (JString (failure +:+ pretty (status response)))
                                   (status response)).
Proof.
  intros Hd Ha Ht. split.
  - destruct m; try discriminate Hd; cbn in Hd; injection Hd as <- <-; eauto 8.
  - unfold call. rewrite (run_with_credentials _ _ _ _ _ Ha), Hd. cbn [sent answer fst].
    rewrite Ht. cbn. unfold text_result. now destruct (ok response).
Qed.

(** A 204 response is a success without a body: [request] returns
    [undefined] whatever the body holds and never decodes it, so a method
    that returns the decoded value returns [undefined] and a [void] method
    returns; [getMergeRequestDiff] then fails on reading [changes], and a
    list method, which has no such case, still decodes the body and fails
    when it is not JSON. *)
Theorem no_content_is_returned_without_decoding
    (log : list FetchRequest) (auth : gmap string string) (response : Response) :
  getAuthHeaders credentials = Returned auth ->
  status response = 204 ->
  (forall endpoint options,
     transport log (request_sent credentials auth endpoint options) = Returned response ->
     fst (request credentials transport endpoint options log) = Returned JUndefined)
  /\ (forall m,
        transport log (sent credentials auth (dispatch m)) = Returned response ->
        fst (call credentials transport m log)
        = match dispatch m with
          | Request _ _ => Returned (Value JUndefined)
          | RequestVoid _ _ => Returned Void
          | RequestChanges _ => Thrown (TypeError (nullish_read JUndefined "changes"))
          | TestConnection =>
              Returned (Connection
                (not_connected (TypeError (nullish_read JUndefined "username"))))
          | FetchText _ _ => Returned (Text (resp_body response))
          | RequestWithPagination _ _ =>
              match json response with
              | Thrown e => Thrown e
              | Returned items => outcome_map Page (page_result response)
              end
          end).
Proof.
  intros Ha Hs.
  assert (Hc : classify response = Returned tt).
  { unfold classify, ok. now rewrite Hs. }
  assert (Hsingle : single_result response = Returned JUndefined).
  { unfold single_result. now rewrite Hc, Hs. }
  split.
  - intros endpoint options Ht. rewrite (request_stepped _ _ _ _ _ _ Ha), Ht. exact Hsingle.
  - intros m Ht. unfold call. rewrite (run_with_credentials _ _ _ _ _ Ha), Ht.
    destruct (dispatch m); cbn [fst answer outcome_bind]; rewrite ?Hsingle; try reflexivity.
    + unfold page_result. rewrite Hc. now destruct (json response).
    + unfold text_result, ok. now rewrite Hs.
Qed.

Lemma call_sends_one_request_or_none (m : Method.t) (log : list FetchRequest) :
  exists requests,
    snd (call credentials transport m log) = log ++ requests
    /\ length requests
       = if present (accessToken credentials) || present (privateToken credentials)
         then 1%nat else 0%nat.
Proof.
  unfold call. destruct (getAuthHeaders credentials) as [auth|e] eqn:Ha.
  - rewrite (run_with_credentials _ _ _ _ _ Ha). eexists. split; [reflexivity|].
    unfold getAuthHeaders, if_present in Ha.
    destruct (present (accessToken credentials)); [reflexivity|].
    destruct (present (privateToken credentials)); [reflexivity|discriminate Ha].
  - rewrite (run_without_credentials _ _ _ _ _ Ha). exists []. split.
    + cbn. now rewrite app_nil_r.
    + unfold getAuthHeaders, if_present in Ha.
      destruct (present (accessToken credentials)) eqn:Ea.
      { destruct (accessToken credentials); discriminate. }
      destruct (present (privateToken credentials)) eqn:Ep; [|reflexivity].
      destruct (privateToken credentials); discriminate.
Qed.

(** A method call hands the transport exactly one request when the
    credentials hold a token and every argument the method escapes is
    well formed, and none otherwise, whatever the transport answers: no
    call is retried and none fans out.  An argument with a lone surrogate
    makes [encodeURIComponent] throw a [URIError] before anything is
    sent, with or without a token.  The requests logged before the call
    are left as they were. *)
Theorem every_call_sends_one_request_or_none (m : Method.t) (log : list FetchRequest) :
  (exists requests,
     snd (invoke credentials transport m log) = log ++ requests
     /\ length requests
        = if forallb isWellFormed (escaped m)
             && (present (accessToken credentials) || present (privateToken credentials))
          then 1%nat else 0%nat)
  /\ (forallb isWellFormed (escaped m) = false ->
      invoke credentials transport m log = (Thrown (URIError "URI malformed"), log)).
Proof.
  unfold invoke. destruct (forallb isWellFormed (escaped m)); split.
  - exact (call_sends_one_request_or_none m log).
  - discriminate.
  - exists []. split; [cbn; now rewrite app_nil_r | reflexivity].
  - reflexivity.
Qed.

(** No method sends a body without a verb: the request of a method has a
    body only under [POST], [PUT] or [DELETE], and a request without an
    explicit method (a [GET]) never has one. *)
Theorem a_body_goes_only_with_a_verb (m : Method.t) (auth : gmap string string) :
  let r := sent credentials auth (dispatch m) in
  match req_method r with
  | None => req_body r = None
  | Some verb => verb = "POST" \/ verb = "PUT" \/ verb = "DELETE"
  end.
Proof. destruct m; cbn; auto. Qed.

End Calls.

(** ** Query strings and escapes *)

Section Queries.

Import Text.

Lemma string_forall_app P (a b : string) :
  string_forall P (a +:+ b) = string_forall P a && string_forall P b.
Proof.
  induction a as [|c a IH]; [reflexivity|].
  rewrite app_cons. cbn [string_forall]. now rewrite IH, andb_assoc.
Qed.

Lemma string_forall_map_chars P f (s : string) :
  (forall c, string_forall P (f c) = true) ->
  string_forall P (map_chars f s) = true.
Proof.
  intros Hf. induction s as [|c s IH]; [reflexivity|].
  cbn [map_chars]. now rewrite string_forall_app, Hf, IH.
Qed.

Lemma string_forall_weaken (P Q : ascii -> bool) (s : string) :
  (forall c, P c = true -> Q c = true) ->
  string_forall P s = true -> string_forall Q s = true.
Proof.
  intros HPQ. induction s as [|c s IH]; [reflexivity|]. cbn [string_forall].
  intros H. apply andb_true_iff in H as [Hc Hs]. now rewrite (HPQ c Hc), (IH Hs).
Qed.

Lemma string_forall_concat P (sep : string) (pieces : list string) :
  string_forall P sep = true ->
  Forall (fun piece => string_forall P piece = true) pieces ->
  string_forall P (String.concat sep pieces) = true.
Proof.
  intros Hsep. induction 1 as [|piece pieces Hpiece _ IH]; [reflexivity|].
  cbn [String.concat]. destruct pieces as [|next pieces]; [exact Hpiece|].
  change (?a ++ ?b)%string with (a +:+ b).
  now rewrite !string_forall_app, Hpiece, Hsep, IH.
Qed.

Lemma form_urlencode_is_safe (s : string) :
  string_forall query_char (form_urlencode s) = true.
Proof.
  apply string_forall_map_chars.
  intros c. destruct c as [[] [] [] [] [] [] [] []]; reflexivity.
Qed.

Lemma toString_is_safe (q : URLSearchParams.t) :
  string_forall query_char (URLSearchParams.toString q) = true.
Proof.
  unfold URLSearchParams.toString. apply string_forall_concat; [reflexivity|].
  apply Forall_map, Forall_forall. intros e _.
  now rewrite !string_forall_app, !form_urlencode_is_safe.
Qed.

Lemma query_char_is_no_delimiter (c : ascii) :
  query_char c = true -> negb (url_delimiter c) = true.
Proof. destruct c as [[] [] [] [] [] [] [] []]; vm_compute; congruence. Qed.

(** The query [buildQueryString] builds is made of form-safe characters,
    escapes and the two separators only: no value can put a slash, a
    question mark, a hash or a space into the URL.  Entries that are
    [undefined] or [null], and the two pagination entries, leave no trace:
    when there is nothing else the query is empty. *)
Theorem filter_query_cannot_break_the_url (params : list (string * JsValue)) :
  string_forall query_char (buildQueryString params) = true
  /\ string_forall (fun c => negb (url_delimiter c)) (buildQueryString params) = true
  /\ (Forall (fun entry => entry.2 = JUndefined \/ entry.2 = JNull
                           \/ entry.1 = "perPage" \/ entry.1 = "page") params ->
      buildQueryString params = "").
Proof.
  assert (Hsafe : string_forall query_char (buildQueryString params) = true)
    by apply toString_is_safe.
  split; [exact Hsafe|]. split.
  - exact (string_forall_weaken _ _ _ query_char_is_no_delimiter Hsafe).
  - clear Hsafe. intros Hskip. unfold buildQueryString.
    match goal with |- URLSearchParams.toString (fold_left ?f _ _) = _ =>
      assert (Hfold : forall q : URLSearchParams.t, fold_left f params q = q)
    end.
    { induction Hskip as [|[key value] params [H|[H|[H|H]]] _ IH]; intros q;
        cbn [fold_left fst snd] in *; subst.
      + reflexivity.
      + apply IH.
      + apply IH.
      + destruct value; cbn; apply IH.
      + destruct value; cbn; apply IH. }
    now rewrite Hfold.
Qed.

End Queries.

Section SnakeCase.

Import Text.

Lemma snake_piece_has_no_capital (c : ascii) :
  no_upper (if is_upper c then "_" +:+ single (to_lower c) else single c) = true.
Proof. destruct c as [[] [] [] [] [] [] [] []]; reflexivity. Qed.

(** [toSnakeCase] leaves no ASCII capital behind, leaves a name without
    capitals as it is, and so changes nothing when applied twice. *)
Theorem toSnakeCase_leaves_no_capital (s : string) :
  no_upper (toSnakeCase s) = true
  /\ (no_upper s = true -> toSnakeCase s = s)
  /\ toSnakeCase (toSnakeCase s) = toSnakeCase s.
Proof.
  assert (Hnone : forall t, no_upper (toSnakeCase t) = true).
  { intros t. apply string_forall_map_chars, snake_piece_has_no_capital. }
  assert (Hsame : forall t, no_upper t = true -> toSnakeCase t = t).
  { induction t as [|c t IH]; [reflexivity|]. unfold no_upper. cbn [string_forall].
    intros H. apply andb_true_iff in H as [Hc Ht]. apply negb_true_iff in Hc.
    unfold toSnakeCase in *. cbn [map_chars]. rewrite Hc.
    change (single c +:+ ?x) with (String c x). now rewrite (IH Ht). }
  split; [apply Hnone|]. split; [apply Hsame|]. apply Hsame, Hnone.
Qed.

End SnakeCase.

Section Suffixes.

Import Text.
Context {rt : Runtime}.

Lemma toString_of_entries_has_an_equals_sign (q : URLSearchParams.t) :
  q <> [] -> includes_char "=" (URLSearchParams.toString q) = true.
Proof.
  destruct q as [|e q]; [now intros H|]. intros _.
  unfold URLSearchParams.toString. cbn [map String.concat].
  destruct (map _ q);
    change (?a ++ ?b)%string with (a +:+ b);
    rewrite !includes_char_app; cbn [includes_char];
    rewrite N.eqb_refl; cbn; now rewrite ?orb_true_r.
Qed.

Lemma pagination_query_is_empty (params : option PaginationParams.t) :
  pagination_query params = []
  <-> absent_or_falsy (params ≫= PaginationParams.perPage) = true
      /\ absent_or_falsy (params ≫= PaginationParams.page) = true.
Proof.
  unfold pagination_query, absent_or_falsy.
  destruct (params ≫= PaginationParams.perPage) as [n|];
    destruct (params ≫= PaginationParams.page) as [k|];
    try destruct (number_truthy n); try destruct (number_truthy k);
    cbn; split; try (intros H; discriminate H); try (intros [H1 H2]; discriminate);
    now try split.
Qed.

(** [requestWithPagination] appends nothing to the endpoint when neither
    [perPage] nor [page] passes its truthiness test (absent, zero or
    [NaN]); otherwise it appends the pagination query after [&] when the
    endpoint already has a question mark and after [?] when it has none,
    and the query itself holds neither of the two nor a slash, a hash or a
    space. *)
Theorem pagination_is_appended_with_the_right_separator
    (credentials : TenantCredentials) (auth : gmap string string)
    (endpoint : string) (params : option PaginationParams.t) (options : RequestInit) :
  req_url (page_request_sent credentials auth endpoint params options)
  = baseUrl credentials +:+ endpoint +:+ pagination_suffix endpoint params
  /\ (pagination_suffix endpoint params = ""
      <-> absent_or_falsy (params ≫= PaginationParams.perPage) = true
          /\ absent_or_falsy (params ≫= PaginationParams.page) = true)
  /\ (pagination_suffix endpoint params <> "" ->
      exists query,
        pagination_suffix endpoint params
        = (if includes_char "?" endpoint then "&" else "?") +:+ query
        /\ query <> ""
        /\ string_forall (fun c => negb (url_delimiter c)) query = true).
Proof.
  split; [reflexivity|].
  assert (Hempty : URLSearchParams.toString (pagination_query params) = ""
                   <-> pagination_query params = []).
  { split; [|now intros ->]. intros H.
    destruct (pagination_query params) as [|e q] eqn:E; [reflexivity|].
    assert (Heq : includes_char "=" (URLSearchParams.toString (e :: q)) = true)
      by now apply toString_of_entries_has_an_equals_sign.
    rewrite H in Heq. discriminate Heq. }
  unfold pagination_suffix. split.
  - rewrite <- pagination_query_is_empty, <- Hempty.
    destruct (String.eqb_spec (URLSearchParams.toString (pagination_query params)) "")
      as [Hq|Hq]; [now split|].
    split; [|now intros H; contradiction Hq].
    destruct (includes_char "?" endpoint); intros H; discriminate H.
  - destruct (String.eqb_spec (URLSearchParams.toString (pagination_query params)) "")
      as [Hq|Hq]; [now intros H|]. intros _.
    exists (URLSearchParams.toString (pagination_query params)).
    split; [reflexivity|]. split; [exact Hq|].
    exact (string_forall_weaken _ _ _ query_char_is_no_delimiter (toString_is_safe _)).
Qed.

End Suffixes.

Section Escapes.

Import Text.

Lemma unescape_escaped_byte (c : ascii) (rest : string) :
  unescape ((if uri_unreserved c then single c else percent_byte c) +:+ rest)
  = String c <$> unescape rest.
Proof. destruct c as [[] [] [] [] [] [] [] []]; reflexivity. Qed.

Lemma unescape_encodeURIComponent (s : string) :
  unescape (encodeURIComponent s) = Some s.
Proof.
  induction s as [|c s IH]; [reflexivity|].
  unfold encodeURIComponent in *. cbn [map_chars].
  now rewrite unescape_escaped_byte, IH.
Qed.

Lemma encodeURIComponent_is_injective (a b : string) :
  encodeURIComponent a = encodeURIComponent b -> a = b.
Proof.
  intros H. apply (f_equal unescape) in H.
  rewrite !unescape_encodeURIComponent in H. now injection H.
Qed.

Context {rt : Runtime}.

(** Escaping loses nothing: percent-decoding the escaped identifier gives
    the identifier back, so two calls that address the same endpoint
    address the same collection and the same identifier text (a number
    and the string of its digits are the same identifier). *)
Theorem same_endpoint_means_same_identifier
    (m1 m2 : Method.t) (root1 root2 : string) (id1 id2 : Ident) :
  scope_of m1 = Some (root1, id1) ->
  scope_of m2 = Some (root2, id2) ->
  endpoint_of (dispatch m1) = endpoint_of (dispatch m2) ->
  root1 = root2
  /\ String_ id1 = String_ id2
  /\ unescape (encodeURIComponent (String_ id1)) = Some (String_ id1).
Proof.
  intros H1 H2 Heq.
  destruct (dispatch_endpoint_shape m1 root1 id1 H1) as (rest1 & E1 & Hrest1 & Hroot1).
  destruct (dispatch_endpoint_shape m2 root2 id2 H2) as (rest2 & E2 & Hrest2 & Hroot2).
  assert (P1 : take 3 (split_on "/" (endpoint_of (dispatch m1)))
               = [""; root1; encodeURIComponent (String_ id1)]).
  { rewrite E1. apply third_piece; [now destruct Hroot1 as [-> | ->]| |exact Hrest1].
    apply encodeURIComponent_has_no_slash. }
  assert (P2 : take 3 (split_on "/" (endpoint_of (dispatch m2)))
               = [""; root2; encodeURIComponent (String_ id2)]).
  { rewrite E2. apply third_piece; [now destruct Hroot2 as [-> | ->]| |exact Hrest2].
    apply encodeURIComponent_has_no_slash. }
  rewrite Heq, P2 in P1. injection P1 as Hr Hid.
  split; [now symmetry|]. split; [|apply unescape_encodeURIComponent].
  symmetry. now apply encodeURIComponent_is_injective.
Qed.

End Escapes.

(** ** Routes and tools *)

Section Routing.

Context {rt : Runtime}.

(** Only [POST /mcp] runs the server.  Any other request is answered
    without reading the credentials and without touching the transport,
    with an answer that depends on the path alone: the health answer for
    [/health], status 501 for [/sse], and the information page with
    status 200 for everything else, [/mcp] under another method included. *)
Theorem only_post_mcp_runs_the_server (pathname method : string) :
  ~ (pathname = "/mcp" /\ method = "POST") ->
  exists response,
    (forall request_headers serve log,
       Routes.fetch pathname method request_headers serve log = (Returned response, log))
    /\ response
       = (if String.eqb pathname "/health" then Routes.health
          else if String.eqb pathname "/sse" then Routes.sse
          else Routes.info)
    /\ Worker.http_status response = (if String.eqb pathname "/sse" then 501 else 200).
Proof.
  intros Hnot. unfold Routes.fetch.
  destruct (String.eqb_spec pathname "/health") as [->|Hh].
  { exists Routes.health. now repeat split. }
  destruct (String.eqb_spec pathname "/mcp") as [->|Hm].
  { destruct (String.eqb_spec method "POST") as [->|Hp]; [now contradiction Hnot|].
    exists Routes.info. now repeat split. }
  destruct (String.eqb_spec pathname "/sse") as [->|Hs].
  - exists Routes.sse. now repeat split.
  - exists Routes.info. now repeat split.
Qed.

End Routing.

Section ToolTables.

Import Tools.

(** The names advertised on the information page are the registered
    ones, in registration order and without repetition, and every [case]
    of every handler is registered.  Of the 67 registered tools, 66 have
    a [case] in the handler they are handed to; the handler of
    [gitlab_delete_merged_branches] has none, so that tool always throws
    ["Unknown repository tool: gitlab_delete_merged_branches"], before any
    argument is parsed and any request is sent. *)
Theorem one_registered_tool_has_no_case
    (body : Family -> string -> JsValue -> Async string)
    (args : JsValue) (log : list FetchRequest) :
  map fst registered = Routes.TOOL_NAMES
  /\ NoDup Routes.TOOL_NAMES
  /\ (forall family name, In name (cases family) -> In (name, family) registered)
  /\ Forall (fun entry =>
               entry.1 = "gitlab_delete_merged_branches"
               \/ handle body entry.2 entry.1 args = body entry.2 entry.1 args)
            registered
  /\ In ("gitlab_delete_merged_branches", Repository) registered
  /\ handle body Repository "gitlab_delete_merged_branches" args log
     = (Thrown (Error "Unknown repository tool: gitlab_delete_merged_branches"), log).
Proof.
  split; [reflexivity|]. split.
  { apply (bool_decide_unpack _). vm_compute. exact I. }
  split.
  { intros family name Hin.
    assert (H : forallb (fun name =>
                  existsb (fun entry =>
                    String.eqb entry.1 name
                    && match entry.2, family with
                       | User, User | Project, Project | Group, Group
                       | Repository, Repository | MergeRequest, MergeRequest
                       | Issue, Issue | Pipeline, Pipeline => true
                       | _, _ => false
                       end) registered) (cases family) = true)
      by (destruct family; vm_compute; reflexivity).
    rewrite forallb_forall in H. specialize (H name Hin).
    apply existsb_exists in H as ([name' family'] & Hreg & Hmatch).
    apply andb_true_iff in Hmatch as [Hname Hfamily]. cbn in Hname, Hfamily.
    apply String.eqb_eq in Hname. subst name'.
    destruct family', family; try discriminate Hfamily; exact Hreg. }
  split.
  { assert (H : forallb (fun entry =>
                  String.eqb entry.1 "gitlab_delete_merged_branches"
                  || existsb (String.eqb entry.1) (cases entry.2)) registered = true)
      by (vm_compute; reflexivity).
    rewrite forallb_forall in H. apply List.Forall_forall. intros entry Hin.
    specialize (H entry Hin). apply orb_true_iff in H as [H|H].
    - left. now apply String.eqb_eq.
    - right. unfold handle. now rewrite H. }
  split; [|reflexivity].
  unfold registered. cbn [In]. repeat first [left; reflexivity | right].
Qed.

End ToolTables.

(** ** Further runs on explicit inputs *)

Section FurtherRuns.

#[local] Existing Instance Mock.runtime.

Lemma hasMore_follows_the_next_page_header_witness :
  let credentials := Mock.with_private_token in
  let response := Mock.respond 200 [("X-Total", "42"); ("X-Next-Page", "")] "[1,2,3]" in
  let transport := Mock.always response in
  let auth : gmap string string :=
    {[ "PRIVATE-TOKEN" := "glpat-123"; "Content-Type" := "application/json" ]} in
  let p := {| PaginatedResponse.items := Mock.three_items;
              PaginatedResponse.count := JNumber (Num 3);
              PaginatedResponse.total := Some (Num 42);
              PaginatedResponse.hasMore := false;
              PaginatedResponse.page := None;
              PaginatedResponse.nextPage := None;
              PaginatedResponse.totalPages := None |} in
  getAuthHeaders credentials = Returned auth
  /\ transport [] (page_request_sent credentials auth "/projects" None no_options)
     = Returned response
  /\ fst (requestWithPagination credentials transport "/projects" None no_options [])
     = Returned p
  /\ PaginatedResponse.hasMore p
     = present (Headers_get (resp_headers response) "X-Next-Page")
  /\ PaginatedResponse.hasMore p = false.
Proof.
  intros credentials response transport auth p.
  assert (Ha : getAuthHeaders credentials = Returned auth) by reflexivity.
  assert (Ht : transport [] (page_request_sent credentials auth "/projects" None no_options)
               = Returned response) by reflexivity.
  assert (Hp : fst (requestWithPagination credentials transport "/projects" None
                      no_options []) = Returned p) by (vm_compute; reflexivity).
  destruct (hasMore_follows_the_next_page_header credentials transport "/projects" None
              no_options [] auth response p Ha Ht Hp) as (Hmore & _).
  repeat (split; [assumption|]). reflexivity.
Defined.

Lemma raw_text_calls_return_the_body_as_it_is_witness :
  let credentials := Mock.with_private_token in
  let response := Mock.respond 401 [] "denied" in
  let transport := Mock.always response in
  let auth : gmap string string :=
    {[ "PRIVATE-TOKEN" := "glpat-123"; "Content-Type" := "application/json" ]} in
  let m := Method.getJobLog (IdNumber (Num 7)) (Num 42) in
  dispatch m = FetchText "/projects/7/jobs/42/trace" "Failed to get job log: "
  /\ getAuthHeaders credentials = Returned auth
  /\ transport [] (text_request_sent credentials auth "/projects/7/jobs/42/trace")
     = Returned response
  /\ fst (call credentials transport m [])
     = Thrown (GitLabApiError (JString "Failed to get job log: 401") 401).
Proof.
  intros credentials response transport auth m.
  assert (Hd : dispatch m = FetchText "/projects/7/jobs/42/trace" "Failed to get job log: ")
    by reflexivity.
  assert (Ha : getAuthHeaders credentials = Returned auth) by reflexivity.
  assert (Ht : transport [] (text_request_sent credentials auth "/projects/7/jobs/42/trace")
               = Returned response) by reflexivity.
  destruct (raw_text_calls_return_the_body_as_it_is credentials transport m _ _ []
              auth response Hd Ha Ht) as (_ & Hcall).
  repeat (split; [assumption|]). exact Hcall.
Defined.

Lemma no_content_is_returned_without_decoding_witness :
  let credentials := Mock.with_private_token in
  let response := Mock.respond 204 [] "this is not JSON" in
  let transport := Mock.always response in
  let auth : gmap string string :=
    {[ "PRIVATE-TOKEN" := "glpat-123"; "Content-Type" := "application/json" ]} in
  getAuthHeaders credentials = Returned auth
  /\ status response = 204
  /\ fst (request credentials transport "/projects/7" no_options []) = Returned JUndefined
  /\ fst (call credentials transport (Method.deleteProject (IdNumber (Num 7))) [])
     = Returned Void
  /\ fst (call credentials transport (Method.listProjects None) [])
     = Thrown (SyntaxError "Unexpected token in JSON").
Proof.
  intros credentials response transport auth.
  assert (Ha : getAuthHeaders credentials = Returned auth) by reflexivity.
  assert (Hs : status response = 204) by reflexivity.
  destruct (no_content_is_returned_without_decoding credentials transport [] auth
              response Ha Hs) as (Hrequest & Hcall).
  repeat (split; [assumption|]). split; [|split].
  - exact (Hrequest "/projects/7" no_options eq_refl).
  - exact (Hcall (Method.deleteProject (IdNumber (Num 7))) eq_refl).
  - exact (Hcall (Method.listProjects None) eq_refl).
Defined.

Lemma same_endpoint_means_same_identifier_witness :
  let m1 := Method.getProject (IdString "7") in
  let m2 := Method.getProject (IdNumber (Num 7)) in
  scope_of m1 = Some ("projects", IdString "7")
  /\ scope_of m2 = Some ("projects", IdNumber (Num 7))
  /\ endpoint_of (dispatch m1) = endpoint_of (dispatch m2)
  /\ String_ (IdString "7") = String_ (IdNumber (Num 7)).
Proof.
  intros m1 m2.
  assert (H1 : scope_of m1 = Some ("projects", IdString "7")) by reflexivity.
  assert (H2 : scope_of m2 = Some ("projects", IdNumber (Num 7))) by reflexivity.
  assert (He : endpoint_of (dispatch m1) = endpoint_of (dispatch m2)) by reflexivity.
  destruct (same_endpoint_means_same_identifier m1 m2 _ _ _ _ H1 H2 He) as (_ & Hid & _).
  repeat (split; [assumption|]). exact Hid.
Defined.

Lemma only_post_mcp_runs_the_server_witness :
  ~ ("/mcp" = "/mcp" /\ "GET" = "POST")
  /\ Routes.fetch "/mcp" "GET" (Headers_of [("X-GitLab-Token", "glpat-123")])
       (fun _ => ret Routes.health) []
     = (Returned Routes.info, []).
Proof.
  assert (Hnot : ~ ("/mcp" = "/mcp" /\ "GET" = "POST")) by (intros [_ H]; discriminate H).
  split; [exact Hnot|].
  destruct (only_post_mcp_runs_the_server "/mcp" "GET" Hnot) as (response & Hfetch & -> & _).
  apply Hfetch.
Defined.

Lemma next_page_exists_exactly_when_more_items_witness :
  - 2 ^ 53 <= 2 < 2 ^ 53
  /\ (is_Some (PageArithmetic.getNextPage (Num 2) (Num 3))
      <-> PageArithmetic.hasMoreItems (Num 2) (Num 3) = true)
  /\ (forall next,
        PageArithmetic.getNextPage (Num 2) (Num 3) = Some next ->
        next = Num (2 + 1) /\ 2 + 1 <= 3).
Proof.
  assert (H2 : - 2 ^ 53 <= 2 < 2 ^ 53) by lia.
  split; [exact H2|].
  destruct (next_page_exists_exactly_when_more_items 2 3 H2) as (Hiff & Hnext & _).
  split; [exact Hiff | exact Hnext].
Defined.

End FurtherRuns.

(** ** The base URL and the names of a query *)

Section BaseUrl.

Import Text.
Context {rt : Runtime}.

(** The base URL of every request is the [X-GitLab-Base-URL] header of
    the inbound request when that header is there and not empty, and
    [https://gitlab.com/api/v4] otherwise.  It is used as it is (nothing
    is trimmed or added between it and the endpoint): the URL of every
    method is the base URL, the endpoint and, for a list method, the
    pagination query. *)
Theorem base_url_override_is_used_as_it_is
    (request_headers : Headers) (m : Method.t) (auth : gmap string string) :
  let credentials := parseTenantCredentials request_headers in
  let base :=
    match Headers_get request_headers "X-GitLab-Base-URL" with
    | Some url => if String.eqb url "" then DEFAULT_API_BASE_URL else url
    | None => DEFAULT_API_BASE_URL
    end in
  baseUrl credentials = base
  /\ req_url (sent credentials auth (dispatch m))
     = base +:+ endpoint_of (dispatch m)
       +:+ match dispatch m with
           | RequestWithPagination endpoint params => pagination_suffix endpoint params
           | _ => ""
           end.
Proof.
  intros credentials base.
  assert (Hbase : baseUrl credentials = base).
  { unfold baseUrl, credentials, parseTenantCredentials, or_undefined, base.
    cbn [Env.baseUrl]. rewrite if_present_idempotent. unfold if_present, present.
    destruct (Headers_get request_headers "X-GitLab-Base-URL") as [url|]; [|reflexivity].
    now destruct (String.eqb url ""). }
  split; [exact Hbase|]. rewrite <- Hbase.
  destruct (dispatch m); cbn [sent endpoint_of req_url request_sent page_request_sent
                              text_request_sent];
    rewrite ?app_empty_r; reflexivity.
Qed.

End BaseUrl.

Section QueryNames.

Lemma replace_first_keeps_the_names (name value : string) (q : URLSearchParams.t) :
  NoDup (map fst q) ->
  map fst (URLSearchParams.replace_first name value q) = map fst q.
Proof.
  induction q as [|[n v] q IH]; [reflexivity|]. cbn [map fst URLSearchParams.replace_first].
  intros Hnd. apply NoDup_cons in Hnd as [Hnotin Hnd].
  destruct (String.eqb_spec n name) as [->|Hne]; cbn [map fst].
  - f_equal. clear IH Hnd. induction q as [|[n' v'] q IH]; [reflexivity|].
    cbn [map fst] in Hnotin. apply not_elem_of_cons in Hnotin as [Hne Hnotin].
    rewrite filter_cons. cbn [fst].
    destruct (String.eqb_spec n' name) as [->|Hne']; [now contradiction Hne|].
    cbn. rewrite decide_True by exact I. cbn [map fst]. now rewrite (IH Hnotin).
  - now rewrite (IH Hnd).
Qed.

Lemma set_keeps_the_names_apart (name value : string) (q : URLSearchParams.t) :
  NoDup (map fst q) -> NoDup (map fst (URLSearchParams.set q name value)).
Proof.
  intros Hnd. unfold URLSearchParams.set. cbv zeta.
  generalize (toWellFormed name) (toWellFormed value). clear name value.
  intros name value.
  destruct (existsb (fun e => String.eqb e.1 name) q) eqn:E.
  - now rewrite replace_first_keeps_the_names.
  - rewrite map_app. cbn [map fst]. apply NoDup_app. split; [exact Hnd|].
    split; [|apply NoDup_singleton].
    intros x Hx Hx'. apply list_elem_of_singleton in Hx'. subst x.
    apply list_elem_of_fmap in Hx as ([n v] & Hn & Hin). cbn in Hn. subst n.
    assert (Htrue : existsb (fun e => String.eqb e.1 name) q = true).
    { apply existsb_exists. exists (name, v). split; [now apply list_elem_of_In|].
      cbn. apply String.eqb_refl. }
    congruence.
Qed.

(** [buildQueryString] sends no parameter twice: the query it serialises
    has each name once, also when two property names give the same name
    in snake case. *)
Theorem filter_query_names_are_distinct (params : list (string * JsValue)) :
  exists q : URLSearchParams.t,
    buildQueryString params = URLSearchParams.toString q
    /\ NoDup (map fst q).
Proof.
  unfold buildQueryString at 1.
  match goal with |- context [fold_left ?f params []] =>
    exists (fold_left f params []); split; [reflexivity|];
    assert (H : forall q : URLSearchParams.t,
               NoDup (map fst q) -> NoDup (map fst (fold_left f params q)))
  end.
  { induction params as [|[key value] params IH]; intros q Hq; [exact Hq|].
    cbn [fold_left]. apply IH.
    destruct value; try exact Hq;
      destruct (String.eqb key "perPage" || String.eqb key "page"); try exact Hq;
      now apply set_keeps_the_names_apart. }
  apply H. constructor.
Qed.

End QueryNames.

(** ** The identifier in the parsed path *)

Section ParsedPath.

Import Text.

Lemma segment_char_is_plain (c : ascii) :
  URL.segment_char c = true -> URL.plain c = true.
Proof. destruct c as [[] [] [] [] [] [] [] []]; vm_compute; congruence. Qed.

Lemma plain_char (c : ascii) :
  URL.plain c = true ->
  URL.is_separator c = false /\ URL.ends_path c = false
  /\ URL.is_c0_control_or_space c = false /\ URL.is_tab_or_newline c = false.
Proof. destruct c as [[] [] [] [] [] [] [] []]; vm_compute; intuition congruence. Qed.

Lemma escaped_byte_chars (c : ascii) :
  string_forall URL.segment_char
    (if uri_unreserved c then single c else percent_byte c) = true.
Proof. destruct c as [[] [] [] [] [] [] [] []]; reflexivity. Qed.

Lemma encodeURIComponent_chars (s : string) :
  string_forall URL.segment_char (encodeURIComponent s) = true.
Proof. apply string_forall_map_chars, escaped_byte_chars. Qed.

Lemma encodeURIComponent_is_plain (s : string) :
  string_forall URL.plain (encodeURIComponent s) = true.
Proof.
  apply (string_forall_weaken URL.segment_char); [apply segment_char_is_plain|].
  apply encodeURIComponent_chars.
Qed.

Lemma tab_or_newline_is_trimmed (c : ascii) :
  URL.is_c0_control_or_space c = false -> URL.is_tab_or_newline c = false.
Proof. destruct c as [[] [] [] [] [] [] [] []]; vm_compute; congruence. Qed.

Lemma prepare_cons (c : ascii) (r : string) :
  URL.is_c0_control_or_space c = false ->
  URL.prepare (String c r) = String c (URL.prepare r).
Proof.
  intros Hc. unfold URL.prepare. cbn [URL.trim_end]. rewrite Hc. cbn [andb].
  cbn [URL.remove_tab_newline]. now rewrite (tab_or_newline_is_trimmed c Hc).
Qed.

Lemma prepare_app (p r : string) :
  string_forall (fun c => negb (URL.is_c0_control_or_space c)) p = true ->
  URL.prepare (p +:+ r) = p +:+ URL.prepare r.
Proof.
  induction p as [|c p IH]; intros Hp; [reflexivity|].
  cbn [string_forall] in Hp. apply andb_true_iff in Hp as [Hc Hp].
  apply negb_true_iff in Hc. rewrite !app_cons, (prepare_cons _ _ Hc).
  now rewrite (IH Hp).
Qed.

Lemma prepare_plain (p r : string) :
  string_forall URL.plain p = true -> URL.prepare (p +:+ r) = p +:+ URL.prepare r.
Proof.
  intros Hp. apply prepare_app. revert Hp. apply string_forall_weaken.
  intros c Hc. now destruct (plain_char c Hc) as (_ & _ & -> & _).
Qed.

Lemma path_state_plain (s r buffer : string) (path : list string) :
  string_forall URL.plain s = true ->
  URL.path_state path buffer (s +:+ r) = URL.path_state path (buffer +:+ s) r.
Proof.
  revert buffer. induction s as [|c s IH]; intros buffer Hs.
  - now rewrite app_empty_r.
  - cbn [string_forall] in Hs. apply andb_true_iff in Hs as [Hc Hs].
    rewrite app_cons. cbn [URL.path_state].
    destruct (plain_char c Hc) as (-> & -> & _). rewrite (IH _ Hs).
    now rewrite app_assoc_string.
Qed.

Lemma steps_back_plain (s r buffer : string) :
  string_forall URL.plain s = true ->
  URL.steps_back buffer (s +:+ r) = URL.steps_back (buffer +:+ s) r.
Proof.
  revert buffer. induction s as [|c s IH]; intros buffer Hs.
  - now rewrite app_empty_r.
  - cbn [string_forall] in Hs. apply andb_true_iff in Hs as [Hc Hs].
    rewrite app_cons. cbn [URL.steps_back].
    destruct (plain_char c Hc) as (-> & -> & _). rewrite (IH _ Hs).
    now rewrite app_assoc_string.
Qed.

Lemma close_keeps (p q : list string) (buffer : string) (at_slash : bool) :
  URL.is_double_dot buffer = false ->
  URL.close (p ++ q) buffer at_slash = p ++ URL.close q buffer at_slash.
Proof.
  intros H. unfold URL.close. rewrite H.
  destruct (URL.is_single_dot buffer), at_slash; now rewrite <- ?app_assoc.
Qed.

(** Without a double-dot segment nothing that was read is removed. *)
Lemma path_state_keeps (input buffer : string) (p q : list string) :
  URL.steps_back buffer input = false ->
  URL.path_state (p ++ q) buffer input = p ++ URL.path_state q buffer input.
Proof.
  revert buffer q. induction input as [|c input IH]; intros buffer q H;
    cbn [URL.steps_back URL.path_state] in *.
  - now apply close_keeps.
  - destruct (URL.ends_path c); [now apply close_keeps|].
    destruct (URL.is_separator c).
    + apply orb_false_iff in H as [Hb Hs]. rewrite (close_keeps _ _ _ _ Hb).
      now apply IH.
    + now apply IH.
Qed.

Lemma toLowerCase_cons (c : ascii) (s : string) :
  toLowerCase (String c s) = String (to_lower c) (toLowerCase s).
Proof. reflexivity. Qed.

Lemma unreserved_is_no_percent (c : ascii) :
  uri_unreserved c = true -> to_lower c <> "%"%char.
Proof. destruct c as [[] [] [] [] [] [] [] []]; vm_compute; congruence. Qed.

Lemma lower_dot (c : ascii) : to_lower c = "."%char -> c = "."%char.
Proof. destruct c as [[] [] [] [] [] [] [] []]; vm_compute; congruence. Qed.

Lemma single_dot_unreserved (c : ascii) (t : string) :
  uri_unreserved c = true -> URL.is_single_dot (String c t) = true ->
  c = "."%char /\ t = "".
Proof.
  intros Hc H. unfold URL.is_single_dot in H.
  apply orb_true_iff in H as [H|H]; apply String.eqb_eq in H.
  - now injection H.
  - rewrite toLowerCase_cons in H. injection H as Hlow _.
    now destruct (unreserved_is_no_percent c Hc).
Qed.

Lemma double_dot_unreserved (c : ascii) (t : string) :
  uri_unreserved c = true -> URL.is_double_dot (String c t) = true ->
  c = "."%char /\ URL.is_single_dot t = true.
Proof.
  intros Hc H. unfold URL.is_double_dot in H.
  repeat (apply orb_true_iff in H as [H|H]); apply String.eqb_eq in H;
    rewrite ?toLowerCase_cons in H.
  - injection H as -> ->. now split.
  - injection H as Hlow Ht. split; [now apply lower_dot|].
    unfold URL.is_single_dot. rewrite Ht. apply orb_true_r.
  - injection H as Hlow _. now destruct (unreserved_is_no_percent c Hc).
  - injection H as Hlow _. now destruct (unreserved_is_no_percent c Hc).
Qed.

Lemma escape_is_no_dot (c : ascii) (t : string) :
  uri_unreserved c = false ->
  URL.is_single_dot (percent_byte c +:+ t) = false
  /\ URL.is_double_dot (percent_byte c +:+ t) = false.
Proof.
  destruct c as [[] [] [] [] [] [] [] []]; intros H; try discriminate H;
    split; reflexivity.
Qed.

Lemma encodeURIComponent_cons (c : ascii) (s : string) :
  encodeURIComponent (String c s)
  = (if uri_unreserved c then single c else percent_byte c) +:+ encodeURIComponent s.
Proof. reflexivity. Qed.

Lemma encodeURIComponent_empty (s : string) : encodeURIComponent s = "" -> s = "".
Proof.
  destruct s as [|c s]; [reflexivity|]. rewrite encodeURIComponent_cons.
  destruct (uri_unreserved c); discriminate.
Qed.

(** The escaped text is a dot segment only when the text itself is one. *)
Lemma escaped_single_dot (s : string) :
  URL.is_single_dot (encodeURIComponent s) = true -> s = ".".
Proof.
  destruct s as [|c s]; [discriminate|]. rewrite encodeURIComponent_cons.
  destruct (uri_unreserved c) eqn:Hc; intros H.
  - destruct (single_dot_unreserved _ _ Hc H) as [-> Hs].
    now rewrite (encodeURIComponent_empty _ Hs).
  - destruct (escape_is_no_dot c (encodeURIComponent s) Hc) as [E _]. congruence.
Qed.

Lemma escaped_double_dot (s : string) :
  URL.is_double_dot (encodeURIComponent s) = true -> s = "..".
Proof.
  destruct s as [|c s]; [discriminate|]. rewrite encodeURIComponent_cons.
  destruct (uri_unreserved c) eqn:Hc; intros H.
  - destruct (double_dot_unreserved _ _ Hc H) as [-> Hs].
    now rewrite (escaped_single_dot _ Hs).
  - destruct (escape_is_no_dot c (encodeURIComponent s) Hc) as [_ E]. congruence.
Qed.

Lemma plain_has_no_question_mark (s : string) :
  string_forall URL.plain s = true -> includes_char "?" s = false.
Proof.
  induction s as [|c s IH]; [reflexivity|]. cbn [string_forall includes_char].
  intros H. apply andb_true_iff in H as [Hc Hs]. rewrite (IH Hs), orb_false_r.
  revert Hc. clear. destruct c as [[] [] [] [] [] [] [] []]; vm_compute; congruence.
Qed.

(** The path of a URL under the default base URL. *)
Lemma pathname_default (t : string) :
  URL.pathname (DEFAULT_API_BASE_URL +:+ String "/" t)
  = Some (URL.path_from ["api"; "v4"] t).
Proof.
  unfold URL.pathname, URL.path_from.
  assert (E : URL.remove_tab_newline
                (URL.trim_start (URL.trim_end (DEFAULT_API_BASE_URL +:+ String "/" t)))
              = DEFAULT_API_BASE_URL +:+ String "/" (URL.prepare t)).
  { change (URL.remove_tab_newline (URL.trim_end (DEFAULT_API_BASE_URL +:+ String "/" t))
            = DEFAULT_API_BASE_URL +:+ String "/" (URL.prepare t)).
    change (URL.prepare (DEFAULT_API_BASE_URL +:+ String "/" t)
            = DEFAULT_API_BASE_URL +:+ String "/" (URL.prepare t)).
    rewrite prepare_app by reflexivity. now rewrite prepare_cons. }
  cbv zeta. rewrite E. reflexivity.
Qed.

Context {rt : Runtime}.

Lemma pagination_suffix_shape (endpoint : string) (params : option PaginationParams.t) :
  pagination_suffix endpoint params = ""
  \/ (exists q, pagination_suffix endpoint params = String "?" q)
  \/ (exists q, pagination_suffix endpoint params = String "&" q
                /\ includes_char "?" endpoint = true).
Proof.
  unfold pagination_suffix. cbv zeta.
  destruct (String.eqb _ ""); [now left|]. right.
  destruct (includes_char "?" endpoint); [right | left]; eexists; [split|]; reflexivity.
Qed.

Lemma sent_url (credentials : TenantCredentials) (auth : gmap string string)
    (d : Dispatch) :
  req_url (sent credentials auth d) = baseUrl credentials +:+ URL.target_of d.
Proof.
  unfold URL.target_of.
  destruct d; cbn [sent endpoint_of req_url request_sent page_request_sent
                   text_request_sent];
    rewrite ?app_empty_r; reflexivity.
Qed.

(** What every method with a project or group identifier appends to the
    base URL: the collection, the escaped identifier, and a rest that is
    empty or starts with a slash or a question mark. *)
Lemma target_shape (m : Method.t) (root : string) (id : Ident) :
  scope_of m = Some (root, id) ->
  exists rest,
    URL.target_of (dispatch m)
    = "/" +:+ root +:+ "/" +:+ encodeURIComponent (String_ id) +:+ rest
    /\ (rest = "" \/ exists c r, rest = String c r /\ (c = "/"%char \/ c = "?"%char))
    /\ (root = "projects" \/ root = "groups").
Proof.
  intros Hscope.
  destruct (dispatch_endpoint_shape m root id Hscope) as (rest & E & Hrest & Hroot).
  assert (Hwiden : rest = "" \/ exists c r, rest = String c r
                                           /\ (c = "/"%char \/ c = "?"%char)).
  { destruct Hrest as [-> | [r ->]]; [now left | right; eauto]. }
  unfold URL.target_of.
  destruct (dispatch m) as [e o|e o|e params|e f|e|] eqn:Hd; cbn [endpoint_of] in E |- *;
    try (exists rest; rewrite app_empty_r; now repeat split).
  destruct (pagination_suffix_shape e params) as [-> | [[q ->] | [q [-> Hq]]]].
  - exists rest. rewrite app_empty_r. now repeat split.
  - exists (rest +:+ String "?" q). rewrite E, !app_assoc_string.
    split; [reflexivity|]. split; [|exact Hroot]. right.
    destruct Hrest as [-> | [r ->]]; [exists "?"%char, q | exists "/"%char, (r +:+ String "?" q)];
      now split; [|auto].
  - exists (rest +:+ String "&" q). rewrite E, !app_assoc_string.
    split; [reflexivity|]. split; [|exact Hroot]. right.
    destruct Hrest as [-> | [r ->]].
    + rewrite E, app_empty_r, !includes_char_app in Hq.
      rewrite (plain_has_no_question_mark _ (encodeURIComponent_is_plain _)) in Hq.
      destruct Hroot as [-> | ->]; discriminate Hq.
    + exists "/"%char, (r +:+ String "&" q). now split; [|auto].
Qed.

(** Reading the collection and the text that follows it. *)
Lemma path_after_collection (root text rest : string) (prior : list string) :
  root = "projects" \/ root = "groups" ->
  string_forall URL.plain text = true ->
  URL.path_from prior (root +:+ "/" +:+ text +:+ rest)
  = URL.path_state (prior ++ [root]) text (URL.prepare rest).
Proof.
  intros Hroot Htext. unfold URL.path_from.
  assert (Hplain : string_forall URL.plain root = true)
    by (destruct Hroot as [-> | ->]; reflexivity).
  assert (Hclose : URL.close prior root true = prior ++ [root])
    by (destruct Hroot as [-> | ->]; reflexivity).
  rewrite (prepare_plain _ _ Hplain).
  change ("/" +:+ text +:+ rest) with (String "/" (text +:+ rest)).
  rewrite (prepare_cons "/" _ eq_refl), (prepare_plain _ _ Htext).
  rewrite (path_state_plain _ _ _ _ Hplain). cbn [URL.path_state].
  change (URL.ends_path "/") with false. change (URL.is_separator "/") with true.
  cbv iota. change ("" +:+ root) with root. rewrite Hclose.
  now rewrite (path_state_plain _ _ _ _ Htext).
Qed.

Lemma steps_back_after_collection (root text rest : string) :
  root = "projects" \/ root = "groups" ->
  string_forall URL.plain text = true ->
  URL.steps_back "" (URL.prepare ("/" +:+ root +:+ "/" +:+ text +:+ rest))
  = URL.steps_back text (URL.prepare rest).
Proof.
  intros Hroot Htext.
  assert (Hplain : string_forall URL.plain root = true)
    by (destruct Hroot as [-> | ->]; reflexivity).
  assert (Hdots : URL.is_double_dot root = false)
    by (destruct Hroot as [-> | ->]; reflexivity).
  change ("/" +:+ root +:+ "/" +:+ text +:+ rest)
    with (String "/" (root +:+ String "/" (text +:+ rest))).
  rewrite (prepare_cons "/" _ eq_refl), (prepare_plain _ _ Hplain).
  rewrite (prepare_cons "/" _ eq_refl), (prepare_plain _ _ Htext).
  cbn [URL.steps_back]. change (URL.ends_path "/") with false.
  change (URL.is_separator "/") with true. cbv iota.
  change (URL.is_double_dot "") with false. cbn [orb].
  rewrite (steps_back_plain _ _ _ Hplain). cbn [URL.steps_back].
  change (URL.ends_path "/") with false. change (URL.is_separator "/") with true.
  cbv iota. change ("" +:+ root) with root. rewrite Hdots. cbn [orb].
  now rewrite (steps_back_plain _ _ _ Htext).
Qed.

(** What follows the identifier, once prepared, is still empty or starts
    with a slash or a question mark. *)
Lemma prepared_rest (rest : string) :
  rest = "" \/ (exists c r, rest = String c r /\ (c = "/"%char \/ c = "?"%char)) ->
  URL.prepare rest = ""
  \/ (exists r, rest = String "/" r /\ URL.prepare rest = String "/" (URL.prepare r))
  \/ (exists r, rest = String "?" r /\ URL.prepare rest = String "?" (URL.prepare r)).
Proof.
  intros [-> | (c & r & -> & [-> | ->])]; [now left | right; left | right; right];
    exists r; split; reflexivity.
Qed.

(** A segment that is no dot segment stays where it is read, provided no
    double-dot segment comes after it. *)
Lemma segment_stays (text rest : string) :
  URL.is_single_dot text = false ->
  URL.prepare rest = ""
  \/ (exists r, rest = String "/" r /\ URL.prepare rest = String "/" (URL.prepare r))
  \/ (exists r, rest = String "?" r /\ URL.prepare rest = String "?" (URL.prepare r)) ->
  URL.steps_back text (URL.prepare rest) = false ->
  exists later,
    forall path, URL.path_state path text (URL.prepare rest) = path ++ [text] ++ later.
Proof.
  intros Hsingle Hrest Hback.
  assert (Hclose : forall path at_slash,
            URL.is_double_dot text = false ->
            URL.close path text at_slash = path ++ [text]).
  { intros path at_slash Hd. unfold URL.close. now rewrite Hd, Hsingle. }
  destruct Hrest as [E | [(r & _ & E) | (r & _ & E)]]; rewrite E in *;
    cbn [URL.steps_back URL.path_state] in *.
  - exists []. intros path. now apply Hclose.
  - change (URL.ends_path "/") with false in *.
    change (URL.is_separator "/") with true in *. cbv iota in *.
    apply orb_false_iff in Hback as [Hd Hr].
    exists (URL.path_state [] "" (URL.prepare r)). intros path.
    rewrite (Hclose _ _ Hd), <- (app_nil_r (path ++ [text])).
    rewrite (path_state_keeps _ _ _ _ Hr). now rewrite <- app_assoc.
  - change (URL.ends_path "?") with true in *. cbv iota in *.
    exists []. intros path. now apply Hclose.
Qed.

(** For every method that takes a project or a group identifier other
    than [.], and whose request path has no double-dot segment (so the
    identifier is not [..] either), the URL parser reads the escaped
    identifier as one path segment, right after the collection, and keeps
    it: the path of the request is the path of the base URL, the
    collection, the escaped identifier, and what the rest of the endpoint
    gives.  The escaped identifier holds unreserved characters and
    escapes only, is no dot segment, and decodes to the identifier. *)
Theorem identifier_is_one_parsed_segment
    (m : Method.t) (root : string) (id : Ident) :
  scope_of m = Some (root, id) ->
  String_ id <> "." ->
  URL.steps_back "" (URL.prepare (URL.target_of (dispatch m))) = false ->
  let escaped_id := encodeURIComponent (String_ id) in
  string_forall URL.segment_char escaped_id = true
  /\ URL.is_single_dot escaped_id = false
  /\ URL.is_double_dot escaped_id = false
  /\ unescape escaped_id = Some (String_ id)
  /\ (forall credentials auth,
        req_url (sent credentials auth (dispatch m))
        = baseUrl credentials +:+ URL.target_of (dispatch m))
  /\ exists later,
       (forall prior,
          URL.path_from prior (URL.relative (URL.target_of (dispatch m)))
          = prior ++ [root; escaped_id] ++ later)
       /\ URL.pathname (DEFAULT_API_BASE_URL +:+ URL.target_of (dispatch m))
          = Some (["api"; "v4"; root; escaped_id] ++ later).
Proof.
  intros Hscope Hdot Hback escaped_id.
  destruct (target_shape m root id Hscope) as (rest & E & Hrest & Hroot).
  fold escaped_id in E.
  pose proof (encodeURIComponent_is_plain (String_ id)) as Hplain. fold escaped_id in Hplain.
  rewrite E, (steps_back_after_collection _ _ _ Hroot Hplain) in Hback.
  assert (Hsingle : URL.is_single_dot escaped_id = false).
  { destruct (URL.is_single_dot escaped_id) eqn:H; [|reflexivity].
    now destruct (Hdot (escaped_single_dot _ H)). }
  destruct (segment_stays escaped_id rest Hsingle (prepared_rest _ Hrest) Hback)
    as (later & Hlater).
  assert (Hdouble : URL.is_double_dot escaped_id = false).
  { destruct (prepared_rest _ Hrest) as [R | [(r & _ & R) | (r & _ & R)]];
      rewrite R in Hback; cbn [URL.steps_back] in Hback; [exact Hback| |exact Hback].
    change (URL.ends_path "/") with false in Hback.
    change (URL.is_separator "/") with true in Hback. cbv iota in Hback.
    now apply orb_false_iff in Hback as [Hd _]. }
  split; [apply encodeURIComponent_chars|]. split; [exact Hsingle|].
  split; [exact Hdouble|]. split; [apply unescape_encodeURIComponent|].
  split; [intros credentials auth; apply sent_url|].
  exists later.
  assert (Hpath : forall prior,
            URL.path_from prior (URL.relative (URL.target_of (dispatch m)))
            = prior ++ [root; escaped_id] ++ later).
  { intros prior. rewrite E.
    change (URL.relative ("/" +:+ root +:+ "/" +:+ escaped_id +:+ rest))
      with (root +:+ "/" +:+ escaped_id +:+ rest).
    rewrite (path_after_collection _ _ _ _ Hroot Hplain), Hlater.
    now rewrite <- app_assoc. }
  split; [exact Hpath|].
  rewrite E at 1.
  change ("/" +:+ root +:+ "/" +:+ escaped_id +:+ rest)
    with (String "/" (URL.relative ("/" +:+ root +:+ "/" +:+ escaped_id +:+ rest))).
  rewrite <- E, pathname_default, Hpath. reflexivity.
Qed.

(** The double-dot identifier removes itself and the collection from the
    path, whatever the method. *)
Lemma double_dot_identifier_is_removed (m : Method.t) (root : string) (id : Ident) :
  scope_of m = Some (root, id) -> String_ id = ".." ->
  exists rest,
    URL.target_of (dispatch m) = "/" +:+ root +:+ "/.." +:+ rest
    /\ forall prior,
         URL.path_from prior (URL.relative (URL.target_of (dispatch m)))
         = URL.path_from prior (URL.relative rest).
Proof.
  intros Hscope Hid.
  destruct (target_shape m root id Hscope) as (rest & E & Hrest & Hroot).
  rewrite Hid in E. change (encodeURIComponent "..") with ".." in E.
  exists rest. split; [exact E|]. intros prior. rewrite E.
  change (URL.relative ("/" +:+ root +:+ "/" +:+ ".." +:+ rest))
    with (root +:+ "/" +:+ ".." +:+ rest).
  rewrite (path_after_collection root ".." rest prior Hroot eq_refl).
  assert (Hshort : URL.shorten (prior ++ [root]) = prior) by apply removelast_last.
  destruct Hrest as [-> | (c & r & -> & [-> | ->])].
  - cbn [URL.relative]. unfold URL.path_from. cbn. unfold URL.close. cbn.
    now rewrite Hshort.
  - change (URL.relative (String "/" r)) with r. unfold URL.path_from.
    rewrite (prepare_cons "/" r eq_refl). cbn [URL.path_state].
    change (URL.ends_path "/") with false. change (URL.is_separator "/") with true.
    cbv iota. unfold URL.close. cbn. now rewrite Hshort.
  - change (URL.relative (String "?" r)) with (String "?" r). unfold URL.path_from.
    rewrite (prepare_cons "?" r eq_refl). cbn [URL.path_state].
    change (URL.ends_path "?") with true. cbv iota. unfold URL.close. cbn.
    now rewrite Hshort.
Qed.

(** The single-dot identifier is dropped from the path, whatever the
    method. *)
Lemma single_dot_identifier_is_dropped (m : Method.t) (root : string) (id : Ident) :
  scope_of m = Some (root, id) -> String_ id = "." ->
  exists rest,
    URL.target_of (dispatch m) = "/" +:+ root +:+ "/." +:+ rest
    /\ forall prior,
         URL.path_from prior (URL.relative (URL.target_of (dispatch m)))
         = URL.path_from prior (root +:+ "/" +:+ URL.relative rest).
Proof.
  intros Hscope Hid.
  destruct (target_shape m root id Hscope) as (rest & E & Hrest & Hroot).
  rewrite Hid in E. change (encodeURIComponent ".") with "." in E.
  exists rest. split; [exact E|]. intros prior. rewrite E.
  change (URL.relative ("/" +:+ root +:+ "/" +:+ "." +:+ rest))
    with (root +:+ "/" +:+ "." +:+ rest).
  rewrite (path_after_collection root "." rest prior Hroot eq_refl).
  change (root +:+ "/" +:+ URL.relative rest)
    with (root +:+ "/" +:+ "" +:+ URL.relative rest).
  rewrite (path_after_collection root "" (URL.relative rest) prior Hroot eq_refl).
  destruct Hrest as [-> | (c & r & -> & [-> | ->])].
  - reflexivity.
  - change (URL.relative (String "/" r)) with r.
    rewrite (prepare_cons "/" r eq_refl). reflexivity.
  - change (URL.relative (String "?" r)) with (String "?" r).
    rewrite (prepare_cons "?" r eq_refl). reflexivity.
Qed.

(** C10 at a failing input.  [encodeURIComponent] leaves the identifiers
    [..] and [.] as they are, and the URL parser of [fetch] treats them as
    dot segments: [getBranch("..", "main")] sends its request to
    [/api/v4/repository/branches/main], without the identifier and
    without the collection, and [getProject("..")] to [/api/v4/].  This
    holds of every method with a project or group identifier: [..]
    removes itself and the collection from the path, [.] is dropped.  The
    example of the specification holds: [group/sub-project] is sent as the
    one segment [group%2Fsub-project]. *)
Theorem dot_identifier_is_no_path_segment :
  let credentials := Mock.with_private_token in
  (forall transport,
     exists r,
       snd (invoke credentials transport (Method.getBranch (IdString "..") "main") [])
       = [r]
       /\ req_url r = "https://gitlab.com/api/v4/projects/../repository/branches/main"
       /\ URL.pathname (req_url r) = Some ["api"; "v4"; "repository"; "branches"; "main"])
  /\ (forall auth,
        URL.pathname
          (req_url (sent credentials auth (dispatch (Method.getProject (IdString "..")))))
        = Some ["api"; "v4"; ""])
  /\ (forall auth,
        URL.pathname
          (req_url (sent credentials auth (dispatch (Method.getProject (IdString ".")))))
        = Some ["api"; "v4"; "projects"; ""])
  /\ (forall m root id,
        scope_of m = Some (root, id) -> String_ id = ".." ->
        exists rest,
          URL.target_of (dispatch m) = "/" +:+ root +:+ "/.." +:+ rest
          /\ forall prior,
               URL.path_from prior (URL.relative (URL.target_of (dispatch m)))
               = URL.path_from prior (URL.relative rest))
  /\ (forall m root id,
        scope_of m = Some (root, id) -> String_ id = "." ->
        exists rest,
          URL.target_of (dispatch m) = "/" +:+ root +:+ "/." +:+ rest
          /\ forall prior,
               URL.path_from prior (URL.relative (URL.target_of (dispatch m)))
               = URL.path_from prior (root +:+ "/" +:+ URL.relative rest))
  /\ (forall auth,
        URL.pathname
          (req_url (sent credentials auth
                      (dispatch (Method.getBranch (IdString "group/sub-project") "main"))))
        = Some ["api"; "v4"; "projects"; "group%2Fsub-project"; "repository";
                "branches"; "main"]).
Proof.
  intros credentials. split; [|split; [|split; [|split; [|split]]]].
  - intros transport.
    assert (Ha : getAuthHeaders credentials
                 = Returned {[ "PRIVATE-TOKEN" := "glpat-123";
                               "Content-Type" := "application/json" ]})
      by reflexivity.
    eexists. split; [|split].
    + unfold invoke. cbn [escaped forallb]. change (isWellFormed _) with true.
      cbn [andb]. unfold call. rewrite (run_with_credentials _ _ _ _ _ Ha). reflexivity.
    + reflexivity.
    + vm_compute. reflexivity.
  - intros auth. vm_compute. reflexivity.
  - intros auth. vm_compute. reflexivity.
  - exact double_dot_identifier_is_removed.
  - exact single_dot_identifier_is_dropped.
  - intros auth. vm_compute. reflexivity.
Qed.

End ParsedPath.

Section ParsedPathRuns.

Import Text.
#[local] Existing Instance Mock.runtime.

Lemma identifier_is_one_parsed_segment_witness :
  let m := Method.getBranch (IdString "group/sub-project") "main" in
  scope_of m = Some ("projects", IdString "group/sub-project")
  /\ String_ (IdString "group/sub-project") <> "."
  /\ URL.steps_back "" (URL.prepare (URL.target_of (dispatch m))) = false
  /\ unescape "group%2Fsub-project" = Some "group/sub-project"
  /\ URL.pathname (DEFAULT_API_BASE_URL +:+ URL.target_of (dispatch m))
     = Some ["api"; "v4"; "projects"; "group%2Fsub-project"; "repository"; "branches";
             "main"].
Proof.
  intros m.
  assert (Hs : scope_of m = Some ("projects", IdString "group/sub-project"))
    by reflexivity.
  assert (Hd : String_ (IdString "group/sub-project") <> ".") by discriminate.
  assert (Hb : URL.steps_back "" (URL.prepare (URL.target_of (dispatch m))) = false)
    by reflexivity.
  destruct (identifier_is_one_parsed_segment m _ _ Hs Hd Hb)
    as (_ & _ & _ & Hunescape & _ & later & Hprior & Hpath).
  split; [exact Hs|]. split; [exact Hd|]. split; [exact Hb|].
  split; [exact Hunescape|].
  pose proof (Hprior []) as Hlater. vm_compute in Hlater.
  injection Hlater as <-. exact Hpath.
Defined.

Lemma every_call_sends_one_request_or_none_witness :
  let m := Method.getProject (IdString Mock.lone_surrogate) in
  let transport := Mock.always (Mock.respond 200 [] "{}") in
  forallb isWellFormed (escaped m) = false
  /\ invoke Mock.with_private_token transport m []
     = (Thrown (URIError "URI malformed"), []).
Proof.
  intros m transport.
  assert (H : forallb isWellFormed (escaped m) = false) by reflexivity.
  split; [exact H|].
  exact (proj2 (every_call_sends_one_request_or_none Mock.with_private_token transport
                  m []) H).
Defined.

End ParsedPathRuns.
